(** * Usage aggregation, risk scoring and pattern detection

    A shallow embedding of the computational core of the usage-tracking
    backend: [usage_tracker.py] (daily aggregation and the continuity
    calculator), [addiction_predictor.py] (rule-based risk scorer and
    insight generator), [behavior_analyzer.py] (anomaly detection and the
    consistency score) and [real_time_tracker.py] (pattern detector).

    Conventions.  Counts, hours and calendar days are integers ([Z]).
    Durations come in two embeddings.  In the modules named after the
    source files they are exact rationals ([Q]): this is Python's
    arithmetic on [int] durations, and it is used for the properties
    that do not depend on rounding.  In the modules whose name ends in
    [64] they are IEEE 754 binary64 numbers (Rocq's primitive [float],
    the type of Python's [float]), with the library functions [np.mean]
    and [np.polyfit] taken as parameters.  A [dict] read with
    [.get(k, 0)] is a [gmap]; a [dict] whose iteration order is observed
    is an insertion-ordered association list. *)

From Stdlib Require Import PrimFloat FloatOps SpecFloat.
From Stdlib Require Import ZArith QArith Qabs Qminmax Qround Qreals Reals Lqa Lra.
From stdpp Require Import gmap strings list sorting pretty.

Ltac qlra := Lqa.lra.
Ltac rlra := Lra.lra.

(** ** Python and numpy primitives *)

#[global] Instance Qlt_decision (x y : Q) : Decision (x < y)%Q :=
  decide (Qnum x * QDen y < Qnum y * QDen x)%Z.
#[global] Instance Qle_decision (x y : Q) : Decision (x <= y)%Q :=
  decide (Qnum x * QDen y ≤ Qnum y * QDen x)%Z.
#[global] Instance Qeq_decision (x y : Q) : Decision (x == y)%Q :=
  decide (Qnum x * QDen y = Qnum y * QDen x)%Z.

Module Py.

(** [sum(xs)]: left-to-right addition starting from [0]. *)
Definition sum (xs : list Q) : Q := fold_left Qplus xs 0%Q.

(** [max(a, b)] and [min(a, b)]: the first argument wins ties. *)
Definition max (a b : Q) : Q := if decide (a < b)%Q then b else a.
Definition min (a b : Q) : Q := if decide (b < a)%Q then b else a.

(** [len(xs)]. *)
Definition len {A} (xs : list A) : Z := Z.of_nat (length xs).

(** The slices [xs[-n:]] and [xs[:-n]] for a positive literal [n]. *)
Definition last_n {A} (n : nat) (xs : list A) : list A :=
  drop (length xs - n) xs.
Definition but_last_n {A} (n : nat) (xs : list A) : list A :=
  take (length xs - n) xs.

(** [sorted(xs, key=...)]: a stable sort, here by insertion. *)
Fixpoint insert_by {A} (key : A → Z) (x : A) (xs : list A) : list A :=
  match xs with
  | [] => [x]
  | y :: ys => if decide (key x ≤ key y)%Z then x :: y :: ys
               else y :: insert_by key x ys
  end.
Definition sorted {A} (key : A → Z) (xs : list A) : list A :=
  foldr (insert_by key) [] xs.

(** [np.mean(xs)] in exact arithmetic. *)
Definition mean (xs : list Q) : Q := (sum xs / inject_Z (len xs))%Q.

(** [np.std(xs)]: the population standard deviation. *)
Definition std (xs : list Q) : R :=
  sqrt (Q2R (mean ((λ x, (x - mean xs) * (x - mean xs))%Q <$> xs))).

(** The slope of the least-squares line through the points
    [(xs_i, ys_i)], in exact arithmetic; [np.polyfit(xs, ys, 1)[0]]
    returns a double near it. *)
Definition polyfit_slope (xs ys : list Q) : Q :=
  let n := inject_Z (len xs) in
  let sx := sum xs in
  let sy := sum ys in
  let sxy := sum (zip_with Qmult xs ys) in
  let sxx := sum ((λ x, x * x)%Q <$> xs) in
  ((n * sxy - sx * sy) / (n * sxx - sx * sx))%Q.

(** [range(n)] as numbers. *)
Definition range (n : nat) : list Q := (λ i, inject_Z (Z.of_nat i)) <$> seq 0 n.

(** A [defaultdict(float)] filled by [d[k] += v], kept in insertion
    order. *)
Fixpoint dict_add (k : Z) (v : Q) (d : list (Z * Q)) : list (Z * Q) :=
  match d with
  | [] => [(k, (0 + v)%Q)]
  | (k', w) :: d' => if decide (k = k') then (k', (w + v)%Q) :: d'
                     else (k', w) :: dict_add k v d'
  end.
Definition accumulate (kvs : list (Z * Q)) : list (Z * Q) :=
  fold_left (λ d kv, dict_add kv.1 kv.2 d) kvs [].

(** [max(d, key=d.get)]: the first key, in insertion order, whose value
    is maximal. *)
Fixpoint argmax (best : Z * Q) (d : list (Z * Q)) : Z * Q :=
  match d with
  | [] => best
  | kv :: d' => argmax (if decide (best.2 < kv.2)%Q then kv else best) d'
  end.

(** A [defaultdict(list)] filled by [d[k].append(x)], kept in insertion
    order. *)
Fixpoint group_add {A} (k : Z) (x : A) (d : list (Z * list A))
    : list (Z * list A) :=
  match d with
  | [] => [(k, [x])]
  | (k', xs) :: d' => if decide (k = k') then (k', xs ++ [x]) :: d'
                      else (k', xs) :: group_add k x d'
  end.
Definition group_by {A} (key : A → Z) (xs : list A) : list (Z * list A) :=
  fold_left (λ d x, group_add (key x) x d) xs [].

(** [needle in hay] on strings. *)
Fixpoint contains (needle hay : string) : bool :=
  String.prefix needle hay
  || match hay with
     | EmptyString => false
     | String _ hay' => contains needle hay'
     end.

(** A [defaultdict(float)] with string keys, filled by [d[k] += v] and
    kept in insertion order. *)
Fixpoint dict_add_str (k : string) (v : Q) (d : list (string * Q))
    : list (string * Q) :=
  match d with
  | [] => [(k, (0 + v)%Q)]
  | (k', w) :: d' => if decide (k = k') then (k', (w + v)%Q) :: d'
                     else (k', w) :: dict_add_str k v d'
  end.
Definition accumulate_str (kvs : list (string * Q)) : list (string * Q) :=
  fold_left (λ d kv, dict_add_str kv.1 kv.2 d) kvs [].

(** [sorted(xs, key=..., reverse=True)]: a stable sort in descending
    order of the key, here by insertion. *)
Fixpoint insert_desc {A} (key : A → Q) (x : A) (xs : list A) : list A :=
  match xs with
  | [] => [x]
  | y :: ys => if decide (key x < key y)%Q then y :: insert_desc key x ys
               else x :: y :: ys
  end.
Definition sorted_desc {A} (key : A → Q) (xs : list A) : list A :=
  foldr (insert_desc key) [] xs.

End Py.

(** ** [datetime] values *)

Module datetime.

(** A naive [datetime]: the proleptic ordinal of its calendar day and
    the time of day. *)
Record t := mk {
  ordinal : Z;
  hour : Z;
  minute : Z;
  second : Z;
  microsecond : Z
}.

(** [ts.date()], a calendar day; [d - timedelta(days=i)] is [d - i]. *)
Definition date (ts : t) : Z := ordinal ts.

Definition micros (ts : t) : Z :=
  (((ordinal ts * 24 + hour ts) * 60 + minute ts) * 60 + second ts) * 1000000
  + microsecond ts.

(** [(a - b).total_seconds()]. *)
Definition total_seconds_between (a b : t) : Q :=
  (inject_Z (micros a - micros b) / 1000000)%Q.

(** [a >= b]. *)
Definition ge (a b : t) : Prop := (micros b ≤ micros a)%Z.
#[global] Instance ge_decision (a b : t) : Decision (ge a b) :=
  decide (micros b ≤ micros a)%Z.

(** [ts.replace(hour=0, minute=0, second=0, microsecond=0)]. *)
Definition midnight (ts : t) : t := mk (ordinal ts) 0 0 0 0.

(** [d.weekday()] of a calendar day: Monday is 0, and day 1 of the
    proleptic calendar is a Monday. *)
Definition weekday (day : Z) : Z := ((day + 6) `mod` 7)%Z.

End datetime.

(** ** usage_tracker.py *)

Module UsageTracker.

(** A raw usage log as the persistence layer stores it: every log has
    a timestamp, an app name and a duration in minutes, so
    [log.get('duration', 0)] and [log['duration']] read the same
    field. *)
Record UsageEvent := {
  timestamp : datetime.t;
  app_name : string;
  duration : Q
}.

(** The daily record.  [app_usage] is present only in the records of
    [process_logs_to_daily]; [date] is the calendar day (rendered with
    [str] there). *)
Record DailyAggregate := {
  date : Z;
  total_duration : Q;
  session_count : Z;
  app_usage : option (gmap string Q);
  morning_usage : Q;
  afternoon_usage : Q;
  evening_usage : Q;
  night_usage : Q;
  binge_sessions : Z;
  max_continuous_usage : Q;
  social_media_time : Q;
  entertainment_time : Q;
  productivity_time : Q;
  other_time : Q
}.

Definition hour_of (s : UsageEvent) : Z := datetime.hour (timestamp s).

(** The loop of [_calculate_max_continuous] from index [i] on, where
    [prev] is [sorted_sessions[i-1]]. *)
Fixpoint max_continuous_loop (prev : UsageEvent) (rest : list UsageEvent)
    (max_continuous current_continuous : Q) : Q :=
  match rest with
  | [] => Py.max max_continuous current_continuous
  | s :: rest' =>
      let time_gap :=
        (datetime.total_seconds_between (timestamp s) (timestamp prev) / 60)%Q in
      if decide (time_gap < 5)%Q
      then max_continuous_loop s rest' max_continuous
             (current_continuous + duration s)%Q
      else max_continuous_loop s rest'
             (Py.max max_continuous current_continuous) (duration s)
  end.

Definition _calculate_max_continuous (sorted_sessions : list UsageEvent) : Q :=
  match sorted_sessions with
  | [] => 0%Q
  | s0 :: rest => max_continuous_loop s0 rest 0%Q (duration s0)
  end.

Definition social_apps : gset string :=
  {[ "Instagram"; "TikTok"; "WhatsApp"; "Facebook"; "Twitter"; "Snapchat" ]}.
Definition entertainment_apps : gset string :=
  {[ "YouTube"; "Netflix"; "Spotify"; "Games"; "Twitch" ]}.
Definition productivity_apps : gset string :=
  {[ "Chrome"; "Email"; "Calendar"; "Notes"; "Office" ]}.

(** [sum(s['duration'] for s in sessions if P(s))]. *)
Definition sum_where (P : UsageEvent → Prop) `{∀ s, Decision (P s)}
    (sessions : list UsageEvent) : Q :=
  Py.sum (duration <$> filter P sessions).

(** The metrics [aggregate_daily_data] computes once it knows that
    [daily_sessions] is not empty. *)
Definition daily_metrics (target_date : Z) (daily_sessions : list UsageEvent)
    : DailyAggregate :=
  let total_duration := Py.sum (duration <$> daily_sessions) in
  let session_count := Py.len daily_sessions in
  let morning_usage :=
    sum_where (λ s, 6 ≤ hour_of s ∧ hour_of s < 12)%Z daily_sessions in
  let afternoon_usage :=
    sum_where (λ s, 12 ≤ hour_of s ∧ hour_of s < 18)%Z daily_sessions in
  let evening_usage :=
    sum_where (λ s, 18 ≤ hour_of s ∧ hour_of s < 22)%Z daily_sessions in
  let night_usage :=
    sum_where (λ s, 22 ≤ hour_of s ∨ hour_of s < 6)%Z daily_sessions in
  let binge_sessions :=
    Py.len (filter (λ s, 45 < duration s)%Q daily_sessions) in
  let sorted_sessions :=
    Py.sorted (λ x, datetime.micros (timestamp x)) daily_sessions in
  let max_continuous := _calculate_max_continuous sorted_sessions in
  let social_media_time :=
    sum_where (λ s, app_name s ∈ social_apps) daily_sessions in
  let entertainment_time :=
    sum_where (λ s, app_name s ∈ entertainment_apps) daily_sessions in
  let productivity_time :=
    sum_where (λ s, app_name s ∈ productivity_apps) daily_sessions in
  let other_time :=
    (total_duration - social_media_time - entertainment_time
     - productivity_time)%Q in
  {| date := target_date;
     total_duration := total_duration;
     session_count := session_count;
     app_usage := None;
     morning_usage := morning_usage;
     afternoon_usage := afternoon_usage;
     evening_usage := evening_usage;
     night_usage := night_usage;
     binge_sessions := binge_sessions;
     max_continuous_usage := max_continuous;
     social_media_time := social_media_time;
     entertainment_time := entertainment_time;
     productivity_time := productivity_time;
     other_time := Py.max 0 other_time |}.

(** [aggregate_daily_data]; [None] is Python's [None]. *)
Definition aggregate_daily_data (raw_logs : list UsageEvent) (target_date : Z)
    : option DailyAggregate :=
  let daily_sessions :=
    filter (λ log, datetime.date (timestamp log) = target_date) raw_logs in
  match daily_sessions with
  | [] => None
  | _ :: _ => Some (daily_metrics target_date daily_sessions)
  end.

(** The all-zero record of [get_three_day_data] and the fresh record of
    [process_logs_to_daily]. *)
Definition zero_record (d : Z) (usage : option (gmap string Q)) : DailyAggregate :=
  {| date := d; total_duration := 0; session_count := 0;
     app_usage := usage;
     morning_usage := 0; afternoon_usage := 0; evening_usage := 0;
     night_usage := 0; binge_sessions := 0; max_continuous_usage := 0;
     social_media_time := 0; entertainment_time := 0;
     productivity_time := 0; other_time := 0 |}.

(** [get_three_day_data]; [today] is [datetime.now().date()]. *)
Definition get_three_day_data (today : Z) (raw_logs : list UsageEvent)
    : list DailyAggregate :=
  (λ i : Z,
     let target_date := (today - i)%Z in
     match aggregate_daily_data raw_logs target_date with
     | Some daily_data => daily_data
     | None => zero_record target_date None
     end) <$> [2; 1; 0]%Z.

(** [str.lower] on the ASCII letters. *)
Definition lower_ascii (c : Ascii.ascii) : Ascii.ascii :=
  let n := Ascii.nat_of_ascii c in
  if decide (65 ≤ n ∧ n ≤ 90)%nat then Ascii.ascii_of_nat (n + 32) else c.
Fixpoint lower (s : string) : string :=
  match s with
  | EmptyString => EmptyString
  | String c s' => String (lower_ascii c) (lower s')
  end.

(** In-place updates [day_data[field] += x] of one record. *)
Definition add_total (x : Q) (r : DailyAggregate) : DailyAggregate :=
  {| date := date r; total_duration := total_duration r + x;
     session_count := session_count r; app_usage := app_usage r;
     morning_usage := morning_usage r; afternoon_usage := afternoon_usage r;
     evening_usage := evening_usage r; night_usage := night_usage r;
     binge_sessions := binge_sessions r;
     max_continuous_usage := max_continuous_usage r;
     social_media_time := social_media_time r;
     entertainment_time := entertainment_time r;
     productivity_time := productivity_time r; other_time := other_time r |}.
Definition add_session (r : DailyAggregate) : DailyAggregate :=
  {| date := date r; total_duration := total_duration r;
     session_count := session_count r + 1; app_usage := app_usage r;
     morning_usage := morning_usage r; afternoon_usage := afternoon_usage r;
     evening_usage := evening_usage r; night_usage := night_usage r;
     binge_sessions := binge_sessions r;
     max_continuous_usage := max_continuous_usage r;
     social_media_time := social_media_time r;
     entertainment_time := entertainment_time r;
     productivity_time := productivity_time r; other_time := other_time r |}.
Definition add_app_usage (name : string) (x : Q) (r : DailyAggregate)
    : DailyAggregate :=
  let usage := default ∅ (app_usage r) in
  {| date := date r; total_duration := total_duration r;
     session_count := session_count r;
     app_usage := Some (<[name := (default 0 (usage !! name) + x)%Q]> usage);
     morning_usage := morning_usage r; afternoon_usage := afternoon_usage r;
     evening_usage := evening_usage r; night_usage := night_usage r;
     binge_sessions := binge_sessions r;
     max_continuous_usage := max_continuous_usage r;
     social_media_time := social_media_time r;
     entertainment_time := entertainment_time r;
     productivity_time := productivity_time r; other_time := other_time r |}.
Definition add_night (x : Q) (r : DailyAggregate) : DailyAggregate :=
  {| date := date r; total_duration := total_duration r;
     session_count := session_count r; app_usage := app_usage r;
     morning_usage := morning_usage r; afternoon_usage := afternoon_usage r;
     evening_usage := evening_usage r; night_usage := night_usage r + x;
     binge_sessions := binge_sessions r;
     max_continuous_usage := max_continuous_usage r;
     social_media_time := social_media_time r;
     entertainment_time := entertainment_time r;
     productivity_time := productivity_time r; other_time := other_time r |}.
Definition add_morning (x : Q) (r : DailyAggregate) : DailyAggregate :=
  {| date := date r; total_duration := total_duration r;
     session_count := session_count r; app_usage := app_usage r;
     morning_usage := morning_usage r + x; afternoon_usage := afternoon_usage r;
     evening_usage := evening_usage r; night_usage := night_usage r;
     binge_sessions := binge_sessions r;
     max_continuous_usage := max_continuous_usage r;
     social_media_time := social_media_time r;
     entertainment_time := entertainment_time r;
     productivity_time := productivity_time r; other_time := other_time r |}.
Definition add_afternoon (x : Q) (r : DailyAggregate) : DailyAggregate :=
  {| date := date r; total_duration := total_duration r;
     session_count := session_count r; app_usage := app_usage r;
     morning_usage := morning_usage r; afternoon_usage := afternoon_usage r + x;
     evening_usage := evening_usage r; night_usage := night_usage r;
     binge_sessions := binge_sessions r;
     max_continuous_usage := max_continuous_usage r;
     social_media_time := social_media_time r;
     entertainment_time := entertainment_time r;
     productivity_time := productivity_time r; other_time := other_time r |}.
Definition add_evening (x : Q) (r : DailyAggregate) : DailyAggregate :=
  {| date := date r; total_duration := total_duration r;
     session_count := session_count r; app_usage := app_usage r;
     morning_usage := morning_usage r; afternoon_usage := afternoon_usage r;
     evening_usage := evening_usage r + x; night_usage := night_usage r;
     binge_sessions := binge_sessions r;
     max_continuous_usage := max_continuous_usage r;
     social_media_time := social_media_time r;
     entertainment_time := entertainment_time r;
     productivity_time := productivity_time r; other_time := other_time r |}.
Definition add_social (x : Q) (r : DailyAggregate) : DailyAggregate :=
  {| date := date r; total_duration := total_duration r;
     session_count := session_count r; app_usage := app_usage r;
     morning_usage := morning_usage r; afternoon_usage := afternoon_usage r;
     evening_usage := evening_usage r; night_usage := night_usage r;
     binge_sessions := binge_sessions r;
     max_continuous_usage := max_continuous_usage r;
     social_media_time := social_media_time r + x;
     entertainment_time := entertainment_time r;
     productivity_time := productivity_time r; other_time := other_time r |}.
Definition add_entertainment (x : Q) (r : DailyAggregate) : DailyAggregate :=
  {| date := date r; total_duration := total_duration r;
     session_count := session_count r; app_usage := app_usage r;
     morning_usage := morning_usage r; afternoon_usage := afternoon_usage r;
     evening_usage := evening_usage r; night_usage := night_usage r;
     binge_sessions := binge_sessions r;
     max_continuous_usage := max_continuous_usage r;
     social_media_time := social_media_time r;
     entertainment_time := entertainment_time r + x;
     productivity_time := productivity_time r; other_time := other_time r |}.
Definition add_productivity (x : Q) (r : DailyAggregate) : DailyAggregate :=
  {| date := date r; total_duration := total_duration r;
     session_count := session_count r; app_usage := app_usage r;
     morning_usage := morning_usage r; afternoon_usage := afternoon_usage r;
     evening_usage := evening_usage r; night_usage := night_usage r;
     binge_sessions := binge_sessions r;
     max_continuous_usage := max_continuous_usage r;
     social_media_time := social_media_time r;
     entertainment_time := entertainment_time r;
     productivity_time := productivity_time r + x; other_time := other_time r |}.
Definition add_other (x : Q) (r : DailyAggregate) : DailyAggregate :=
  {| date := date r; total_duration := total_duration r;
     session_count := session_count r; app_usage := app_usage r;
     morning_usage := morning_usage r; afternoon_usage := afternoon_usage r;
     evening_usage := evening_usage r; night_usage := night_usage r;
     binge_sessions := binge_sessions r;
     max_continuous_usage := max_continuous_usage r;
     social_media_time := social_media_time r;
     entertainment_time := entertainment_time r;
     productivity_time := productivity_time r; other_time := other_time r + x |}.

(** The body of the loop of [process_logs_to_daily] once
    [day_data = daily_data[date]] is bound. *)
Definition add_log (log : UsageEvent) (day_data : DailyAggregate)
    : DailyAggregate :=
  let day_data := add_total (duration log) day_data in
  let day_data := add_session day_data in
  let app_name := app_name log in
  let day_data := add_app_usage app_name (duration log) day_data in
  let hour := hour_of log in
  let day_data :=
    if decide (22 ≤ hour ∨ hour ≤ 6)%Z then add_night (duration log) day_data
    else if decide (6 < hour ∧ hour ≤ 12)%Z
         then add_morning (duration log) day_data
    else if decide (12 < hour ∧ hour ≤ 18)%Z
         then add_afternoon (duration log) day_data
    else add_evening (duration log) day_data in
  if decide (lower app_name ∈
               ["instagram"; "facebook"; "twitter"; "snapchat"; "tiktok"])
  then add_social (duration log) day_data
  else if decide (lower app_name ∈ ["youtube"; "netflix"; "spotify"; "games"])
  then add_entertainment (duration log) day_data
  else if decide (lower app_name ∈ ["email"; "calendar"; "notes"; "documents"])
  then add_productivity (duration log) day_data
  else add_other (duration log) day_data.

(** [d[k] = f(d[k])] on an insertion-ordered dictionary. *)
Fixpoint dict_alter {V} (f : V → V) (k : Z) (d : list (Z * V)) : list (Z * V) :=
  match d with
  | [] => []
  | (k', v) :: d' => if decide (k = k') then (k', f v) :: d'
                     else (k', v) :: dict_alter f k d'
  end.

Definition process_log (daily_data : list (Z * DailyAggregate))
    (log : UsageEvent) : list (Z * DailyAggregate) :=
  let date := datetime.date (timestamp log) in
  let daily_data :=
    if decide (date ∈ daily_data.*1) then daily_data
    else daily_data ++ [(date, zero_record date (Some ∅))] in
  dict_alter (add_log log) date daily_data.

(** [process_logs_to_daily]: [list(daily_data.values())]. *)
Definition process_logs_to_daily (logs : list UsageEvent) : list DailyAggregate :=
  (fold_left process_log logs []).*2.

(** Day [i] of the method [generate_sample_data]; the label
    [f'Day {i+1}'] is kept as the number [i + 1]. *)
Definition sample_day (i : Z) : DailyAggregate :=
  let n := inject_Z i in
  {| date := i + 1;
     total_duration := 180 + (n * 30);
     session_count := 15 + i;
     app_usage :=
       Some {[ "Instagram" := (60 + (n * 10))%Q; "YouTube" := (45 + (n * 8))%Q;
               "WhatsApp" := (30 + (n * 5))%Q; "Chrome" := (25 + (n * 3))%Q;
               "TikTok" := (20 + (n * 4))%Q ]};
     night_usage := 30 + (n * 5);
     morning_usage := 40;
     afternoon_usage := 60;
     evening_usage := 50;
     binge_sessions := i;
     social_media_time := 80 + (n * 14);
     entertainment_time := 65 + (n * 8);
     productivity_time := 25;
     other_time := 10;
     max_continuous_usage := 45 + (n * 5) |}.

(** The method [generate_sample_data(days)]. *)
Definition generate_sample_data (days : Z) : list DailyAggregate :=
  (λ i, sample_day (Z.of_nat i)) <$> seq 0 (Z.to_nat days).

(** A daily record as the dictionary the predictor reads. *)
Definition as_dict (r : DailyAggregate) : gmap string Q :=
  {[ "total_duration" := total_duration r;
     "session_count" := inject_Z (session_count r);
     "morning_usage" := morning_usage r;
     "afternoon_usage" := afternoon_usage r;
     "evening_usage" := evening_usage r;
     "night_usage" := night_usage r;
     "binge_sessions" := inject_Z (binge_sessions r);
     "max_continuous_usage" := max_continuous_usage r;
     "social_media_time" := social_media_time r;
     "entertainment_time" := entertainment_time r;
     "productivity_time" := productivity_time r;
     "other_time" := other_time r ]}.

End UsageTracker.

(** ** addiction_predictor.py *)

Module AddictionPredictor.

(** [usage_data.get(key, 0)] on a day record. *)
Definition get (usage_data : gmap string Q) (key : string) : Q :=
  default 0%Q (usage_data !! key).

Record RiskAssessment := {
  risk_level : Z;
  risk_probability : Q;
  risk_label : string
}.

Definition labels : gmap Z string :=
  <[0%Z := "Low"]> (<[1%Z := "Moderate"]> (<[2%Z := "High"]>
    (<[3%Z := "Critical"]> ∅))).

Definition _get_risk_label (level : Z) : string :=
  default "Unknown" (labels !! level).

Definition _rule_based_prediction (usage_data : gmap string Q) : RiskAssessment :=
  let daily_usage := get usage_data "total_duration" in
  let night_usage := get usage_data "night_usage" in
  let binge_sessions := get usage_data "binge_sessions" in
  let risk_score := 0%Z in
  let risk_score :=
    if decide (360 < daily_usage)%Q then (risk_score + 3)%Z
    else if decide (240 < daily_usage)%Q then (risk_score + 2)%Z
    else if decide (120 < daily_usage)%Q then (risk_score + 1)%Z
    else risk_score in
  let risk_score :=
    if decide (60 < night_usage)%Q then (risk_score + 2)%Z else risk_score in
  let risk_score :=
    if decide (3 < binge_sessions)%Q then (risk_score + 2)%Z else risk_score in
  let risk_level := Z.min risk_score 3 in
  {| risk_level := risk_level;
     risk_probability := Py.min (inject_Z risk_score / 7) 1;
     risk_label := _get_risk_label risk_level |}.

Inductive insight_type := warning | alert | positive.
Inductive insight_severity := low | moderate | high | critical.

(** The formatted messages, each with the number it prints. *)
Inductive insight_message :=
  | Usage_increasing_by (trend : Q)
  | Usage_decreasing_by (abs_trend : Q)
  | High_night_usage (avg_night : Q)
  | Binge_sessions_detected (total_binge : Q)
  | High_social_media_usage (avg_social : Q).

Record Insight := {
  type : insight_type;
  message : insight_message;
  severity : insight_severity
}.

(** [generate_insights].  On an empty window [np.mean] is [nan] and no
    comparison with it holds; here the mean of no numbers is [0], with
    the same outcome. *)
Definition generate_insights (three_day_data : list (gmap string Q))
    : list Insight :=
  let insights := [] in
  let daily_usage := (λ d, get d "total_duration") <$> three_day_data in
  let insights :=
    if decide (2 ≤ length daily_usage)%nat then
      let trend :=
        Py.polyfit_slope (Py.range (length daily_usage)) daily_usage in
      if decide (30 < trend)%Q then
        insights ++ [ {| type := warning;
                         message := Usage_increasing_by trend;
                         severity := high |} ]
      else if decide (trend < -30)%Q then
        insights ++ [ {| type := positive;
                         message := Usage_decreasing_by (Qabs trend);
                         severity := low |} ]
      else insights
    else insights in
  let night_usage := (λ d, get d "night_usage") <$> three_day_data in
  let avg_night := Py.mean night_usage in
  let insights :=
    if decide (60 < avg_night)%Q then
      insights ++ [ {| type := warning;
                       message := High_night_usage avg_night;
                       severity := high |} ]
    else insights in
  let total_binge :=
    Py.sum ((λ d, get d "binge_sessions") <$> three_day_data) in
  let insights :=
    if decide (5 < total_binge)%Q then
      insights ++ [ {| type := alert;
                       message := Binge_sessions_detected total_binge;
                       severity := critical |} ]
    else insights in
  let social_time := (λ d, get d "social_media_time") <$> three_day_data in
  let avg_social := Py.mean social_time in
  let insights :=
    if decide (180 < avg_social)%Q then
      insights ++ [ {| type := warning;
                       message := High_social_media_usage avg_social;
                       severity := moderate |} ]
    else insights in
  insights.

#[global] Instance insight_type_eq_dec : EqDecision insight_type.
Proof. solve_decision. Defined.

Section Recommendations.

(** How [f'{x:.0f}'] and [f'{x}'] print a number. *)
Variable format_0f : Q → string.
Variable format_str : Q → string.

(** The text of an insight message. *)
Definition message_text (m : insight_message) : string :=
  match m with
  | Usage_increasing_by trend =>
      "Usage increasing by " +:+ format_0f trend +:+ " min/day"
  | Usage_decreasing_by abs_trend =>
      "Usage decreasing by " +:+ format_0f abs_trend +:+ " min/day"
  | High_night_usage avg_night =>
      "High night usage: " +:+ format_0f avg_night +:+ " min/day affects sleep"
  | Binge_sessions_detected total_binge =>
      format_str total_binge +:+ " binge sessions detected in 3 days"
  | High_social_media_usage avg_social =>
      "High social media usage: " +:+ format_0f avg_social +:+ " min/day"
  end.

(** [_generate_recommendations(risk_data, insights)]. *)
Definition _generate_recommendations (risk_data : RiskAssessment)
    (insights : list Insight) : list string :=
  let recommendations := [] in
  let risk_level := risk_level risk_data in
  let recommendations :=
    if decide (2 ≤ risk_level)%Z then
      recommendations
      ++ ["Set daily usage limits (max 3-4 hours)"]
      ++ ["Enable app timers for social media"]
      ++ ["Schedule device-free hours"]
    else recommendations in
  let recommendations :=
    if existsb
         (λ i, bool_decide (type i = warning)
               && Py.contains "night"
                    (UsageTracker.lower (message_text (message i))))
         insights
    then recommendations
         ++ ["Avoid screens 1 hour before bedtime"]
         ++ ["Enable night mode/blue light filter"]
    else recommendations in
  let recommendations :=
    if existsb
         (λ i, Py.contains "binge"
                 (UsageTracker.lower (message_text (message i))))
         insights
    then recommendations
         ++ ["Take 10-min breaks every hour"]
         ++ ["Use focus mode during work/study"]
    else recommendations in
  match recommendations with
  | [] => recommendations ++ ["Maintain current healthy usage patterns"]
  | _ :: _ => recommendations
  end.

End Recommendations.

End AddictionPredictor.

(** ** behavior_analyzer.py *)

Module BehaviorAnalyzer.

Record BehaviorEntry := {
  timestamp : datetime.t;
  app_name : string;
  duration : Q;
  interactions : Z;
  day_of_week : Z;
  hour : Z
}.

(** One row of the feature matrix of [_extract_behavioral_features],
    columns 0 to 13 in this order. *)
Record FeatureRow := {
  total_duration : Q;
  session_count : Q;
  unique_apps : Q;
  avg_session_duration : Q;
  interaction_rate : Q;
  morning_usage : Q;
  afternoon_usage : Q;
  evening_usage : Q;
  night_usage : Q;
  social_time : Q;
  entertainment_time : Q;
  binge_score : Q;
  hours_used : Q;
  weekday : Q
}.

Inductive anomaly_type := usage_spike | night_usage_increase | binge_behavior.
Inductive anomaly_severity := medium | high.

(** The description texts; the first one prints a percentage computed
    from the two averages it carries. *)
Inductive anomaly_description :=
  | Usage_increased_by (recent_avg historical_avg : Q)
  | Text (s : string).

Record Anomaly := {
  type : anomaly_type;
  severity : anomaly_severity;
  description : anomaly_description
}.

(** [_detect_behavioral_anomalies].  The call of [fit_transform] only
    refits the scaler and its result is unused. *)
Definition _detect_behavioral_anomalies (features : list FeatureRow)
    : list Anomaly :=
  if decide (length features < 5)%nat then [] else
  let recent_features := Py.last_n 14 features in
  let anomalies := [] in
  let usage_trend := total_duration <$> recent_features in
  let anomalies :=
    if decide (3 < length usage_trend)%nat then
      let recent_avg := Py.mean (Py.last_n 3 usage_trend) in
      let historical_avg := Py.mean (Py.but_last_n 3 usage_trend) in
      if decide (historical_avg * 1.5 < recent_avg)%Q then
        anomalies ++
        [ {| type := usage_spike;
             severity := if decide (historical_avg * 2 < recent_avg)%Q
                         then high else medium;
             description := Usage_increased_by recent_avg historical_avg |} ]
      else anomalies
    else anomalies in
  let night_usage := night_usage <$> recent_features in
  let anomalies :=
    if decide (Py.mean (Py.but_last_n 3 night_usage) * 2
               < Py.mean (Py.last_n 3 night_usage))%Q then
      anomalies ++
      [ {| type := night_usage_increase;
           severity := medium;
           description := Text "Significant increase in late-night usage" |} ]
    else anomalies in
  let binge_scores := binge_score <$> recent_features in
  let anomalies :=
    if decide (0.3 < Py.mean (Py.last_n 3 binge_scores))%Q then
      anomalies ++
      [ {| type := binge_behavior;
           severity := high;
           description := Text "Increased binge usage patterns detected" |} ]
    else anomalies in
  anomalies.

(** [_calculate_pattern_consistency]; the result is a real number since
    the standard deviation is a square root. *)
Definition _calculate_pattern_consistency (behavior_data : list BehaviorEntry)
    : R :=
  let daily_totals :=
    Py.accumulate
      ((λ entry, (datetime.date (timestamp entry), duration entry))
         <$> behavior_data) in
  if decide (length daily_totals < 7)%nat then 0.5%R else
  let values := daily_totals.*2 in
  let mean_usage := Py.mean values in
  let std_usage := Py.std values in
  if decide (mean_usage == 0)%Q then 0%R else
  let cv := (std_usage / Q2R mean_usage)%R in
  let consistency := Rmax 0 (1 - cv) in
  consistency.

Definition social_apps : list string := ["Instagram"; "TikTok"; "WhatsApp"].
Definition entertainment_apps : list string :=
  ["YouTube"; "Netflix"; "Spotify"; "Games"].

(** The feature row [_extract_behavioral_features] computes for one day
    and its sessions. *)
Definition feature_row (day : Z) (sessions : list BehaviorEntry) : FeatureRow :=
  let total_duration := Py.sum (duration <$> sessions) in
  let total_interactions :=
    Py.sum ((λ s, inject_Z (interactions s)) <$> sessions) in
  let session_count := inject_Z (Py.len sessions) in
  let unique_apps :=
    size (list_to_set (app_name <$> sessions) : gset string) in
  let hours_used : gset Z := list_to_set (hour <$> sessions) in
  let morning_usage :=
    Py.len (filter (λ s, 6 ≤ hour s ∧ hour s < 12)%Z sessions) in
  let afternoon_usage :=
    Py.len (filter (λ s, 12 ≤ hour s ∧ hour s < 18)%Z sessions) in
  let evening_usage :=
    Py.len (filter (λ s, 18 ≤ hour s ∧ hour s < 22)%Z sessions) in
  let night_usage :=
    Py.len (filter (λ s, 22 ≤ hour s ∨ hour s < 6)%Z sessions) in
  let social_time :=
    Py.sum (duration <$> filter (λ s, app_name s ∈ social_apps) sessions) in
  let entertainment_time :=
    Py.sum (duration
              <$> filter (λ s, app_name s ∈ entertainment_apps) sessions) in
  let avg_session_duration :=
    if decide (0 < session_count)%Q then (total_duration / session_count)%Q
    else 0%Q in
  let interaction_rate :=
    if decide (0 < total_duration)%Q
    then (total_interactions / total_duration)%Q else 0%Q in
  let long_sessions :=
    inject_Z (Py.len (filter (λ s, 30 < duration s)%Q sessions)) in
  let binge_score :=
    if decide (0 < session_count)%Q then (long_sessions / session_count)%Q
    else 0%Q in
  {| total_duration := total_duration;
     session_count := session_count;
     unique_apps := inject_Z (Z.of_nat unique_apps);
     avg_session_duration := avg_session_duration;
     interaction_rate := interaction_rate;
     morning_usage := inject_Z morning_usage;
     afternoon_usage := inject_Z afternoon_usage;
     evening_usage := inject_Z evening_usage;
     night_usage := inject_Z night_usage;
     social_time := social_time;
     entertainment_time := entertainment_time;
     binge_score := binge_score;
     hours_used := inject_Z (Z.of_nat (size hours_used));
     weekday := inject_Z (datetime.weekday day) |}.

(** [_extract_behavioral_features]: the sessions are grouped by calendar
    day and each day gives one row. *)
Definition _extract_behavioral_features (behavior_data : list BehaviorEntry)
    : list FeatureRow :=
  match behavior_data with
  | [] => []
  | _ :: _ =>
      let daily_data :=
        Py.group_by (λ entry, datetime.date (timestamp entry)) behavior_data in
      (λ day_sessions, feature_row day_sessions.1 day_sessions.2) <$> daily_data
  end.

(** [_calculate_cluster_stability]; [None] stands for the [IndexError] of
    [most_common(1)[0]] on an empty counter. *)
Definition _calculate_cluster_stability (clusters : list Z) : option Q :=
  if decide (length clusters < 7)%nat then Some 0.5%Q else
  let recent_clusters := Py.last_n 7 clusters in
  let counter := Py.accumulate ((λ c, (c, 1%Q)) <$> recent_clusters) in
  match counter with
  | [] => None
  | first :: others =>
      let most_common := Py.argmax first others in
      let stability :=
        (most_common.2 / inject_Z (Py.len recent_clusters))%Q in
      Some stability
  end.

(** The insight records of [_generate_behavioral_insights]. *)
Inductive insight_text :=
  | Plain (s : string)
  | Anomaly_detected (d : anomaly_description).

Record BehavioralInsight := {
  insight_type : string;
  message : insight_text;
  priority : string
}.

(** The strings ["medium"] and ["high"] of an anomaly's severity. *)
Definition severity_name (s : anomaly_severity) : string :=
  match s with
  | medium => "medium"
  | high => "high"
  end.

(** [_generate_behavioral_insights]; each argument that is [None] is a
    key missing from the dictionary it is read from with [.get]. *)
Definition _generate_behavioral_insights (cluster_name : option string)
    (anomalies : list Anomaly) (peak_usage_hour : option Z)
    (consistency_score : option R) : list BehavioralInsight :=
  let insights := [] in
  let cluster_name := default "Unknown" cluster_name in
  let insights :=
    if decide (cluster_name = "Heavy User") then
      insights ++
      [ {| insight_type := "usage_level";
           message := Plain "You're classified as a heavy user. Consider setting daily limits.";
           priority := "high" |} ]
    else if decide (cluster_name = "Binge User") then
      insights ++
      [ {| insight_type := "usage_pattern";
           message := Plain "Binge usage patterns detected. Try breaking sessions into smaller chunks.";
           priority := "high" |} ]
    else insights in
  let insights :=
    fold_left
      (λ insights anomaly,
         insights ++
         [ {| insight_type := "anomaly";
              message := Anomaly_detected (description anomaly);
              priority := severity_name (severity anomaly) |} ])
      anomalies insights in
  let peak_hour := default 0%Z peak_usage_hour in
  let insights :=
    if decide (22 ≤ peak_hour ∨ peak_hour ≤ 6)%Z then
      insights ++
      [ {| insight_type := "time_pattern";
           message := Plain "Peak usage during late night/early morning may affect sleep.";
           priority := "medium" |} ]
    else insights in
  let consistency := default 0%R consistency_score in
  let insights :=
    if Rlt_dec consistency 0.3 then
      insights ++
      [ {| insight_type := "consistency";
           message := Plain "Highly variable usage patterns. Consider establishing routines.";
           priority := "low" |} ]
    else insights in
  insights.

(** [_generate_behavioral_recommendations]; the result [list(set(...))]
    is kept as the set. *)
Definition _generate_behavioral_recommendations
    (insights : list BehavioralInsight) : gset string :=
  let recommendations := [] in
  let high_priority_insights :=
    filter (λ i, priority i = "high") insights in
  let recommendations :=
    match high_priority_insights with
    | [] => recommendations
    | _ :: _ =>
        recommendations
        ++ [ "Set strict daily usage limits";
             "Use app blocking during peak hours";
             "Schedule regular digital detox periods" ]
    end in
  let recommendations :=
    fold_left
      (λ recommendations insight,
         if decide (insight_type insight = "time_pattern") then
           recommendations
           ++ ["Enable night mode and usage restrictions after 9 PM"]
         else if decide (insight_type insight = "usage_pattern") then
           recommendations
           ++ ["Use the Pomodoro technique: 25 min usage, 5 min break"]
         else if decide (insight_type insight = "consistency") then
           recommendations
           ++ ["Create a structured daily routine for device usage"]
         else recommendations)
      insights recommendations in
  let recommendations :=
    recommendations
    ++ [ "Try mindful gaming alternatives";
         "Set up break reminders every 30 minutes";
         "Use voice notifications for usage awareness" ] in
  list_to_set recommendations.

(** [_calculate_usage_variability]. *)
Record UsageVariability := {
  duration_variability : R;
  time_spread : Q;
  session_regularity : R
}.

Definition _calculate_usage_variability (behavior_data : list BehaviorEntry)
    : UsageVariability :=
  let durations := duration <$> behavior_data in
  let duration_cv :=
    if decide (0 < Py.mean durations)%Q
    then (Py.std durations / Q2R (Py.mean durations))%R else 0%R in
  let hours := hour <$> behavior_data in
  let hour_spread := size (list_to_set hours : gset Z) in
  {| duration_variability := duration_cv;
     time_spread := inject_Z (Z.of_nat hour_spread) / 24;
     session_regularity := (1 - duration_cv)%R |}.

(** The dictionary [_analyze_usage_patterns] returns on data that is not
    empty. *)
Record PatternAnalysis := {
  peak_usage_hour : Z;
  peak_usage_day : Z;
  hourly_distribution : list (Z * Q);
  daily_distribution : list (Z * Q);
  app_distribution : list (string * Q);
  consistency_score : R;
  usage_variability : UsageVariability
}.

(** [max(d, key=d.get) if d else 0]. *)
Definition peak_key (d : list (Z * Q)) : Z :=
  match d with
  | [] => 0%Z
  | first :: others => (Py.argmax first others).1
  end.

(** [_analyze_usage_patterns]; [None] is the empty dictionary returned
    on empty data. *)
Definition _analyze_usage_patterns (behavior_data : list BehaviorEntry)
    : option PatternAnalysis :=
  match behavior_data with
  | [] => None
  | _ :: _ =>
      let hourly_usage :=
        Py.accumulate ((λ entry, (hour entry, duration entry))
                         <$> behavior_data) in
      let daily_usage :=
        Py.accumulate ((λ entry, (day_of_week entry, duration entry))
                         <$> behavior_data) in
      let app_usage :=
        Py.accumulate_str ((λ entry, (app_name entry, duration entry))
                             <$> behavior_data) in
      let peak_hour := peak_key hourly_usage in
      let peak_day := peak_key daily_usage in
      let consistency_score := _calculate_pattern_consistency behavior_data in
      Some {| peak_usage_hour := peak_hour;
              peak_usage_day := peak_day;
              hourly_distribution := hourly_usage;
              daily_distribution := daily_usage;
              app_distribution := take 5 (Py.sorted_desc snd app_usage);
              consistency_score := consistency_score;
              usage_variability :=
                _calculate_usage_variability behavior_data |}
  end.

End BehaviorAnalyzer.

(** ** real_time_tracker.py *)

Module RealTimeTracker.

(** A buffer entry; [session_duration] is in seconds. *)
Record BufferEntry := {
  user_id : string;
  app_name : string;
  timestamp : datetime.t;
  session_duration : Q;
  interactions : Z
}.

Inductive pattern_severity := medium | high.

Inductive Pattern :=
  | binge_usage (severity : pattern_severity) (duration : Q)
      (recommendation : string)
  | peak_usage_time (peak_hour : Z) (peak_usage : Q) (recommendation : string)
  | app_switching (app_count : Z) (recommendation : string).

(** [pattern.get("severity")]. *)
Definition get_severity (p : Pattern) : option pattern_severity :=
  match p with
  | binge_usage s _ _ => Some s
  | _ => None
  end.

Record PatternResult := {
  patterns : list Pattern;
  confidence : Q
}.

Definition _detect_binge_pattern (usage_data : list BufferEntry)
    : option Pattern :=
  let recent_data := Py.last_n 20 usage_data in
  if decide (length recent_data < 5)%nat then None else
  let total_time := Py.sum (session_duration <$> recent_data) in
  if decide (3600 < total_time)%Q then
    Some (binge_usage (if decide (7200 < total_time)%Q then high else medium)
            (total_time / 60) "Take a longer break")
  else None.

Definition _detect_time_patterns (usage_data : list BufferEntry)
    : option Pattern :=
  let hour_usage :=
    Py.accumulate
      ((λ entry, (datetime.hour (timestamp entry), session_duration entry))
         <$> usage_data) in
  match hour_usage with
  | [] => None
  | first :: others =>
      let peak := Py.argmax first others in
      let peak_hour := peak.1 in
      let peak_usage := (peak.2 / 60)%Q in
      if decide (60 < peak_usage)%Q then
        Some (peak_usage_time peak_hour peak_usage
                ("Consider limiting usage during " +:+ pretty peak_hour +:+ ":00"))
      else None
  end.

Definition _detect_app_switching (usage_data : list BufferEntry)
    : option Pattern :=
  let recent_data := Py.last_n 10 usage_data in
  if decide (length recent_data < 5)%nat then None else
  let unique_apps :=
    size (list_to_set (app_name <$> recent_data) : gset string) in
  if decide (5 ≤ unique_apps)%nat then
    Some (app_switching (Z.of_nat unique_apps) "Focus on one app at a time")
  else None.

Definition _calculate_pattern_confidence (patterns : list Pattern) : Q :=
  match patterns with
  | [] => 0
  | _ :: _ =>
      let confidence := Py.min (inject_Z (Py.len patterns) * 0.3) 1 in
      let confidence :=
        fold_left
          (λ confidence pattern,
             match get_severity pattern with
             | Some high => confidence + 0.2
             | Some medium => confidence + 0.1
             | None => confidence
             end)%Q
          patterns confidence in
      Py.min confidence 1
  end.

(** [patterns.append(p)] when the detector returned a pattern. *)
Definition append_if (patterns : list Pattern) (p : option Pattern)
    : list Pattern :=
  match p with
  | Some p => patterns ++ [p]
  | None => patterns
  end.

Definition detect_patterns (usage_data : list BufferEntry) : PatternResult :=
  if decide (length usage_data < 10)%nat
  then {| patterns := []; confidence := 0 |}
  else
    let patterns := [] in
    let patterns := append_if patterns (_detect_binge_pattern usage_data) in
    let patterns := append_if patterns (_detect_time_patterns usage_data) in
    let patterns := append_if patterns (_detect_app_switching usage_data) in
    {| patterns := patterns;
       confidence := _calculate_pattern_confidence patterns |}.

(** One loop iteration of [_calculate_current_streak]: the state is
    [streak] and [last_time]. *)
Definition streak_step (state : Q * option datetime.t) (entry : BufferEntry)
    : Q * option datetime.t :=
  let streak :=
    match state.2 with
    | None => session_duration entry
    | Some last_time =>
        let gap := datetime.total_seconds_between (timestamp entry) last_time in
        if decide (gap <= 300)%Q then (state.1 + session_duration entry)%Q
        else session_duration entry
    end in
  (streak, Some (timestamp entry)).

(** [_calculate_current_streak], in minutes. *)
Definition _calculate_current_streak (usage_data : list BufferEntry) : Q :=
  match usage_data with
  | [] => 0
  | _ :: _ =>
      let sorted_usage :=
        Py.sorted (λ x, datetime.micros (timestamp x)) usage_data in
      let streak := (fold_left streak_step sorted_usage (0%Q, None)).1 in
      (streak / 60)%Q
  end.

(** The metrics dictionary; [current_streak] is missing from the
    dictionary returned when there is no usage today. *)
Record Metrics := {
  metrics_total_time : Q;
  app_count : Z;
  avg_session : Q;
  current_streak : option Q
}.

(** [_calculate_real_time_metrics]; [now] is [datetime.now()]. *)
Definition _calculate_real_time_metrics (usage_buffer : list BufferEntry)
    (user : string) (now : datetime.t) : Metrics :=
  let today_start := datetime.midnight now in
  let today_usage :=
    filter (λ entry, user_id entry = user
                     ∧ datetime.ge (timestamp entry) today_start)
      usage_buffer in
  match today_usage with
  | [] => {| metrics_total_time := 0; app_count := 0; avg_session := 0;
             current_streak := None |}
  | _ :: _ =>
      let total_time := Py.sum (session_duration <$> today_usage) in
      let unique_apps :=
        size (list_to_set (app_name <$> today_usage) : gset string) in
      let avg_session := (total_time / inject_Z (Py.len today_usage))%Q in
      {| metrics_total_time := total_time / 60;
         app_count := Z.of_nat unique_apps;
         avg_session := avg_session / 60;
         current_streak := Some (_calculate_current_streak today_usage) |}
  end.

(** The alerts of [AlertSystem]. *)
Inductive alert_text :=
  | Alert_text (s : string)
  | Binge_usage_detected (duration : Q).

Record Alert := {
  alert_type : string;
  alert_message : alert_text;
  action : string;
  alert_priority : string
}.

(** The thresholds of [AlertSystem.__init__]. *)
Definition session_duration_threshold : Q := 1800.
Definition daily_limit_threshold : Q := 7200.
Definition late_night_usage_threshold : Z := 22.
Definition early_morning_usage_threshold : Z := 6.

Definition is_binge_usage (p : Pattern) : bool :=
  match p with
  | binge_usage _ _ _ => true
  | _ => false
  end.

Definition pattern_duration (p : Pattern) : Q :=
  match p with
  | binge_usage _ duration _ => duration
  | _ => 0
  end.

(** A live session of [active_sessions]. *)
Record Session := {
  start_time : datetime.t;
  total_time : Q;
  session_interactions : Z
}.

(** [check_alerts]; [current_hour] is [datetime.now().hour]. *)
Definition check_alerts (session_info : Session) (detected : PatternResult)
    (current_hour : Z) : list Alert :=
  let alerts := [] in
  let alerts :=
    if decide (session_duration_threshold < total_time session_info)%Q then
      alerts ++
      [ {| alert_type := "long_session";
           alert_message :=
             Alert_text "You've been using this app for over 30 minutes";
           action := "take_break";
           alert_priority := "medium" |} ]
    else alerts in
  let alerts :=
    fold_left
      (λ alerts pattern,
         if is_binge_usage pattern then
           alerts ++
           [ {| alert_type := "binge_detected";
                alert_message := Binge_usage_detected (pattern_duration pattern);
                action := "limit_usage";
                alert_priority := "high" |} ]
         else alerts)
      (patterns detected) alerts in
  let alerts :=
    if decide (late_night_usage_threshold ≤ current_hour)%Z then
      alerts ++
      [ {| alert_type := "late_night_usage";
           alert_message := Alert_text "Late night usage may affect your sleep";
           action := "wind_down";
           alert_priority := "medium" |} ]
    else alerts in
  alerts.

(** The state of a [RealTimeTracker]: the live sessions and the
    [deque(maxlen=1000)]. *)
Record Tracker := {
  active_sessions : gmap string Session;
  usage_buffer : list BufferEntry
}.

Definition new_tracker : Tracker :=
  {| active_sessions := ∅; usage_buffer := [] |}.

(** [deque.append] on a deque of bounded length. *)
Definition deque_append {A} (maxlen : nat) (buffer : list A) (x : A) : list A :=
  Py.last_n maxlen (buffer ++ [x]).

Definition session_key (user app : string) : string := user +:+ "_" +:+ app.

Record UsageResult := {
  session_info : Session;
  detected_patterns : PatternResult;
  alerts : list Alert;
  real_time_metrics : Metrics
}.

(** [process_usage]: the new state and the returned dictionary.  The
    three clock readings are [timestamp], the hour read by
    [check_alerts] and the time read by [_calculate_real_time_metrics]. *)
Definition process_usage (self : Tracker) (usage_data : gmap string string)
    (timestamp : datetime.t) (current_hour : Z) (now : datetime.t)
    : Tracker * UsageResult :=
  let user_id := default "default" (usage_data !! "user_id") in
  let app_name := default "unknown" (usage_data !! "app_name") in
  let session_key := session_key user_id app_name in
  let active_sessions :=
    match active_sessions self !! session_key with
    | Some _ => active_sessions self
    | None =>
        <[session_key := {| start_time := timestamp; total_time := 0;
                            session_interactions := 0 |}]>
          (active_sessions self)
    end in
  let session :=
    default {| start_time := timestamp; total_time := 0;
               session_interactions := 0 |}
      (active_sessions !! session_key) in
  let session :=
    {| start_time := start_time session;
       total_time :=
         datetime.total_seconds_between timestamp (start_time session);
       session_interactions := session_interactions session + 1 |} in
  let active_sessions := <[session_key := session]> active_sessions in
  let usage_buffer :=
    deque_append 1000 (usage_buffer self)
      {| user_id := user_id; app_name := app_name; timestamp := timestamp;
         session_duration := total_time session;
         interactions := session_interactions session |} in
  let detected := detect_patterns usage_buffer in
  let alerts := check_alerts session detected current_hour in
  ({| active_sessions := active_sessions; usage_buffer := usage_buffer |},
   {| session_info := session;
      detected_patterns := detected;
      alerts := alerts;
      real_time_metrics :=
        _calculate_real_time_metrics usage_buffer user_id now |}).

End RealTimeTracker.

(** ** main.py *)

Module Main.

(** The risk level of one day of the three-day summary,
    [min(3, day['total_duration'] // 120)]; [None] is the [KeyError] of
    a day without a total. *)
Definition summary_risk_level (day : gmap string Q) : option Z :=
  match day !! "total_duration" with
  | Some total => Some (Z.min 3 (Qfloor (total / 120)))
  | None => None
  end.

End Main.

(** ** Binary64 arithmetic *)

Module F64.

(** [sum(xs)] over floats: [0 + x1 + x2 + ...], added left to right. *)
Definition sum (xs : list float) : float :=
  fold_left PrimFloat.add xs 0%float.

(** [max(a, b)]: [b] when [b > a], else [a]. *)
Definition max (a b : float) : float := if PrimFloat.ltb a b then b else a.

(** [float(n)] for a count [n]; exact below [2^53]. *)
Fixpoint of_nat (n : nat) : float :=
  match n with
  | O => 0%float
  | S k => (of_nat k + 1)%float
  end.

(** The rational number a finite float stands for. *)
Definition to_Q (f : float) : option Q :=
  match Prim2SF f with
  | S754_zero _ => Some 0%Q
  | S754_finite s m e =>
      let v := (inject_Z (Z.pos m) * Qpower 2 e)%Q in
      Some (if s then Qopp v else v)
  | _ => None
  end.

(** The float [f] is exactly the rational [q]. *)
Definition exactly (f : float) (q : Q) : Prop :=
  match to_Q f with
  | Some v => (v == q)%Q
  | None => False
  end.

End F64.

(** Instances of the two NumPy functions the code calls, for evaluating
    it on concrete data.  The theorems about the code hold for every
    [np.mean] and [np.polyfit]. *)
Module Numpy.

(** [np.mean(xs)]: the sum of the items divided by their number.  NumPy
    may add in another order; this instance is evaluated only where the
    order does not change the sum. *)
Definition mean (xs : list float) : float :=
  (F64.sum xs / F64.of_nat (length xs))%float.

(** [np.polyfit(xs, ys, 1)[0]] by the normal equations.  NumPy solves
    the same least-squares problem by a singular value decomposition,
    and its result can differ in the last bits; this instance is
    evaluated only on [ys] that are all zero, where the slope is zero,
    and on two points. *)
Definition polyfit_slope (xs ys : list float) : float :=
  let n := F64.of_nat (length xs) in
  let sx := F64.sum xs in
  let sy := F64.sum ys in
  let sxy := F64.sum (zip_with PrimFloat.mul xs ys) in
  let sxx := F64.sum ((λ x, x * x)%float <$> xs) in
  ((n * sxy - sx * sy) / (n * sxx - sx * sx))%float.

End Numpy.

(** ** usage_tracker.py on float durations *)

Module UsageTracker64.

Record UsageEvent := {
  timestamp : datetime.t;
  app_name : string;
  duration : float
}.

Record DailyAggregate := {
  date : Z;
  total_duration : float;
  session_count : Z;
  morning_usage : float;
  afternoon_usage : float;
  evening_usage : float;
  night_usage : float;
  binge_sessions : Z;
  max_continuous_usage : float;
  social_media_time : float;
  entertainment_time : float;
  productivity_time : float;
  other_time : float
}.

Definition hour_of (s : UsageEvent) : Z := datetime.hour (timestamp s).

(** The loop of [_calculate_max_continuous] from index [i] on, where
    [prev] is [sorted_sessions[i-1]].  Timestamps are whole
    microseconds, so the test of the gap against five minutes is the
    exact one. *)
Fixpoint max_continuous_loop (prev : UsageEvent) (rest : list UsageEvent)
    (max_continuous current_continuous : float) : float :=
  match rest with
  | [] => F64.max max_continuous current_continuous
  | s :: rest' =>
      let time_gap :=
        (datetime.total_seconds_between (timestamp s) (timestamp prev) / 60)%Q in
      if decide (time_gap < 5)%Q
      then max_continuous_loop s rest' max_continuous
             (current_continuous + duration s)%float
      else max_continuous_loop s rest'
             (F64.max max_continuous current_continuous) (duration s)
  end.

Definition _calculate_max_continuous (sorted_sessions : list UsageEvent)
    : float :=
  match sorted_sessions with
  | [] => 0%float
  | s0 :: rest => max_continuous_loop s0 rest 0%float (duration s0)
  end.

(** [sum(s['duration'] for s in sessions if P(s))]. *)
Definition sum_where (P : UsageEvent → Prop) `{∀ s, Decision (P s)}
    (sessions : list UsageEvent) : float :=
  F64.sum (duration <$> filter P sessions).

(** The metrics [aggregate_daily_data] computes once it knows that
    [daily_sessions] is not empty. *)
Definition daily_metrics (target_date : Z) (daily_sessions : list UsageEvent)
    : DailyAggregate :=
  let total_duration := F64.sum (duration <$> daily_sessions) in
  let session_count := Py.len daily_sessions in
  let morning_usage :=
    sum_where (λ s, 6 ≤ hour_of s ∧ hour_of s < 12)%Z daily_sessions in
  let afternoon_usage :=
    sum_where (λ s, 12 ≤ hour_of s ∧ hour_of s < 18)%Z daily_sessions in
  let evening_usage :=
    sum_where (λ s, 18 ≤ hour_of s ∧ hour_of s < 22)%Z daily_sessions in
  let night_usage :=
    sum_where (λ s, 22 ≤ hour_of s ∨ hour_of s < 6)%Z daily_sessions in
  let binge_sessions :=
    Py.len (filter (λ s, PrimFloat.ltb 45 (duration s) = true)
              daily_sessions) in
  let sorted_sessions :=
    Py.sorted (λ x, datetime.micros (timestamp x)) daily_sessions in
  let max_continuous := _calculate_max_continuous sorted_sessions in
  let social_media_time :=
    sum_where (λ s, app_name s ∈ UsageTracker.social_apps) daily_sessions in
  let entertainment_time :=
    sum_where (λ s, app_name s ∈ UsageTracker.entertainment_apps)
      daily_sessions in
  let productivity_time :=
    sum_where (λ s, app_name s ∈ UsageTracker.productivity_apps)
      daily_sessions in
  let other_time :=
    (total_duration - social_media_time - entertainment_time
     - productivity_time)%float in
  {| date := target_date;
     total_duration := total_duration;
     session_count := session_count;
     morning_usage := morning_usage;
     afternoon_usage := afternoon_usage;
     evening_usage := evening_usage;
     night_usage := night_usage;
     binge_sessions := binge_sessions;
     max_continuous_usage := max_continuous;
     social_media_time := social_media_time;
     entertainment_time := entertainment_time;
     productivity_time := productivity_time;
     other_time := F64.max 0 other_time |}.

(** [aggregate_daily_data]; [None] is Python's [None]. *)
Definition aggregate_daily_data (raw_logs : list UsageEvent) (target_date : Z)
    : option DailyAggregate :=
  let daily_sessions :=
    filter (λ log, datetime.date (timestamp log) = target_date) raw_logs in
  match daily_sessions with
  | [] => None
  | _ :: _ => Some (daily_metrics target_date daily_sessions)
  end.

End UsageTracker64.

(** ** behavior_analyzer.py on float features *)

Module BehaviorAnalyzer64.

(** One row of the feature matrix, columns 0 to 13 in this order. *)
Record FeatureRow := {
  total_duration : float;
  session_count : float;
  unique_apps : float;
  avg_session_duration : float;
  interaction_rate : float;
  morning_usage : float;
  afternoon_usage : float;
  evening_usage : float;
  night_usage : float;
  social_time : float;
  entertainment_time : float;
  binge_score : float;
  hours_used : float;
  weekday : float
}.

(** The description texts; the first one prints a percentage computed
    from the two averages it carries. *)
Inductive anomaly_description :=
  | Usage_increased_by (recent_avg historical_avg : float)
  | Text (s : string).

Record Anomaly := {
  type : BehaviorAnalyzer.anomaly_type;
  severity : BehaviorAnalyzer.anomaly_severity;
  description : anomaly_description
}.

Section Detector.

(** [np.mean], a function of the library. *)
Variable np_mean : list float → float.

(** [_detect_behavioral_anomalies].  The call of [fit_transform] only
    refits the scaler and its result is unused. *)
Definition _detect_behavioral_anomalies (features : list FeatureRow)
    : list Anomaly :=
  if decide (length features < 5)%nat then [] else
  let recent_features := Py.last_n 14 features in
  let anomalies := [] in
  let usage_trend := total_duration <$> recent_features in
  let anomalies :=
    if decide (3 < length usage_trend)%nat then
      let recent_avg := np_mean (Py.last_n 3 usage_trend) in
      let historical_avg := np_mean (Py.but_last_n 3 usage_trend) in
      if PrimFloat.ltb (historical_avg * 1.5)%float recent_avg then
        anomalies ++
        [ {| type := BehaviorAnalyzer.usage_spike;
             severity :=
               if PrimFloat.ltb (historical_avg * 2)%float recent_avg
               then BehaviorAnalyzer.high else BehaviorAnalyzer.medium;
             description := Usage_increased_by recent_avg historical_avg |} ]
      else anomalies
    else anomalies in
  let night_usage := night_usage <$> recent_features in
  let anomalies :=
    if PrimFloat.ltb (np_mean (Py.but_last_n 3 night_usage) * 2)%float
         (np_mean (Py.last_n 3 night_usage)) then
      anomalies ++
      [ {| type := BehaviorAnalyzer.night_usage_increase;
           severity := BehaviorAnalyzer.medium;
           description := Text "Significant increase in late-night usage" |} ]
    else anomalies in
  let binge_scores := binge_score <$> recent_features in
  let anomalies :=
    if PrimFloat.ltb 0x1.3333333333333p-2%float
         (np_mean (Py.last_n 3 binge_scores)) then
      anomalies ++
      [ {| type := BehaviorAnalyzer.binge_behavior;
           severity := BehaviorAnalyzer.high;
           description := Text "Increased binge usage patterns detected" |} ]
    else anomalies in
  anomalies.

End Detector.

End BehaviorAnalyzer64.

(** ** addiction_predictor.py on float records *)

Module AddictionPredictor64.

(** [usage_data.get(key, 0)] on a day record. *)
Definition get (usage_data : gmap string float) (key : string) : float :=
  default 0%float (usage_data !! key).

(** The formatted messages, each with the number it prints. *)
Inductive insight_message :=
  | Usage_increasing_by (trend : float)
  | Usage_decreasing_by (abs_trend : float)
  | High_night_usage (avg_night : float)
  | Binge_sessions_detected (total_binge : float)
  | High_social_media_usage (avg_social : float).

Record Insight := {
  type : AddictionPredictor.insight_type;
  message : insight_message;
  severity : AddictionPredictor.insight_severity
}.

Section Insights.

(** [np.polyfit(xs, ys, 1)[0]] and [np.mean], functions of the
    library. *)
Variable np_polyfit_slope : list float → list float → float.
Variable np_mean : list float → float.

(** [generate_insights]. *)
Definition generate_insights (three_day_data : list (gmap string float))
    : list Insight :=
  let insights := [] in
  let daily_usage := (λ d, get d "total_duration") <$> three_day_data in
  let insights :=
    if decide (2 ≤ length daily_usage)%nat then
      let trend :=
        np_polyfit_slope (F64.of_nat <$> seq 0 (length daily_usage))
          daily_usage in
      if PrimFloat.ltb 30 trend then
        insights ++ [ {| type := AddictionPredictor.warning;
                         message := Usage_increasing_by trend;
                         severity := AddictionPredictor.high |} ]
      else if PrimFloat.ltb trend (-30) then
        insights ++ [ {| type := AddictionPredictor.positive;
                         message := Usage_decreasing_by (PrimFloat.abs trend);
                         severity := AddictionPredictor.low |} ]
      else insights
    else insights in
  let night_usage := (λ d, get d "night_usage") <$> three_day_data in
  let avg_night := np_mean night_usage in
  let insights :=
    if PrimFloat.ltb 60 avg_night then
      insights ++ [ {| type := AddictionPredictor.warning;
                       message := High_night_usage avg_night;
                       severity := AddictionPredictor.high |} ]
    else insights in
  let total_binge :=
    F64.sum ((λ d, get d "binge_sessions") <$> three_day_data) in
  let insights :=
    if PrimFloat.ltb 5 total_binge then
      insights ++ [ {| type := AddictionPredictor.alert;
                       message := Binge_sessions_detected total_binge;
                       severity := AddictionPredictor.critical |} ]
    else insights in
  let social_time := (λ d, get d "social_media_time") <$> three_day_data in
  let avg_social := np_mean social_time in
  let insights :=
    if PrimFloat.ltb 180 avg_social then
      insights ++ [ {| type := AddictionPredictor.warning;
                       message := High_social_media_usage avg_social;
                       severity := AddictionPredictor.moderate |} ]
    else insights in
  insights.

End Insights.

End AddictionPredictor64.

(** * Specification-level definitions

    The quantities the statements below speak about, worded after the
    specification, and the example inputs. *)

Module RiskRules.
Import AddictionPredictor.

(** The score as the specification words it: the highest matching usage
    tier, plus two for heavy night usage, plus two for many binge
    sessions. *)
Definition usage_tier (total : Q) : Z :=
  if decide (360 < total)%Q then 3
  else if decide (240 < total)%Q then 2
  else if decide (120 < total)%Q then 1
  else 0.

Definition rule_score (usage_data : gmap string Q) : Z :=
  usage_tier (get usage_data "total_duration")
  + (if decide (60 < get usage_data "night_usage")%Q then 2 else 0)
  + (if decide (3 < get usage_data "binge_sessions")%Q then 2 else 0).

Definition label_table (level : Z) : string :=
  match level with
  | 0 => "Low"
  | 1 => "Moderate"
  | 2 => "High"
  | 3 => "Critical"
  | _ => "Unknown"
  end%Z.

(** A day record with the given total and no night or binge usage. *)
Definition quiet_day (total : Q) : gmap string Q :=
  {[ "total_duration" := total; "night_usage" := 0%Q;
     "binge_sessions" := 0%Q ]}.

End RiskRules.

Module Continuity.
Import UsageTracker.

(** Minutes between a session and the one before it. *)
Definition gap_minutes (prev s : UsageEvent) : Q :=
  (datetime.total_seconds_between (timestamp s) (timestamp prev) / 60)%Q.

(** The running total after each session: it grows by the session's
    duration while the gap to the previous session is below five
    minutes and restarts from the session's own duration otherwise. *)
Fixpoint running_from (prev : UsageEvent) (running : Q)
    (rest : list UsageEvent) : list Q :=
  match rest with
  | [] => []
  | s :: rest' =>
      let running' :=
        if decide (gap_minutes prev s < 5)%Q then (running + duration s)%Q
        else duration s in
      running' :: running_from s running' rest'
  end.

Definition running_totals (sessions : list UsageEvent) : list Q :=
  match sessions with
  | [] => []
  | s0 :: rest => duration s0 :: running_from s0 (duration s0) rest
  end.

(** [m] is the largest element of [totals], or [0] when there is
    none. *)
Definition is_maximum_of (m : Q) (totals : list Q) : Prop :=
  match totals with
  | [] => m = 0%Q
  | _ :: _ => (∃ r, r ∈ totals ∧ (m == r)%Q) ∧ ∀ r, r ∈ totals → (r <= m)%Q
  end.

(** A session at [minute] past midnight of day 0. *)
Definition session_at (minute : Z) (d : Q) : UsageEvent :=
  {| timestamp := datetime.mk 0 0 minute 0 0; app_name := "Chrome";
     duration := d |}.

(** Three sessions three minutes apart, then a ten-minute gap. *)
Definition three_then_gap : list UsageEvent :=
  [ session_at 0 10; session_at 3 10; session_at 6 10; session_at 16 5 ].

End Continuity.

Module Aggregates.
Import UsageTracker.

(** The four time-of-day buckets of a record, added up. *)
Definition bucket_sum (r : DailyAggregate) : Q :=
  (morning_usage r + afternoon_usage r + evening_usage r + night_usage r)%Q.

(** The four category times of a record, added up. *)
Definition category_sum (r : DailyAggregate) : Q :=
  (social_media_time r + entertainment_time r + productivity_time r
   + other_time r)%Q.

(** A log on day [day] at [h] o'clock. *)
Definition log_at (day h : Z) (app : string) (d : Q) : UsageEvent :=
  {| timestamp := datetime.mk day h 0 0 0; app_name := app; duration := d |}.

(** Some log of the list falls on the calendar day [d]. *)
Definition has_events (raw_logs : list UsageEvent) (d : Z) : Prop :=
  ∃ log, log ∈ raw_logs ∧ datetime.date (timestamp log) = d.

(** Every duration is a whole number of minutes, as the [int] durations
    of the API are. *)
Definition whole_minutes (raw_logs : list UsageEvent) : Prop :=
  Forall (λ log, Qden (duration log) = 1%positive) raw_logs.

(** The logs of the list that fall on the calendar day [d]. *)
Definition events_of (raw_logs : list UsageEvent) (d : Z) : list UsageEvent :=
  filter (λ log, datetime.date (timestamp log) = d) raw_logs.

End Aggregates.

Module AggregatesExamples.
Import UsageTracker Aggregates.

(** Two days of logs: three sessions on day 0, one on day 1. *)
Definition two_days : list UsageEvent :=
  [ log_at 0 7 "Instagram" 30; log_at 0 13 "YouTube" 50;
    log_at 1 23 "Chrome" 20; log_at 0 2 "Maps" 15 ].

End AggregatesExamples.

Module Anomalies.
Import BehaviorAnalyzer.

(** The rows the detector looks at: the most recent fourteen. *)
Definition window (features : list FeatureRow) : list FeatureRow :=
  Py.last_n 14 features.

(** Mean of a column over the last three days of the window, and over
    all the days of the window before them. *)
Definition recent_mean (col : FeatureRow → Q) (features : list FeatureRow) : Q :=
  Py.mean (col <$> Py.last_n 3 (window features)).
Definition earlier_mean (col : FeatureRow → Q) (features : list FeatureRow) : Q :=
  Py.mean (col <$> Py.but_last_n 3 (window features)).

Definition spike (sev : anomaly_severity) (recent earlier : Q) : Anomaly :=
  {| type := usage_spike; severity := sev;
     description := Usage_increased_by recent earlier |}.
Definition night_anomaly : Anomaly :=
  {| type := night_usage_increase; severity := medium;
     description := Text "Significant increase in late-night usage" |}.
Definition binge_anomaly : Anomaly :=
  {| type := binge_behavior; severity := high;
     description := Text "Increased binge usage patterns detected" |}.

(** The three independent checks. *)
Definition usage_check (features : list FeatureRow) : list Anomaly :=
  let recent := recent_mean total_duration features in
  let earlier := earlier_mean total_duration features in
  if decide (1.5 * earlier < recent)%Q
  then [spike (if decide (2 * earlier < recent)%Q then high else medium)
          recent earlier]
  else [].
Definition night_check (features : list FeatureRow) : list Anomaly :=
  if decide (2 * earlier_mean night_usage features
             < recent_mean night_usage features)%Q
  then [night_anomaly] else [].
Definition binge_check (features : list FeatureRow) : list Anomaly :=
  if decide (0.3 < recent_mean binge_score features)%Q
  then [binge_anomaly] else [].

(** A feature row with the given daily total, night session count and
    binge score. *)
Definition row (total night binge : Q) : FeatureRow :=
  {| total_duration := total; session_count := 4; unique_apps := 2;
     avg_session_duration := total / 4; interaction_rate := 1;
     morning_usage := 1; afternoon_usage := 1; evening_usage := 1;
     night_usage := night; social_time := 0; entertainment_time := 0;
     binge_score := binge; hours_used := 3; weekday := 0 |}.

Definition calm_week : list FeatureRow :=
  [ row 100 1 0; row 100 1 0; row 100 1 0; row 100 1 0; row 100 1 0;
    row 100 1 0; row 100 1 0 ].

End Anomalies.

Module Insights.
Import AddictionPredictor.

(** A column of the window. *)
Definition column (key : string) (window : list (gmap string Q)) : list Q :=
  (λ d, get d key) <$> window.

(** Least-squares slope of the totals against the day index 0, 1, ... *)
Definition trend (window : list (gmap string Q)) : Q :=
  Py.polyfit_slope (Py.range (length window)) (column "total_duration" window).

Definition insight (t : insight_type) (m : insight_message)
    (s : insight_severity) : Insight :=
  {| type := t; message := m; severity := s |}.

(** The four independent checks. *)
Definition trend_check (window : list (gmap string Q)) : list Insight :=
  if decide (2 ≤ length window)%nat then
    if decide (30 < trend window)%Q
    then [insight warning (Usage_increasing_by (trend window)) high]
    else if decide (trend window < -30)%Q
    then [insight positive (Usage_decreasing_by (Qabs (trend window))) low]
    else []
  else [].
Definition night_check (window : list (gmap string Q)) : list Insight :=
  let avg := Py.mean (column "night_usage" window) in
  if decide (60 < avg)%Q then [insight warning (High_night_usage avg) high]
  else [].
Definition binge_check (window : list (gmap string Q)) : list Insight :=
  let total := Py.sum (column "binge_sessions" window) in
  if decide (5 < total)%Q
  then [insight alert (Binge_sessions_detected total) critical]
  else [].
Definition social_check (window : list (gmap string Q)) : list Insight :=
  let avg := Py.mean (column "social_media_time" window) in
  if decide (180 < avg)%Q
  then [insight warning (High_social_media_usage avg) moderate]
  else [].

(** A two-day window built to make any chosen combination of checks
    fire: [rising] is [Some true] for a rising total, [Some false] for
    a falling one and [None] for a flat one. *)
Definition day (total night binge social : Q) : gmap string Q :=
  {[ "total_duration" := total; "night_usage" := night;
     "binge_sessions" := binge; "social_media_time" := social ]}.
Definition scenario (rising : option bool) (night binge social : bool)
    : list (gmap string Q) :=
  let n := if night then 100%Q else 0%Q in
  let b := if binge then 3%Q else 0%Q in
  let s := if social then 200%Q else 0%Q in
  match rising with
  | Some true => [day 100 n b s; day 200 n b s]
  | Some false => [day 200 n b s; day 100 n b s]
  | None => [day 100 n b s; day 100 n b s]
  end.
Definition expected_kinds (rising : option bool) (night binge social : bool)
    : list (insight_type * insight_severity) :=
  match rising with
  | Some true => [(warning, high)]
  | Some false => [(positive, low)]
  | None => []
  end
  ++ (if night then [(warning, high)] else [])
  ++ (if binge then [(alert, critical)] else [])
  ++ (if social then [(warning, moderate)] else []).

End Insights.

Module Grouping.

(** The distinct keys of a list in order of first appearance. *)
Definition first_seen (ks : list Z) : list Z :=
  fold_left (λ acc k, if decide (k ∈ acc) then acc else acc ++ [k]) ks [].

(** The sum of the values recorded under key [k], in order. *)
Definition key_total (k : Z) (kvs : list (Z * Q)) : Q :=
  Py.sum ((filter (λ kv, kv.1 = k) kvs).*2).

End Grouping.

Module Patterns.
Import RealTimeTracker.

(** Minutes spent in the last twenty buffer entries. *)
Definition recent_minutes (buffer : list BufferEntry) : Q :=
  (Py.sum (session_duration <$> Py.last_n 20 buffer) / 60)%Q.

(** Minutes spent, over the whole buffer, in the hour of day [h]. *)
Definition hour_minutes (h : Z) (buffer : list BufferEntry) : Q :=
  (Py.sum (session_duration
             <$> filter (λ e, datetime.hour (timestamp e) = h) buffer) / 60)%Q.

(** Number of distinct apps in the last ten buffer entries. *)
Definition recent_apps (buffer : list BufferEntry) : nat :=
  size (list_to_set (app_name <$> Py.last_n 10 buffer) : gset string).

Definition binge_check (buffer : list BufferEntry) : list Pattern :=
  if decide (60 < recent_minutes buffer)%Q
  then [binge_usage
          (if decide (120 < recent_minutes buffer)%Q then high else medium)
          (recent_minutes buffer) "Take a longer break"]
  else [].

Definition switching_check (buffer : list BufferEntry) : list Pattern :=
  if decide (5 ≤ recent_apps buffer)%nat
  then [app_switching (Z.of_nat (recent_apps buffer))
          "Focus on one app at a time"]
  else [].

(** [peak] is the outcome of the peak-hour check: a pattern for a
    busiest hour when that hour holds more than sixty minutes, nothing
    when no hour does. *)
Definition peak_check_of (buffer : list BufferEntry) (peak : list Pattern)
    : Prop :=
  (peak = [] ∧ ∀ h, ¬ (60 < hour_minutes h buffer)%Q)
  ∨ ∃ h, peak = [peak_usage_time h (hour_minutes h buffer)
                   ("Consider limiting usage during " +:+ pretty h +:+ ":00")]
         ∧ (60 < hour_minutes h buffer)%Q
         ∧ ∀ h', (hour_minutes h' buffer <= hour_minutes h buffer)%Q.

(** Confidence weight of the severity of a pattern. *)
Definition severity_weight (p : Pattern) : Q :=
  match get_severity p with
  | Some high => 0.2
  | Some medium => 0.1
  | None => 0
  end.

Definition confidence_formula (ps : list Pattern) : Q :=
  Qmin (0.3 * inject_Z (Py.len ps) + Py.sum (severity_weight <$> ps)) 1.

(** A buffer entry at [h] o'clock of day 0. *)
Definition entry (app : string) (h : Z) (seconds : Q) : BufferEntry :=
  {| user_id := "u1"; app_name := app; timestamp := datetime.mk 0 h 0 0 0;
     session_duration := seconds; interactions := 1 |}.

Definition short_buffer : list BufferEntry :=
  [ entry "a" 9 4000; entry "b" 9 4000; entry "c" 9 4000 ].
(** Ten entries, five apps, 2.5 hours at nine o'clock. *)
Definition busy_buffer : list BufferEntry :=
  [ entry "a" 9 900; entry "b" 9 900; entry "c" 9 900; entry "d" 9 900;
    entry "e" 9 900; entry "a" 9 900; entry "b" 9 900; entry "c" 9 900;
    entry "d" 9 900; entry "e" 9 900 ].
Definition idle_buffer : list BufferEntry :=
  [ entry "a" 9 10; entry "a" 9 10; entry "a" 9 10; entry "a" 9 10;
    entry "a" 9 10; entry "a" 9 10; entry "a" 9 10; entry "a" 9 10;
    entry "a" 9 10; entry "a" 9 10 ].

End Patterns.

Module Consistency.
Import BehaviorAnalyzer.

Definition day_of (entry : BehaviorEntry) : Z :=
  datetime.date (timestamp entry).

(** Number of distinct calendar days the entries span. *)
Definition distinct_days (behavior_data : list BehaviorEntry) : nat :=
  size (list_to_set (day_of <$> behavior_data) : gset Z).

(** The duration total of each calendar day, the days taken in order of
    first appearance. *)
Definition day_total (d : Z) (behavior_data : list BehaviorEntry) : Q :=
  Py.sum (duration <$> filter (λ entry, day_of entry = d) behavior_data).
Definition daily_totals (behavior_data : list BehaviorEntry) : list Q :=
  (λ d, day_total d behavior_data)
    <$> Grouping.first_seen (day_of <$> behavior_data).

(** The score as the specification words it: the coefficient of
    variation is 0 when the mean is 0. *)
Definition claimed_consistency (behavior_data : list BehaviorEntry) : R :=
  if decide (distinct_days behavior_data < 7)%nat then 0.5%R else
  let values := daily_totals behavior_data in
  let cv := if decide (Py.mean values == 0)%Q then 0%R
            else (Py.std values / Q2R (Py.mean values))%R in
  Rmax 0 (1 - cv).

(** The score the code computes: 0 when the mean is 0. *)
Definition computed_consistency (behavior_data : list BehaviorEntry) : R :=
  if decide (distinct_days behavior_data < 7)%nat then 0.5%R else
  let values := daily_totals behavior_data in
  if decide (Py.mean values == 0)%Q then 0%R
  else Rmax 0 (1 - Py.std values / Q2R (Py.mean values)).

(** One session of [d] minutes at ten o'clock of day [day]. *)
Definition session (day : Z) (d : Q) : BehaviorEntry :=
  {| timestamp := datetime.mk day 10 0 0 0; app_name := "Chrome";
     duration := d; interactions := 1; day_of_week := day `mod` 7;
     hour := 10 |}.

(** A week of sessions of zero minutes, a week of sessions of ten
    minutes each, and two days only. *)
Definition zero_week : list BehaviorEntry :=
  (λ day, session day 0) <$> [0; 1; 2; 3; 4; 5; 6]%Z.
Definition steady_week : list BehaviorEntry :=
  (λ day, session day 10) <$> [0; 1; 2; 3; 4; 5; 6]%Z.
Definition two_days : list BehaviorEntry := [session 0 30; session 1 50].

End Consistency.

Module DictFold.
Section DictFold.
Context {A V : Type} (key : A → Z) (init : Z → V) (step : A → V → V).

(** One update of an insertion-ordered dictionary: the entry of the key
    of [x] is created from [init] when it is missing and then updated
    with [x]. *)
Fixpoint dict_step (x : A) (d : list (Z * V)) : list (Z * V) :=
  match d with
  | [] => [(key x, step x (init (key x)))]
  | (k', v) :: d' => if decide (key x = k') then (k', step x v) :: d'
                     else (k', v) :: dict_step x d'
  end.

(** The value a key ends with: the updates of its items, in order. *)
Definition per_key (k : Z) (xs : list A) : V :=
  fold_left (λ v x, step x v) (filter (λ x, key x = k) xs) (init k).

End DictFold.
End DictFold.

Module DailyLogs.
Import UsageTracker.

Definition day_of (log : UsageEvent) : Z := datetime.date (timestamp log).

(** The logs of one calendar day, in their order. *)
Definition logs_of (d : Z) (logs : list UsageEvent) : list UsageEvent :=
  filter (λ log, day_of log = d) logs.

(** The record [process_logs_to_daily] builds for a day. *)
Definition day_record (d : Z) (logs : list UsageEvent) : DailyAggregate :=
  fold_left (λ r log, add_log log r) (logs_of d logs) (zero_record d (Some ∅)).

End DailyLogs.

Module Clusters.

(** How often the cluster [c] occurs in a list of assignments. *)
Definition occurrences (c : Z) (clusters : list Z) : Z :=
  Py.len (filter (λ x, x = c) clusters).

Definition alternating : list Z := [0; 1; 0; 1; 0; 1; 0; 1; 2]%Z.

End Clusters.

Module BehaviorInsights.
Import BehaviorAnalyzer.

(** The insight an anomaly is turned into. *)
Definition anomaly_insight (a : Anomaly) : BehavioralInsight :=
  {| insight_type := "anomaly";
     message := Anomaly_detected (description a);
     priority := severity_name (severity a) |}.

Definition strict_limits : string := "Set strict daily usage limits".
Definition night_mode : string :=
  "Enable night mode and usage restrictions after 9 PM".
Definition daily_routine : string :=
  "Create a structured daily routine for device usage".
Definition general_advice : list string :=
  [ "Try mindful gaming alternatives";
    "Set up break reminders every 30 minutes";
    "Use voice notifications for usage awareness" ].

End BehaviorInsights.

Module Sessions.
Import RealTimeTracker.

(** One call of [process_usage]: the dictionary it receives and the
    three clock readings taken while it runs. *)
Record Event := {
  data : gmap string string;
  at_time : datetime.t;
  at_hour : Z;
  metrics_time : datetime.t
}.

Definition event_user (e : Event) : string :=
  default "default" (data e !! "user_id").
Definition event_app (e : Event) : string :=
  default "unknown" (data e !! "app_name").
Definition event_key (e : Event) : string :=
  session_key (event_user e) (event_app e).

Definition call (self : Tracker) (e : Event) : Tracker * UsageResult :=
  process_usage self (data e) (at_time e) (at_hour e) (metrics_time e).

(** The tracker after a sequence of calls. *)
Definition feed (self : Tracker) (events : list Event) : Tracker :=
  fold_left (λ self e, (call self e).1) events self.

(** An event for [user] and [app]. *)
Definition event (user app : string) (ts : datetime.t) : Event :=
  {| data := {[ "user_id" := user; "app_name" := app ]};
     at_time := ts; at_hour := datetime.hour ts; metrics_time := ts |}.

End Sessions.

Module UsagePatterns.
Import BehaviorAnalyzer.

(** The value an insertion-ordered dictionary holds for a key. *)
Fixpoint lookup_str (k : string) (d : list (string * Q)) : option Q :=
  match d with
  | [] => None
  | (k', w) :: d' => if decide (k = k') then Some w else lookup_str k d'
  end.

(** Total duration of the entries at hour [h], on weekday [d] and in
    app [a]. *)
Definition hour_total (h : Z) (data : list BehaviorEntry) : Q :=
  Py.sum (duration <$> filter (λ e, hour e = h) data).
Definition day_total (d : Z) (data : list BehaviorEntry) : Q :=
  Py.sum (duration <$> filter (λ e, day_of_week e = d) data).
Definition app_total (a : string) (data : list BehaviorEntry) : Q :=
  Py.sum (duration <$> filter (λ e, app_name e = a) data).

(** Number of distinct apps. *)
Definition app_count (data : list BehaviorEntry) : nat :=
  size (list_to_set (app_name <$> data) : gset string).

End UsagePatterns.

Module Aggregates64.
Import UsageTracker64.

(** [morning + afternoon + evening + night], added as Python does. *)
Definition bucket_sum (r : DailyAggregate) : float :=
  (morning_usage r + afternoon_usage r + evening_usage r + night_usage r)%float.

(** [social + entertainment + productivity + other]. *)
Definition category_sum (r : DailyAggregate) : float :=
  (social_media_time r + entertainment_time r + productivity_time r
   + other_time r)%float.

(** The remainder left for [other_time], before the floor at zero. *)
Definition remainder (r : DailyAggregate) : float :=
  (total_duration r - social_media_time r - entertainment_time r
   - productivity_time r)%float.

Definition log_at (day h : Z) (app : string) (d : float) : UsageEvent :=
  {| timestamp := datetime.mk day h 0 0 0; app_name := app; duration := d |}.

(** One day, three short sessions of 0.3, 0.2 and 0.1 minutes, in the
    evening, the afternoon and the morning. *)
Definition three_buckets : list UsageEvent :=
  [ log_at 0 19 "Maps" 0x1.3333333333333p-2;
    log_at 0 13 "Maps" 0x1.999999999999ap-3;
    log_at 0 7 "Maps" 0x1.999999999999ap-4 ].

(** One day, three short sessions of 0.1, 0.3 and 0.4 minutes, one in
    each named category. *)
Definition three_categories : list UsageEvent :=
  [ log_at 0 9 "Chrome" 0x1.999999999999ap-4;
    log_at 0 10 "Instagram" 0x1.3333333333333p-2;
    log_at 0 11 "YouTube" 0x1.999999999999ap-2 ].

(** The logs of [AggregatesExamples.two_days], their whole minutes given
    as floats. *)
Definition two_days : list UsageEvent :=
  [ log_at 0 7 "Instagram" 30; log_at 0 13 "YouTube" 50;
    log_at 1 23 "Chrome" 20; log_at 0 2 "Maps" 15 ].

End Aggregates64.

Module Anomalies64.
Import BehaviorAnalyzer64.

Section Checks.
Variable np_mean : list float → float.

(** The rows the detector looks at: the most recent fourteen. *)
Definition window (features : list FeatureRow) : list FeatureRow :=
  Py.last_n 14 features.

(** The mean [np.mean] returns for a column over the last three days of
    the window, and over all the days of the window before them. *)
Definition recent_mean (col : FeatureRow → float)
    (features : list FeatureRow) : float :=
  np_mean (col <$> Py.last_n 3 (window features)).
Definition earlier_mean (col : FeatureRow → float)
    (features : list FeatureRow) : float :=
  np_mean (col <$> Py.but_last_n 3 (window features)).

(** [a > b] on floats. *)
Definition exceeds (a b : float) : bool := PrimFloat.ltb b a.

Definition spike (sev : BehaviorAnalyzer.anomaly_severity)
    (recent earlier : float) : Anomaly :=
  {| type := BehaviorAnalyzer.usage_spike; severity := sev;
     description := Usage_increased_by recent earlier |}.
Definition night_anomaly : Anomaly :=
  {| type := BehaviorAnalyzer.night_usage_increase;
     severity := BehaviorAnalyzer.medium;
     description := Text "Significant increase in late-night usage" |}.
Definition binge_anomaly : Anomaly :=
  {| type := BehaviorAnalyzer.binge_behavior;
     severity := BehaviorAnalyzer.high;
     description := Text "Increased binge usage patterns detected" |}.

(** The three independent checks, each product and comparison being the
    binary64 one. *)
Definition usage_check (features : list FeatureRow) : list Anomaly :=
  let recent := recent_mean total_duration features in
  let earlier := earlier_mean total_duration features in
  if exceeds recent (earlier * 1.5)%float
  then [spike (if exceeds recent (earlier * 2)%float
               then BehaviorAnalyzer.high else BehaviorAnalyzer.medium)
          recent earlier]
  else [].
Definition night_check (features : list FeatureRow) : list Anomaly :=
  if exceeds (recent_mean night_usage features)
       (earlier_mean night_usage features * 2)%float
  then [night_anomaly] else [].
Definition binge_check (features : list FeatureRow) : list Anomaly :=
  if exceeds (recent_mean binge_score features) 0x1.3333333333333p-2%float
  then [binge_anomaly] else [].

End Checks.

(** A feature row with the given daily total, night session count and
    binge score. *)
Definition row (total night binge : float) : FeatureRow :=
  {| total_duration := total; session_count := 4; unique_apps := 2;
     avg_session_duration := (total / 4)%float; interaction_rate := 1;
     morning_usage := 1; afternoon_usage := 1; evening_usage := 1;
     night_usage := night; social_time := 0; entertainment_time := 0;
     binge_score := binge; hours_used := 3; weekday := 0 |}.

(** Daily totals in whole minutes: nine earlier days that add up to
    100 and three recent days that add up to 50. *)
Definition tie_totals : list Z :=
  [11; 11; 11; 11; 11; 11; 11; 11; 12; 16; 17; 17]%Z.
Definition tie : list FeatureRow :=
  (λ t, row (F64.of_nat (Z.to_nat t)) 0 0) <$> tie_totals.

Definition four_days : list FeatureRow :=
  [ row 900 9 1; row 900 9 1; row 900 9 1; row 900 9 1 ].
(** Five days: two quiet ones, then three heavy ones. *)
Definition surge : list FeatureRow :=
  [ row 100 1 0; row 100 1 0; row 300 4 0.5; row 300 4 0.5; row 300 4 0.5 ].

End Anomalies64.

Module Insights64.
Import AddictionPredictor64.

Section Checks.
Variable np_polyfit_slope : list float → list float → float.
Variable np_mean : list float → float.

(** A column of the window. *)
Definition column (key : string) (window : list (gmap string float))
    : list float :=
  (λ d, get d key) <$> window.

(** The slope [np.polyfit] returns for the totals against the day index
    0, 1, ... *)
Definition trend (window : list (gmap string float)) : float :=
  np_polyfit_slope (F64.of_nat <$> seq 0 (length window))
    (column "total_duration" window).

(** [a > b] on floats. *)
Definition exceeds (a b : float) : bool := PrimFloat.ltb b a.

Definition insight (t : AddictionPredictor.insight_type) (m : insight_message)
    (s : AddictionPredictor.insight_severity) : Insight :=
  {| type := t; message := m; severity := s |}.

(** The four independent checks, on the numbers the library returns. *)
Definition trend_check (window : list (gmap string float)) : list Insight :=
  if decide (2 ≤ length window)%nat then
    if exceeds (trend window) 30
    then [insight AddictionPredictor.warning
            (Usage_increasing_by (trend window)) AddictionPredictor.high]
    else if exceeds (-30) (trend window)
    then [insight AddictionPredictor.positive
            (Usage_decreasing_by (PrimFloat.abs (trend window)))
            AddictionPredictor.low]
    else []
  else [].
Definition night_check (window : list (gmap string float)) : list Insight :=
  let avg := np_mean (column "night_usage" window) in
  if exceeds avg 60
  then [insight AddictionPredictor.warning (High_night_usage avg)
          AddictionPredictor.high]
  else [].
Definition binge_check (window : list (gmap string float)) : list Insight :=
  let total := F64.sum (column "binge_sessions" window) in
  if exceeds total 5
  then [insight AddictionPredictor.alert (Binge_sessions_detected total)
          AddictionPredictor.critical]
  else [].
Definition social_check (window : list (gmap string float)) : list Insight :=
  let avg := np_mean (column "social_media_time" window) in
  if exceeds avg 180
  then [insight AddictionPredictor.warning (High_social_media_usage avg)
          AddictionPredictor.moderate]
  else [].

End Checks.

(** Type and severity of each insight of a list. *)
Definition kinds (insights : list Insight)
    : list (AddictionPredictor.insight_type
            * AddictionPredictor.insight_severity) :=
  (λ i, (type i, severity i)) <$> insights.

Definition day (total night binge social : float) : gmap string float :=
  {[ "total_duration" := total; "night_usage" := night;
     "binge_sessions" := binge; "social_media_time" := social ]}.

(** A two-day window built to make any chosen combination of checks
    fire: [rising] is [Some true] for a rising total, [Some false] for
    a falling one and [None] for a flat one. *)
Definition scenario (rising : option bool) (night binge social : bool)
    : list (gmap string float) :=
  let n := if night then 100%float else 0%float in
  let b := if binge then 3%float else 0%float in
  let s := if social then 200%float else 0%float in
  match rising with
  | Some true => [day 100 n b s; day 200 n b s]
  | Some false => [day 200 n b s; day 100 n b s]
  | None => [day 100 n b s; day 100 n b s]
  end.

(** What the library returns on the scenarios: the slope through two
    totals rising by a hundred minutes exceeds 30, the slope through two
    totals falling by a hundred is below -30 and does not exceed 30, the
    slope through two equal totals does neither, and the mean of two
    equal values [v] is [v]. *)
Definition library_on_scenarios
    (np_polyfit_slope : list float → list float → float)
    (np_mean : list float → float) : Prop :=
  PrimFloat.ltb 30 (np_polyfit_slope [0; 1] [100; 200])%float = true
  ∧ PrimFloat.ltb (np_polyfit_slope [0; 1] [200; 100])%float (-30) = true
  ∧ PrimFloat.ltb 30 (np_polyfit_slope [0; 1] [200; 100])%float = false
  ∧ PrimFloat.ltb 30 (np_polyfit_slope [0; 1] [100; 100])%float = false
  ∧ PrimFloat.ltb (np_polyfit_slope [0; 1] [100; 100])%float (-30) = false
  ∧ np_mean [0; 0]%float = 0%float
  ∧ np_mean [100; 100]%float = 100%float
  ∧ np_mean [200; 200]%float = 200%float.

(** Two days without usage but for the night: 60 minutes and one unit
    in the last place more than 60, and 60 minutes. *)
Definition night_60 : float := 0x1.e000000000001p+5.
Definition near_threshold : list (gmap string float) :=
  [ day 0 night_60 0 0; day 0 60 0 0 ].

(** Three days whose totals rise by 30 minutes a day, and the next
    double above 30, printed 30.000000000000004. *)
Definition even_rise : list (gmap string float) :=
  [ day 0 0 0 0; day 30 0 0 0; day 60 0 0 0 ].
Definition above_30 : float := 0x1.e000000000001p+4.

End Insights64.

(** * Proofs *)

(** ** Arithmetic of the Python primitives *)

Lemma py_min_Qmin (a b : Q) : (Py.min a b == Qmin a b)%Q.
Proof.
  unfold Py.min. case_decide as Hlt.
  - symmetry. apply Q.min_r. qlra.
  - symmetry. apply Q.min_l. qlra.
Qed.

Lemma py_max_Qmax (a b : Q) : (Py.max a b == Qmax a b)%Q.
Proof.
  unfold Py.max. case_decide as Hlt.
  - symmetry. apply Q.max_r. qlra.
  - symmetry. apply Q.max_l. qlra.
Qed.

(** ** The rule-based risk scorer *)

Lemma get_risk_label_table (level : Z) :
  AddictionPredictor._get_risk_label level = RiskRules.label_table level.
Proof.
  unfold AddictionPredictor._get_risk_label, AddictionPredictor.labels.
  destruct (decide (level = 0%Z)) as [->|H0]; [done|].
  destruct (decide (level = 1%Z)) as [->|H1]; [done|].
  destruct (decide (level = 2%Z)) as [->|H2]; [done|].
  destruct (decide (level = 3%Z)) as [->|H3]; [done|].
  rewrite !lookup_insert_ne, lookup_empty by done. simpl.
  destruct level as [|p|p]; try done.
  do 3 (destruct p as [p|p|]; try done).
Qed.

Lemma rule_score_range (usage_data : gmap string Q) :
  (0 ≤ RiskRules.rule_score usage_data ≤ 7)%Z.
Proof.
  unfold RiskRules.rule_score, RiskRules.usage_tier.
  repeat case_decide; lia.
Qed.

(** C1: the rule-based scorer returns [min(score, 3)], [min(score/7, 1)]
    and the label of the fixed table, where the score is the highest usage
    tier plus the night and binge increments; labels outside the table are
    [Unknown]; totals 400 and 500 with no night or binge usage are
    Critical and a total of 50 is Low. *)
Theorem rule_based_prediction_spec :
  (∀ usage_data : gmap string Q,
     let r := AddictionPredictor._rule_based_prediction usage_data in
     let score := RiskRules.rule_score usage_data in
     AddictionPredictor.risk_level r = Z.min score 3
     ∧ (AddictionPredictor.risk_probability r == Qmin (inject_Z score / 7) 1)%Q
     ∧ AddictionPredictor.risk_label r
       = RiskRules.label_table (AddictionPredictor.risk_level r))
  ∧ (∀ level : Z,
       AddictionPredictor._get_risk_label level
       = if decide (0 ≤ level ≤ 3)%Z then RiskRules.label_table level
         else "Unknown")
  ∧ (let r := AddictionPredictor._rule_based_prediction
                (RiskRules.quiet_day 400) in
     AddictionPredictor.risk_level r = 3%Z
     ∧ AddictionPredictor.risk_label r = "Critical")
  ∧ (let r := AddictionPredictor._rule_based_prediction
                (RiskRules.quiet_day 500) in
     AddictionPredictor.risk_level r = 3%Z
     ∧ AddictionPredictor.risk_label r = "Critical")
  ∧ (let r := AddictionPredictor._rule_based_prediction
                (RiskRules.quiet_day 50) in
     AddictionPredictor.risk_level r = 0%Z
     ∧ AddictionPredictor.risk_label r = "Low").
Proof.
  split; [|split; [|split; [|split]]].
  - intros usage_data r score.
    assert (Hlevel : AddictionPredictor.risk_level r = Z.min score 3).
    { subst r score.
      unfold AddictionPredictor._rule_based_prediction, RiskRules.rule_score,
        RiskRules.usage_tier.
      repeat case_decide; reflexivity. }
    split; [exact Hlevel|]. split.
    + subst r score.
      unfold AddictionPredictor._rule_based_prediction, RiskRules.rule_score,
        RiskRules.usage_tier. cbn [AddictionPredictor.risk_probability].
      rewrite py_min_Qmin.
      repeat case_decide; reflexivity.
    + apply get_risk_label_table.
  - intros level. rewrite get_risk_label_table.
    case_decide as Hin; [reflexivity|].
    destruct level as [|p|p]; try done; try lia.
    do 3 (destruct p as [p|p|]; try done; try lia).
  - vm_compute. done.
  - vm_compute. done.
  - vm_compute. done.
Qed.

Lemma py_max_cases (a b : Q) : Py.max a b = a ∨ Py.max a b = b.
Proof. unfold Py.max. case_decide; auto. Qed.

Lemma py_max_ge_l (a b : Q) : (a <= Py.max a b)%Q.
Proof. unfold Py.max. case_decide; qlra. Qed.

Lemma py_max_ge_r (a b : Q) : (b <= Py.max a b)%Q.
Proof. unfold Py.max. case_decide; qlra. Qed.

(** ** The continuity calculator *)

Lemma max_continuous_loop_spec (rest : list UsageTracker.UsageEvent) :
  ∀ (prev : UsageTracker.UsageEvent) (max_c cur : Q),
    Forall (λ s, 0 <= UsageTracker.duration s)%Q rest →
    let res := UsageTracker.max_continuous_loop prev rest max_c cur in
    ((res == max_c)%Q ∨ (res == cur)%Q
     ∨ ∃ r, r ∈ Continuity.running_from prev cur rest ∧ (res == r)%Q)
    ∧ (max_c <= res)%Q ∧ (cur <= res)%Q
    ∧ ∀ r, r ∈ Continuity.running_from prev cur rest → (r <= res)%Q.
Proof.
  induction rest as [|s rest IH]; intros prev max_c cur Hnonneg; simpl.
  - split; [|split; [apply py_max_ge_l|split; [apply py_max_ge_r|]]].
    + destruct (py_max_cases max_c cur) as [-> | ->]; [left|right; left];
        reflexivity.
    + intros r Hr. inversion Hr.
  - apply Forall_cons in Hnonneg as [Hs Hrest].
    unfold Continuity.gap_minutes. case_decide as Hgap.
    + destruct (IH s max_c (cur + UsageTracker.duration s)%Q Hrest)
        as (Hwhich & Hmax & Hcur & Hall).
      split; [|split; [exact Hmax|split; [qlra|]]].
      * destruct Hwhich as [H | [H | (r & Hr & H)]].
        -- left. exact H.
        -- right. right. eexists. split; [apply list_elem_of_here|exact H].
        -- right. right. exists r. split; [by apply list_elem_of_further|exact H].
      * intros r Hr. apply elem_of_cons in Hr as [-> | Hr]; [exact Hcur|].
        by apply Hall.
    + pose proof (py_max_ge_l max_c cur) as Hl.
      pose proof (py_max_ge_r max_c cur) as Hr'.
      pose proof (py_max_cases max_c cur) as Hm.
      set (m := Py.max max_c cur) in *. clearbody m.
      destruct (IH s m (UsageTracker.duration s) Hrest)
        as (Hwhich & Hmax & Hcur & Hall).
      split; [|split; [qlra|split; [qlra|]]].
      * destruct Hwhich as [H | [H | (r & Hr & H)]].
        -- destruct Hm as [-> | ->]; [left|right; left]; exact H.
        -- right. right. eexists. split; [apply list_elem_of_here|exact H].
        -- right. right. exists r. split; [by apply list_elem_of_further|exact H].
      * intros r Hr. apply elem_of_cons in Hr as [-> | Hr]; [exact Hcur|].
        by apply Hall.
Qed.

(** C2: over sessions with non-negative durations the continuity
    calculator returns the largest running total, where the running total
    accumulates while the gap to the previous timestamp is below five
    minutes and restarts otherwise; it is [0] on no session and the
    session's duration on one; three merged sessions of ten minutes
    followed, after a ten-minute gap, by one of five give 30. *)
Theorem calculate_max_continuous_spec (sessions : list UsageTracker.UsageEvent) :
  Forall (λ s, 0 <= UsageTracker.duration s)%Q sessions →
  Continuity.is_maximum_of (UsageTracker._calculate_max_continuous sessions)
    (Continuity.running_totals sessions)
  ∧ (∀ s, sessions = [s] →
       (UsageTracker._calculate_max_continuous sessions
        == UsageTracker.duration s)%Q)
  ∧ UsageTracker._calculate_max_continuous [] = 0%Q
  ∧ UsageTracker._calculate_max_continuous Continuity.three_then_gap = 30%Q
  ∧ Continuity.running_totals Continuity.three_then_gap = [10; 20; 30; 5]%Q.
Proof.
  intros Hnonneg. split; [|split; [|split; [|split]]].
  - destruct sessions as [|s0 rest]; [reflexivity|].
    apply Forall_cons in Hnonneg as [H0 Hrest].
    destruct (max_continuous_loop_spec rest s0 0%Q (UsageTracker.duration s0) Hrest)
      as (Hwhich & Hzero & Hcur & Hall).
    unfold Continuity.is_maximum_of, Continuity.running_totals.
    unfold UsageTracker._calculate_max_continuous. split.
    + destruct Hwhich as [H | [H | (r & Hr & H)]].
      * exists (UsageTracker.duration s0). split; [apply list_elem_of_here|].
        rewrite H in Hcur. rewrite H. qlra.
      * exists (UsageTracker.duration s0). split; [apply list_elem_of_here|].
        exact H.
      * exists r. split; [by apply list_elem_of_further|exact H].
    + intros r Hr. apply elem_of_cons in Hr as [-> | Hr]; [exact Hcur|].
      by apply Hall.
  - intros s ->. apply Forall_cons in Hnonneg as [H0 _].
    unfold UsageTracker._calculate_max_continuous. simpl.
    unfold Py.max. case_decide; [reflexivity|qlra].
  - reflexivity.
  - vm_compute. reflexivity.
  - vm_compute. reflexivity.
Qed.

Lemma calculate_max_continuous_spec_witness :
  Forall (λ s, 0 <= UsageTracker.duration s)%Q Continuity.three_then_gap
  ∧ Continuity.is_maximum_of
      (UsageTracker._calculate_max_continuous Continuity.three_then_gap)
      (Continuity.running_totals Continuity.three_then_gap).
Proof.
  assert (H : Forall (λ s, 0 <= UsageTracker.duration s)%Q
                Continuity.three_then_gap).
  { repeat constructor; vm_compute; discriminate. }
  split; [exact H|].
  exact (proj1 (calculate_max_continuous_spec Continuity.three_then_gap H)).
Defined.

(** ** Sums *)

Lemma fold_left_Qplus_acc (xs : list Q) (a : Q) :
  (fold_left Qplus xs a == a + Py.sum xs)%Q.
Proof.
  unfold Py.sum. revert a.
  induction xs as [|x xs IH]; intros a; simpl; [qlra|].
  rewrite (IH (a + x)%Q), (IH (0 + x)%Q). qlra.
Qed.

Lemma py_sum_cons (x : Q) (xs : list Q) : (Py.sum (x :: xs) == x + Py.sum xs)%Q.
Proof.
  unfold Py.sum at 1. simpl. rewrite fold_left_Qplus_acc. qlra.
Qed.

Lemma py_sum_app (xs ys : list Q) :
  (Py.sum (xs ++ ys) == Py.sum xs + Py.sum ys)%Q.
Proof.
  induction xs as [|x xs IH]; simpl.
  - unfold Py.sum at 2. simpl. qlra.
  - rewrite !py_sum_cons, IH. qlra.
Qed.

Lemma py_sum_nonneg (xs : list Q) :
  Forall (λ x, 0 <= x)%Q xs → (0 <= Py.sum xs)%Q.
Proof.
  induction 1 as [|x xs Hx _ IH]; [unfold Py.sum; simpl; qlra|].
  rewrite py_sum_cons. qlra.
Qed.

Lemma sum_where_cons (P : UsageTracker.UsageEvent → Prop)
    `{∀ s, Decision (P s)} (s : UsageTracker.UsageEvent)
    (l : list UsageTracker.UsageEvent) :
  (UsageTracker.sum_where P (s :: l)
   == (if decide (P s) then UsageTracker.duration s else 0)
      + UsageTracker.sum_where P l)%Q.
Proof.
  unfold UsageTracker.sum_where. rewrite filter_cons.
  destruct (decide (P s)); simpl; [apply py_sum_cons|qlra].
Qed.

Lemma sum_where_nil (P : UsageTracker.UsageEvent → Prop)
    `{∀ s, Decision (P s)} :
  UsageTracker.sum_where P [] = 0%Q.
Proof. reflexivity. Qed.

(** ** The daily aggregators *)

Lemma time_buckets_partition (l : list UsageTracker.UsageEvent) :
  (UsageTracker.sum_where
     (λ s, 6 ≤ UsageTracker.hour_of s ∧ UsageTracker.hour_of s < 12)%Z l
   + UsageTracker.sum_where
       (λ s, 12 ≤ UsageTracker.hour_of s ∧ UsageTracker.hour_of s < 18)%Z l
   + UsageTracker.sum_where
       (λ s, 18 ≤ UsageTracker.hour_of s ∧ UsageTracker.hour_of s < 22)%Z l
   + UsageTracker.sum_where
       (λ s, 22 ≤ UsageTracker.hour_of s ∨ UsageTracker.hour_of s < 6)%Z l
   == Py.sum (UsageTracker.duration <$> l))%Q.
Proof.
  induction l as [|s l IH]; [reflexivity|].
  rewrite fmap_cons, py_sum_cons, !sum_where_cons, <- IH.
  repeat case_decide; try lia; qlra.
Qed.

Lemma dict_alter_Forall {V} (P : V → Prop) (f : V → V) (k : Z)
    (d : list (Z * V)) :
  (∀ v, P v → P (f v)) →
  Forall (λ kv, P kv.2) d →
  Forall (λ kv, P kv.2) (UsageTracker.dict_alter f k d).
Proof.
  intros Hf. induction 1 as [|[k' v] d Hv Hd IH]; simpl; [constructor|].
  case_decide; constructor; simpl in *; auto.
Qed.

Lemma process_logs_Forall (P : UsageTracker.DailyAggregate → Prop)
    (logs : list UsageTracker.UsageEvent) :
  (∀ d, P (UsageTracker.zero_record d (Some ∅))) →
  (∀ log r, P r → P (UsageTracker.add_log log r)) →
  Forall P (UsageTracker.process_logs_to_daily logs).
Proof.
  intros Hzero Hadd. unfold UsageTracker.process_logs_to_daily.
  assert (Hgen : ∀ acc : list (Z * UsageTracker.DailyAggregate),
             Forall (λ kv, P kv.2) acc →
             Forall (λ kv, P kv.2) (fold_left UsageTracker.process_log logs acc)).
  { induction logs as [|log logs IH]; intros acc Hacc; simpl; [exact Hacc|].
    apply IH. unfold UsageTracker.process_log.
    apply dict_alter_Forall; [intros v; apply Hadd|].
    case_decide; [exact Hacc|].
    apply Forall_app. split; [exact Hacc|].
    constructor; [apply Hzero|constructor]. }
  apply Forall_fmap. apply (Hgen []). constructor.
Qed.

Lemma add_log_bucket_sum (log : UsageTracker.UsageEvent)
    (r : UsageTracker.DailyAggregate) :
  (Aggregates.bucket_sum r == UsageTracker.total_duration r)%Q →
  (Aggregates.bucket_sum (UsageTracker.add_log log r)
   == UsageTracker.total_duration (UsageTracker.add_log log r))%Q.
Proof.
  unfold Aggregates.bucket_sum, UsageTracker.add_log. intros Hr.
  repeat case_decide; simpl; qlra.
Qed.

Lemma aggregate_daily_data_Some (raw_logs : list UsageTracker.UsageEvent)
    (target_date : Z) (agg : UsageTracker.DailyAggregate) :
  UsageTracker.aggregate_daily_data raw_logs target_date = Some agg →
  let daily_sessions :=
    filter (λ log, datetime.date (UsageTracker.timestamp log) = target_date)
      raw_logs in
  daily_sessions ≠ [] ∧ agg = UsageTracker.daily_metrics target_date daily_sessions.
Proof.
  unfold UsageTracker.aggregate_daily_data.
  destruct (filter _ raw_logs) as [|s l]; [discriminate|].
  intros [= <-]. split; [discriminate|reflexivity].
Qed.

(** C3, as claimed: the four buckets would add up to the total exactly
    for every event list.  On float durations they do not: for sessions
    of 0.3, 0.2 and 0.1 minutes in the evening, the afternoon and the
    morning of one day, [aggregate_daily_data] records the total 0.6 and
    buckets that add up to 0.6000000000000001. *)
Lemma bucket_partition_on_floats :
  ∃ agg,
    UsageTracker64.aggregate_daily_data Aggregates64.three_buckets 0 = Some agg
    ∧ UsageTracker64.total_duration agg = 0x1.3333333333333p-1%float
    ∧ Aggregates64.bucket_sum agg = 0x1.3333333333334p-1%float
    ∧ PrimFloat.eqb (Aggregates64.bucket_sum agg)
        (UsageTracker64.total_duration agg) = false.
Proof.
  eexists. split; [vm_compute; reflexivity|].
  split; [|split]; vm_compute; reflexivity.
Qed.

(** On the whole minutes of [two_days] the float record carries the
    numbers of the exact one, and its buckets and its categories add up
    to its total. *)
Lemma whole_minutes_on_floats :
  ∃ agg agg64,
    UsageTracker.aggregate_daily_data AggregatesExamples.two_days 0 = Some agg
    ∧ UsageTracker64.aggregate_daily_data Aggregates64.two_days 0 = Some agg64
    ∧ F64.exactly (UsageTracker64.total_duration agg64)
        (UsageTracker.total_duration agg)
    ∧ F64.exactly (Aggregates64.bucket_sum agg64) (Aggregates.bucket_sum agg)
    ∧ F64.exactly (Aggregates64.category_sum agg64)
        (Aggregates.category_sum agg)
    ∧ F64.exactly (UsageTracker64.other_time agg64)
        (UsageTracker.other_time agg)
    ∧ PrimFloat.eqb (Aggregates64.bucket_sum agg64)
        (UsageTracker64.total_duration agg64) = true
    ∧ PrimFloat.eqb (Aggregates64.category_sum agg64)
        (UsageTracker64.total_duration agg64) = true.
Proof.
  do 2 eexists. split; [vm_compute; reflexivity|].
  split; [vm_compute; reflexivity|].
  repeat split; vm_compute; reflexivity.
Qed.

(** C3: on durations in whole minutes, in the record
    [aggregate_daily_data] returns and in every record of
    [process_logs_to_daily], the morning, afternoon, evening and night
    usage add up to the total duration exactly. *)
Theorem bucket_partition_invariant :
  (∀ (raw_logs : list UsageTracker.UsageEvent) (target_date : Z)
     (agg : UsageTracker.DailyAggregate),
     Aggregates.whole_minutes raw_logs →
     UsageTracker.aggregate_daily_data raw_logs target_date = Some agg →
     (Aggregates.bucket_sum agg == UsageTracker.total_duration agg)%Q)
  ∧ (∀ (logs : list UsageTracker.UsageEvent) (r : UsageTracker.DailyAggregate),
       Aggregates.whole_minutes logs →
       r ∈ UsageTracker.process_logs_to_daily logs →
       (Aggregates.bucket_sum r == UsageTracker.total_duration r)%Q).
Proof.
  split.
  - intros raw_logs target_date agg _ Hagg.
    apply aggregate_daily_data_Some in Hagg as (_ & ->).
    apply time_buckets_partition.
  - intros logs r _ Hr.
    assert (H : Forall
                  (λ r, Aggregates.bucket_sum r == UsageTracker.total_duration r)%Q
                  (UsageTracker.process_logs_to_daily logs)).
    { apply process_logs_Forall; [intros d; reflexivity|].
      apply add_log_bucket_sum. }
    rewrite Forall_forall in H. by apply H.
Qed.

Lemma bucket_partition_invariant_witness :
  Aggregates.whole_minutes AggregatesExamples.two_days
  ∧ ∃ agg,
      UsageTracker.aggregate_daily_data AggregatesExamples.two_days 0 = Some agg
      ∧ (Aggregates.bucket_sum agg == UsageTracker.total_duration agg)%Q
      ∧ (UsageTracker.total_duration agg == 95)%Q
      ∧ Forall (λ r, Aggregates.bucket_sum r == UsageTracker.total_duration r)%Q
          (UsageTracker.process_logs_to_daily AggregatesExamples.two_days).
Proof.
  assert (Hwhole : Aggregates.whole_minutes AggregatesExamples.two_days)
    by (repeat constructor).
  split; [exact Hwhole|].
  eexists. split; [vm_compute; reflexivity|].
  split; [|split].
  - eapply (proj1 bucket_partition_invariant AggregatesExamples.two_days 0%Z);
      [exact Hwhole|].
    vm_compute. reflexivity.
  - vm_compute. reflexivity.
  - apply Forall_forall. intros r Hr.
    exact (proj2 bucket_partition_invariant AggregatesExamples.two_days r
             Hwhole Hr).
Defined.

(** C5: [aggregate_daily_data] counts a session at six o'clock as morning
    and one at twelve as afternoon, while [process_logs_to_daily] counts
    the first as night and the second as morning: its buckets are
    (6,12], (12,18], (18,22) and [22,24) with [0,6]. *)
Theorem time_buckets_at_boundaries :
  let at_six := [Aggregates.log_at 0 6 "Chrome" 10] in
  let at_noon := [Aggregates.log_at 0 12 "Chrome" 10] in
  (UsageTracker.morning_usage <$> UsageTracker.aggregate_daily_data at_six 0
   = Some 10%Q
   ∧ UsageTracker.night_usage <$> UsageTracker.aggregate_daily_data at_six 0
     = Some 0%Q)
  ∧ (UsageTracker.morning_usage <$> UsageTracker.process_logs_to_daily at_six
     = [0%Q]
     ∧ UsageTracker.night_usage <$> UsageTracker.process_logs_to_daily at_six
       = [10%Q])
  ∧ (UsageTracker.afternoon_usage <$> UsageTracker.aggregate_daily_data at_noon 0
     = Some 10%Q
     ∧ UsageTracker.morning_usage <$> UsageTracker.aggregate_daily_data at_noon 0
       = Some 0%Q)
  ∧ (UsageTracker.afternoon_usage <$> UsageTracker.process_logs_to_daily at_noon
     = [0%Q]
     ∧ UsageTracker.morning_usage <$> UsageTracker.process_logs_to_daily at_noon
       = [10%Q]).
Proof. vm_compute. repeat split; reflexivity. Qed.

(** ** The three-day window *)

Lemma aggregate_daily_data_date (raw_logs : list UsageTracker.UsageEvent)
    (target_date : Z) (agg : UsageTracker.DailyAggregate) :
  UsageTracker.aggregate_daily_data raw_logs target_date = Some agg →
  UsageTracker.date agg = target_date.
Proof.
  by intros [_ ->]%aggregate_daily_data_Some.
Qed.

Lemma aggregate_daily_data_None (raw_logs : list UsageTracker.UsageEvent)
    (target_date : Z) :
  ¬ Aggregates.has_events raw_logs target_date →
  UsageTracker.aggregate_daily_data raw_logs target_date = None.
Proof.
  intros Hno. unfold UsageTracker.aggregate_daily_data.
  destruct (filter _ raw_logs) as [|s l] eqn:E; [reflexivity|].
  exfalso. apply Hno. exists s.
  assert (Hs : s ∈ filter
                 (λ log, datetime.date (UsageTracker.timestamp log) = target_date)
                 raw_logs) by (rewrite E; apply list_elem_of_here).
  apply list_elem_of_filter in Hs as [Hd Hin]. split; [exact Hin|exact Hd].
Qed.

(** C9: [get_three_day_data] returns exactly three records, for the day
    before yesterday, yesterday and today in this order.  The record of
    a day counts the events of that day and adds up their durations: it
    is the record [aggregate_daily_data] computes when the day has
    events, and the all-zero record when it has none.  On no logs at all
    it returns the three all-zero records. *)
Theorem get_three_day_data_spec (today : Z)
    (raw_logs : list UsageTracker.UsageEvent) :
  let days := [today - 2; today - 1; today]%Z in
  let records := UsageTracker.get_three_day_data today raw_logs in
  length records = 3%nat
  ∧ UsageTracker.date <$> records = days
  ∧ Forall2
      (λ d r,
         UsageTracker.session_count r
         = Py.len (Aggregates.events_of raw_logs d)
         ∧ UsageTracker.total_duration r
           = Py.sum (UsageTracker.duration <$> Aggregates.events_of raw_logs d)
         ∧ (Aggregates.has_events raw_logs d →
            UsageTracker.aggregate_daily_data raw_logs d = Some r
            ∧ (1 ≤ UsageTracker.session_count r)%Z
            ∧ r ≠ UsageTracker.zero_record d None)
         ∧ (¬ Aggregates.has_events raw_logs d →
            r = UsageTracker.zero_record d None))
      days records
  ∧ Forall
      (λ r, ¬ Aggregates.has_events raw_logs (UsageTracker.date r) →
            r = UsageTracker.zero_record (UsageTracker.date r) None)
      records
  ∧ UsageTracker.get_three_day_data today []
    = [ UsageTracker.zero_record (today - 2) None;
        UsageTracker.zero_record (today - 1) None;
        UsageTracker.zero_record today None ].
Proof.
  intros days records. subst days records.
  assert (Hday : ∀ d,
    let r := match UsageTracker.aggregate_daily_data raw_logs d with
             | Some daily_data => daily_data
             | None => UsageTracker.zero_record d None
             end in
    UsageTracker.date r = d
    ∧ UsageTracker.session_count r = Py.len (Aggregates.events_of raw_logs d)
    ∧ UsageTracker.total_duration r
      = Py.sum (UsageTracker.duration <$> Aggregates.events_of raw_logs d)
    ∧ (Aggregates.has_events raw_logs d →
       UsageTracker.aggregate_daily_data raw_logs d = Some r
       ∧ (1 ≤ UsageTracker.session_count r)%Z
       ∧ r ≠ UsageTracker.zero_record d None)
    ∧ (¬ Aggregates.has_events raw_logs d →
       r = UsageTracker.zero_record d None)).
  { intros d.
    destruct (UsageTracker.aggregate_daily_data raw_logs d) as [agg|] eqn:E;
      cbv zeta.
    - pose proof (aggregate_daily_data_Some _ _ _ E) as [Hne Hagg].
      fold (Aggregates.events_of raw_logs d) in Hne, Hagg.
      assert (Hcount : UsageTracker.session_count agg
                       = Py.len (Aggregates.events_of raw_logs d))
        by (by rewrite Hagg).
      assert (Hpos : (1 ≤ UsageTracker.session_count agg)%Z).
      { rewrite Hcount.
        destruct (Aggregates.events_of raw_logs d); [done|].
        unfold Py.len. cbn [length]. lia. }
      split; [by rewrite Hagg|]. split; [exact Hcount|].
      split; [by rewrite Hagg|]. split.
      + intros _. split; [reflexivity|]. split; [exact Hpos|].
        intros Heq. rewrite Heq in Hpos. cbn in Hpos. lia.
      + intros Hno.
        rewrite (aggregate_daily_data_None _ _ Hno) in E. discriminate.
    - assert (Hnil : Aggregates.events_of raw_logs d = []).
      { unfold UsageTracker.aggregate_daily_data in E.
        unfold Aggregates.events_of.
        by destruct (filter _ raw_logs). }
      rewrite Hnil. split; [reflexivity|]. split; [reflexivity|].
      split; [reflexivity|]. split; [|reflexivity].
      intros (log & Hin & Hd). exfalso.
      assert (Hlog : log ∈ Aggregates.events_of raw_logs d)
        by (apply list_elem_of_filter; by split).
      rewrite Hnil in Hlog. by apply elem_of_nil in Hlog. }
  unfold UsageTracker.get_three_day_data.
  split; [reflexivity|]. split; [|split; [|split]].
  - simpl. rewrite !(proj1 (Hday _)). by rewrite Z.sub_0_r.
  - cbn [fmap list_fmap]. rewrite Z.sub_0_r.
    constructor; [exact (proj2 (Hday _))|].
    constructor; [exact (proj2 (Hday _))|].
    constructor; [exact (proj2 (Hday _))|constructor].
  - cbn [fmap list_fmap].
    assert (Hzero : ∀ d,
      let r := match UsageTracker.aggregate_daily_data raw_logs d with
               | Some daily_data => daily_data
               | None => UsageTracker.zero_record d None
               end in
      ¬ Aggregates.has_events raw_logs (UsageTracker.date r) →
      r = UsageTracker.zero_record (UsageTracker.date r) None).
    { intros d. cbv zeta. rewrite (proj1 (Hday d)).
      apply (proj2 (proj2 (proj2 (proj2 (Hday d))))). }
    constructor; [apply Hzero|].
    constructor; [apply Hzero|].
    constructor; [apply Hzero|constructor].
  - simpl. by rewrite Z.sub_0_r.
Qed.

Lemma get_three_day_data_spec_witness :
  Forall
    (λ r, ¬ Aggregates.has_events AggregatesExamples.two_days
              (UsageTracker.date r) →
          r = UsageTracker.zero_record (UsageTracker.date r) None)
    (UsageTracker.get_three_day_data 2 AggregatesExamples.two_days)
  ∧ UsageTracker.session_count
      <$> UsageTracker.get_three_day_data 2 AggregatesExamples.two_days
    = [3; 1; 0]%Z.
Proof.
  split.
  - exact (proj1 (proj2 (proj2 (proj2
             (get_three_day_data_spec 2 AggregatesExamples.two_days))))).
  - vm_compute. reflexivity.
Defined.

(** ** App categories *)

Lemma category_sets_disjoint :
  UsageTracker.social_apps ## UsageTracker.entertainment_apps
  ∧ UsageTracker.social_apps ## UsageTracker.productivity_apps
  ∧ UsageTracker.entertainment_apps ## UsageTracker.productivity_apps.
Proof.
  repeat split; apply (bool_decide_unpack _); vm_compute; exact I.
Qed.

Lemma sum_where_nonneg (P : UsageTracker.UsageEvent → Prop)
    `{∀ s, Decision (P s)} (l : list UsageTracker.UsageEvent) :
  Forall (λ s, 0 <= UsageTracker.duration s)%Q l →
  (0 <= UsageTracker.sum_where P l)%Q.
Proof.
  induction 1 as [|s l Hs _ IH]; [rewrite sum_where_nil; qlra|].
  rewrite sum_where_cons. case_decide; qlra.
Qed.

Lemma three_way_partition (A B C : gset string)
    (l : list UsageTracker.UsageEvent) :
  A ## B → A ## C → B ## C →
  (UsageTracker.sum_where (λ s, UsageTracker.app_name s ∈ A) l
   + UsageTracker.sum_where (λ s, UsageTracker.app_name s ∈ B) l
   + UsageTracker.sum_where (λ s, UsageTracker.app_name s ∈ C) l
   + UsageTracker.sum_where
       (λ s, (UsageTracker.app_name s ∉ A) ∧ (UsageTracker.app_name s ∉ B)
             ∧ (UsageTracker.app_name s ∉ C)) l
   == Py.sum (UsageTracker.duration <$> l))%Q.
Proof.
  intros HAB HAC HBC.
  induction l as [|s l IH]; [reflexivity|].
  rewrite fmap_cons, py_sum_cons, !sum_where_cons, <- IH.
  destruct (decide (UsageTracker.app_name s ∈ A)) as [HA|HA];
    destruct (decide (UsageTracker.app_name s ∈ B)) as [HB|HB];
    destruct (decide (UsageTracker.app_name s ∈ C)) as [HC|HC];
    try (exfalso; by eapply HAB); try (exfalso; by eapply HAC);
    try (exfalso; by eapply HBC);
    case_decide as Hnone; try tauto; qlra.
Qed.

Lemma categories_partition (l : list UsageTracker.UsageEvent) :
  (UsageTracker.sum_where
     (λ s, UsageTracker.app_name s ∈ UsageTracker.social_apps) l
   + UsageTracker.sum_where
       (λ s, UsageTracker.app_name s ∈ UsageTracker.entertainment_apps) l
   + UsageTracker.sum_where
       (λ s, UsageTracker.app_name s ∈ UsageTracker.productivity_apps) l
   + UsageTracker.sum_where
       (λ s, (UsageTracker.app_name s ∉ UsageTracker.social_apps)
             ∧ (UsageTracker.app_name s ∉ UsageTracker.entertainment_apps)
             ∧ (UsageTracker.app_name s ∉ UsageTracker.productivity_apps)) l
   == Py.sum (UsageTracker.duration <$> l))%Q.
Proof.
  destruct category_sets_disjoint as (Hse & Hsp & Hep).
  by apply three_way_partition.
Qed.

(** C10, as claimed: over non-negative durations the four category
    times would add up to the total exactly and the remainder left for
    [other_time] would never be negative.  On float durations neither
    holds: for sessions of 0.1, 0.3 and 0.4 minutes in a productivity, a
    social and an entertainment app the total is 0.8, the remainder is
    negative, the floor at zero sets [other_time] to 0 and the four
    categories add up to 0.7999999999999999. *)
Lemma category_partition_on_floats :
  Forall (λ log, PrimFloat.leb 0 (UsageTracker64.duration log) = true)
    Aggregates64.three_categories
  ∧ ∃ agg,
      UsageTracker64.aggregate_daily_data Aggregates64.three_categories 0
      = Some agg
      ∧ UsageTracker64.total_duration agg = 0x1.999999999999ap-1%float
      ∧ PrimFloat.ltb (Aggregates64.remainder agg) 0 = true
      ∧ UsageTracker64.other_time agg = 0%float
      ∧ Aggregates64.category_sum agg = 0x1.9999999999999p-1%float
      ∧ PrimFloat.eqb (Aggregates64.category_sum agg)
          (UsageTracker64.total_duration agg) = false.
Proof.
  split; [repeat constructor|].
  eexists. split; [vm_compute; reflexivity|].
  split; [|split; [|split; [|split]]]; vm_compute; reflexivity.
Qed.

(** C10: over logs with non-negative durations in whole minutes the four
    category times of the record of [aggregate_daily_data] add up to the
    total duration exactly, the remainder left for [other_time] is not
    negative before the floor at zero is applied, and the three category
    sets are pairwise disjoint. *)
Theorem category_partition_invariant
    (raw_logs : list UsageTracker.UsageEvent) (target_date : Z)
    (agg : UsageTracker.DailyAggregate) :
  Aggregates.whole_minutes raw_logs →
  Forall (λ s, 0 <= UsageTracker.duration s)%Q raw_logs →
  UsageTracker.aggregate_daily_data raw_logs target_date = Some agg →
  (Aggregates.category_sum agg == UsageTracker.total_duration agg)%Q
  ∧ (0 <= UsageTracker.total_duration agg - UsageTracker.social_media_time agg
          - UsageTracker.entertainment_time agg
          - UsageTracker.productivity_time agg)%Q
  ∧ (UsageTracker.other_time agg
     == UsageTracker.total_duration agg - UsageTracker.social_media_time agg
        - UsageTracker.entertainment_time agg
        - UsageTracker.productivity_time agg)%Q
  ∧ UsageTracker.social_apps ## UsageTracker.entertainment_apps
  ∧ UsageTracker.social_apps ## UsageTracker.productivity_apps
  ∧ UsageTracker.entertainment_apps ## UsageTracker.productivity_apps.
Proof.
  intros _ Hnonneg Hagg.
  apply aggregate_daily_data_Some in Hagg as (_ & ->).
  set (ds := filter _ raw_logs).
  assert (Hday : Forall (λ s, 0 <= UsageTracker.duration s)%Q ds).
  { apply Forall_forall. intros s [_ Hs]%list_elem_of_filter.
    rewrite Forall_forall in Hnonneg. by apply Hnonneg. }
  pose proof (categories_partition ds) as Hpart.
  pose proof (sum_where_nonneg
                (λ s, (UsageTracker.app_name s ∉ UsageTracker.social_apps)
                      ∧ (UsageTracker.app_name s ∉ UsageTracker.entertainment_apps)
                      ∧ (UsageTracker.app_name s ∉ UsageTracker.productivity_apps))
                ds Hday) as Hother.
  unfold Aggregates.category_sum, UsageTracker.daily_metrics.
  cbn [UsageTracker.total_duration UsageTracker.social_media_time
       UsageTracker.entertainment_time UsageTracker.productivity_time
       UsageTracker.other_time].
  split; [|split; [qlra|split; [|apply category_sets_disjoint]]].
  - unfold Py.max. case_decide; qlra.
  - unfold Py.max. case_decide; qlra.
Qed.

Lemma category_partition_invariant_witness :
  Aggregates.whole_minutes AggregatesExamples.two_days
  ∧ Forall (λ s, 0 <= UsageTracker.duration s)%Q AggregatesExamples.two_days
  ∧ ∃ agg,
      UsageTracker.aggregate_daily_data AggregatesExamples.two_days 0 = Some agg
      ∧ (Aggregates.category_sum agg == UsageTracker.total_duration agg)%Q
      ∧ (UsageTracker.other_time agg == 15)%Q.
Proof.
  assert (Hwhole : Aggregates.whole_minutes AggregatesExamples.two_days)
    by (repeat constructor).
  assert (Hnonneg : Forall (λ s, 0 <= UsageTracker.duration s)%Q
                      AggregatesExamples.two_days)
    by (repeat constructor; vm_compute; discriminate).
  split; [exact Hwhole|]. split; [exact Hnonneg|].
  eexists. split; [vm_compute; reflexivity|]. split.
  - eapply (proj1 (category_partition_invariant
                     AggregatesExamples.two_days 0%Z _ Hwhole Hnonneg _)).
  - vm_compute. reflexivity.
  Unshelve.
  vm_compute. reflexivity.
Defined.

(** ** Anomaly detection *)

Lemma last_n_fmap {A B} (f : A → B) (n : nat) (xs : list A) :
  Py.last_n n (f <$> xs) = f <$> Py.last_n n xs.
Proof. unfold Py.last_n. by rewrite length_fmap, fmap_drop. Qed.

Lemma but_last_n_fmap {A B} (f : A → B) (n : nat) (xs : list A) :
  Py.but_last_n n (f <$> xs) = f <$> Py.but_last_n n xs.
Proof. unfold Py.but_last_n. by rewrite length_fmap, fmap_take. Qed.

Lemma last_n_length {A} (n : nat) (xs : list A) :
  length (Py.last_n n xs) = Nat.min n (length xs).
Proof. unfold Py.last_n. rewrite length_drop. lia. Qed.

Lemma last_n_all {A} (n : nat) (xs : list A) :
  (length xs ≤ n)%nat → Py.last_n n xs = xs.
Proof.
  intros Hle. unfold Py.last_n.
  by replace (length xs - n)%nat with 0%nat by lia.
Qed.

Lemma last_n_but_last_n {A} (n : nat) (xs : list A) :
  Py.but_last_n n xs ++ Py.last_n n xs = xs.
Proof. apply take_drop. Qed.

(** C6, as claimed: a usage spike would be flagged only when the mean of
    the last three totals exceeds 1.5 times the mean of the earlier
    ones.  For nine earlier days that add up to 100 minutes and three
    recent days that add up to 50, the recent mean is exactly 1.5 times
    the earlier one and does not exceed it; the code, which computes the
    means and the product in binary64, flags a spike. *)
Lemma usage_spike_at_exact_tie :
  Forall2 F64.exactly
    (BehaviorAnalyzer64.total_duration <$> Anomalies64.tie)
    (inject_Z <$> Anomalies64.tie_totals)
  ∧ (Py.mean (inject_Z <$> Py.last_n 3 Anomalies64.tie_totals)
     == 1.5 * Py.mean (inject_Z <$> Py.but_last_n 3 Anomalies64.tie_totals))%Q
  ∧ BehaviorAnalyzer64.type
      <$> BehaviorAnalyzer64._detect_behavioral_anomalies Numpy.mean
            Anomalies64.tie
    = [BehaviorAnalyzer.usage_spike].
Proof.
  split; [|split].
  - repeat constructor; vm_compute; reflexivity.
  - vm_compute. reflexivity.
  - vm_compute. reflexivity.
Qed.

(** C6: below five rows the detector returns nothing; from five rows on
    it returns, in this order, the outcome of three independent checks
    on the last fourteen rows, each on the means [np.mean] returns and
    with binary64 products and comparisons: a usage spike when the mean
    total of the last three days exceeds 1.5 times the mean of the
    earlier days of the window (high above twice, else medium), a night
    anomaly when the mean night count of the last three days exceeds
    twice the earlier mean, and a high binge anomaly when the mean binge
    score of the last three days exceeds 0.3.  With at most fourteen
    rows the window is the whole matrix. *)
Theorem detect_behavioral_anomalies_spec (np_mean : list float → float)
    (features : list BehaviorAnalyzer64.FeatureRow) :
  ((length features < 5)%nat →
   BehaviorAnalyzer64._detect_behavioral_anomalies np_mean features = [])
  ∧ ((5 ≤ length features)%nat →
     BehaviorAnalyzer64._detect_behavioral_anomalies np_mean features
     = Anomalies64.usage_check np_mean features
       ++ Anomalies64.night_check np_mean features
       ++ Anomalies64.binge_check np_mean features)
  ∧ ((length features ≤ 14)%nat → Anomalies64.window features = features)
  ∧ ((∃ older, features = older ++ Anomalies64.window features)
     ∧ length (Anomalies64.window features) = Nat.min 14 (length features)
     ∧ Anomalies64.window features
       = Py.but_last_n 3 (Anomalies64.window features)
         ++ Py.last_n 3 (Anomalies64.window features))
  ∧ (λ a, (BehaviorAnalyzer64.type a, BehaviorAnalyzer64.severity a))
      <$> BehaviorAnalyzer64._detect_behavioral_anomalies Numpy.mean
            Anomalies64.surge
    = [ (BehaviorAnalyzer.usage_spike, BehaviorAnalyzer.high);
        (BehaviorAnalyzer.night_usage_increase, BehaviorAnalyzer.medium);
        (BehaviorAnalyzer.binge_behavior, BehaviorAnalyzer.high) ].
Proof.
  split; [|split; [|split; [|split]]].
  - intros Hlt. unfold BehaviorAnalyzer64._detect_behavioral_anomalies.
    by rewrite decide_True.
  - intros Hge. unfold BehaviorAnalyzer64._detect_behavioral_anomalies.
    rewrite decide_False by lia.
    rewrite (decide_True (P := (3 < _)%nat)).
    2:{ rewrite length_fmap, last_n_length. lia. }
    rewrite !last_n_fmap, !but_last_n_fmap.
    unfold Anomalies64.usage_check, Anomalies64.night_check,
      Anomalies64.binge_check, Anomalies64.recent_mean,
      Anomalies64.earlier_mean, Anomalies64.window, Anomalies64.exceeds,
      Anomalies64.spike, Anomalies64.night_anomaly, Anomalies64.binge_anomaly.
    repeat match goal with
           | |- context [PrimFloat.ltb ?a ?b] => destruct (PrimFloat.ltb a b)
           end; reflexivity.
  - intros Hle. by apply last_n_all.
  - split; [|split].
    + exists (Py.but_last_n 14 features). symmetry. apply last_n_but_last_n.
    + apply last_n_length.
    + symmetry. apply last_n_but_last_n.
  - vm_compute. reflexivity.
Qed.

Lemma detect_behavioral_anomalies_spec_witness :
  ((length Anomalies64.four_days < 5)%nat
   ∧ BehaviorAnalyzer64._detect_behavioral_anomalies Numpy.mean
       Anomalies64.four_days = [])
  ∧ ((5 ≤ length Anomalies64.surge)%nat
     ∧ BehaviorAnalyzer64._detect_behavioral_anomalies Numpy.mean
         Anomalies64.surge
       = Anomalies64.usage_check Numpy.mean Anomalies64.surge
         ++ Anomalies64.night_check Numpy.mean Anomalies64.surge
         ++ Anomalies64.binge_check Numpy.mean Anomalies64.surge)
  ∧ ((length Anomalies64.surge ≤ 14)%nat
     ∧ Anomalies64.window Anomalies64.surge = Anomalies64.surge).
Proof.
  split; [|split].
  - assert (H : (length Anomalies64.four_days < 5)%nat) by (simpl; lia).
    split; [exact H|].
    exact (proj1 (detect_behavioral_anomalies_spec Numpy.mean
                    Anomalies64.four_days) H).
  - assert (H : (5 ≤ length Anomalies64.surge)%nat) by (simpl; lia).
    split; [exact H|].
    exact (proj1 (proj2 (detect_behavioral_anomalies_spec Numpy.mean
                           Anomalies64.surge)) H).
  - assert (H : (length Anomalies64.surge ≤ 14)%nat) by (simpl; lia).
    split; [exact H|].
    exact (proj1 (proj2 (proj2
             (detect_behavioral_anomalies_spec Numpy.mean
                Anomalies64.surge))) H).
Defined.

(** ** Insights *)

(** C7, as claimed: a mean night usage above 60 would always yield the
    warning.  For two days with night usage 60.00000000000001 (one unit
    in the last place above 60) and 60, the mean is above 60, but the
    binary64 sum of the two is 120 and the mean the code compares with
    60 is 60: no insight is returned. *)
Lemma night_warning_near_threshold :
  F64.exactly Insights64.night_60 (60 + (1 # 140737488355328))
  ∧ F64.exactly 60 60
  ∧ (60 < Py.mean [60 + (1 # 140737488355328); 60])%Q
  ∧ Numpy.mean [Insights64.night_60; 60%float] = 60%float
  ∧ AddictionPredictor64.generate_insights Numpy.polyfit_slope Numpy.mean
      Insights64.near_threshold
    = [].
Proof.
  repeat split; vm_compute; reflexivity.
Qed.

(** The least-squares slope through the totals 0, 30 and 60 is 30 and
    does not exceed 30.  With a library whose [np.polyfit] returns the
    next double above 30 for them, the code reports rising usage. *)
Lemma trend_warning_at_exact_slope
    (np_polyfit_slope : list float → list float → float) :
  np_polyfit_slope [0; 1; 2]%float [0; 30; 60]%float = Insights64.above_30 →
  (Py.polyfit_slope (Py.range 3) [0; 30; 60] == 30)%Q
  ∧ F64.exactly Insights64.above_30 (30 + (1 # 281474976710656))
  ∧ Insights64.trend_check np_polyfit_slope Insights64.even_rise
    = [ Insights64.insight AddictionPredictor.warning
          (AddictionPredictor64.Usage_increasing_by Insights64.above_30)
          AddictionPredictor.high ].
Proof.
  intros Hlib. split; [by vm_compute|]. split; [by vm_compute|].
  unfold Insights64.trend_check, Insights64.trend.
  replace (F64.of_nat <$> seq 0 (length Insights64.even_rise))
    with [0; 1; 2]%float by (vm_compute; reflexivity).
  replace (Insights64.column "total_duration" Insights64.even_rise)
    with [0; 30; 60]%float by (vm_compute; reflexivity).
  rewrite Hlib. vm_compute. reflexivity.
Qed.

(** C7: [generate_insights] returns, in this order, the outcome of four
    independent checks, each a binary64 comparison of a number the
    library or [sum] returns: with two days or more a warning of high
    severity when the slope [np.polyfit] returns for the totals exceeds
    30 and a positive insight of low severity when it is below -30
    (nothing otherwise, and nothing on fewer than two days); a warning
    of high severity when the mean [np.mean] returns for the night usage
    exceeds 60; an alert of critical severity when the binge sessions
    sum to more than 5; a warning of moderate severity when the mean
    social media time exceeds 180.  Every combination of the checks
    fires on some window. *)
Theorem generate_insights_spec
    (np_polyfit_slope : list float → list float → float)
    (np_mean : list float → float) :
  (∀ window : list (gmap string float),
     AddictionPredictor64.generate_insights np_polyfit_slope np_mean window
     = Insights64.trend_check np_polyfit_slope window
       ++ Insights64.night_check np_mean window
       ++ Insights64.binge_check window
       ++ Insights64.social_check np_mean window)
  ∧ (∀ window : list (gmap string float),
       (length window < 2)%nat →
       Insights64.trend_check np_polyfit_slope window = [])
  ∧ AddictionPredictor64.generate_insights np_polyfit_slope np_mean []
    = Insights64.night_check np_mean [] ++ Insights64.social_check np_mean []
  ∧ (Insights64.library_on_scenarios np_polyfit_slope np_mean →
     ∀ (rising : option bool) (night binge social : bool),
       Insights64.kinds
         (AddictionPredictor64.generate_insights np_polyfit_slope np_mean
            (Insights64.scenario rising night binge social))
       = Insights.expected_kinds rising night binge social).
Proof.
  assert (Hchecks : ∀ window : list (gmap string float),
     AddictionPredictor64.generate_insights np_polyfit_slope np_mean window
     = Insights64.trend_check np_polyfit_slope window
       ++ Insights64.night_check np_mean window
       ++ Insights64.binge_check window
       ++ Insights64.social_check np_mean window).
  { intros window.
    unfold AddictionPredictor64.generate_insights, Insights64.trend_check,
      Insights64.night_check, Insights64.binge_check, Insights64.social_check,
      Insights64.trend, Insights64.column, Insights64.insight,
      Insights64.exceeds.
    rewrite length_fmap.
    case_decide;
      repeat match goal with
             | |- context [PrimFloat.ltb ?a ?b] => destruct (PrimFloat.ltb a b)
             end; reflexivity. }
  split; [exact Hchecks|]. split; [|split].
  - intros window Hlt. unfold Insights64.trend_check.
    by rewrite decide_False by lia.
  - rewrite Hchecks. reflexivity.
  - intros (Hup & Hdown & Hdown' & Hflat1 & Hflat2 & Hm0 & Hm100 & Hm200)
      rising night binge social.
    rewrite Hchecks.
    destruct rising as [[|]|], night, binge, social;
      vm_compute;
      rewrite ?Hup, ?Hdown', ?Hdown, ?Hflat1, ?Hflat2, ?Hm0, ?Hm100, ?Hm200;
      vm_compute; reflexivity.
Qed.

Lemma generate_insights_spec_witness :
  Insights64.library_on_scenarios Numpy.polyfit_slope Numpy.mean
  ∧ Insights64.kinds
      (AddictionPredictor64.generate_insights Numpy.polyfit_slope Numpy.mean
         (Insights64.scenario (Some true) true true true))
    = [ (AddictionPredictor.warning, AddictionPredictor.high);
        (AddictionPredictor.warning, AddictionPredictor.high);
        (AddictionPredictor.alert, AddictionPredictor.critical);
        (AddictionPredictor.warning, AddictionPredictor.moderate) ].
Proof.
  assert (H : Insights64.library_on_scenarios Numpy.polyfit_slope Numpy.mean)
    by (repeat split; vm_compute; reflexivity).
  split; [exact H|].
  exact (proj2 (proj2 (proj2
           (generate_insights_spec Numpy.polyfit_slope Numpy.mean))) H
           (Some true) true true true).
Defined.

(** ** Dictionaries of running sums *)

Lemma first_seen_snoc (ks : list Z) (k : Z) :
  Grouping.first_seen (ks ++ [k])
  = if decide (k ∈ Grouping.first_seen ks) then Grouping.first_seen ks
    else Grouping.first_seen ks ++ [k].
Proof. unfold Grouping.first_seen. by rewrite fold_left_app. Qed.

Lemma elem_of_first_seen (ks : list Z) (x : Z) :
  x ∈ Grouping.first_seen ks ↔ x ∈ ks.
Proof.
  induction ks as [|k ks IH] using rev_ind; [done|].
  rewrite first_seen_snoc, elem_of_app, list_elem_of_singleton.
  case_decide as Hk.
  - rewrite IH. split; [tauto|]. intros [H | ->]; [done|]. by apply IH.
  - rewrite elem_of_app, list_elem_of_singleton, IH. tauto.
Qed.

Lemma NoDup_first_seen (ks : list Z) : NoDup (Grouping.first_seen ks).
Proof.
  induction ks as [|k ks IH] using rev_ind; [constructor|].
  rewrite first_seen_snoc. case_decide as Hk; [done|].
  apply NoDup_app. split; [done|]. split; [|apply NoDup_singleton].
  intros x Hx ->%list_elem_of_singleton. done.
Qed.

Lemma key_total_snoc (k' : Z) (kvs : list (Z * Q)) (k : Z) (v : Q) :
  Grouping.key_total k' (kvs ++ [(k, v)])
  = if decide (k = k') then (Grouping.key_total k' kvs + v)%Q
    else Grouping.key_total k' kvs.
Proof.
  unfold Grouping.key_total, Py.sum.
  rewrite filter_app, fmap_app, fold_left_app, filter_cons. simpl.
  by case_decide.
Qed.

Lemma key_total_absent (k : Z) (kvs : list (Z * Q)) :
  k ∉ kvs.*1 → Grouping.key_total k kvs = 0%Q.
Proof.
  intros Hk. unfold Grouping.key_total.
  replace (filter (λ kv : Z * Q, kv.1 = k) kvs) with (@nil (Z * Q)); [done|].
  symmetry. apply elem_of_nil_inv. intros kv [Hkv Hin]%list_elem_of_filter.
  apply Hk. rewrite <- Hkv. by apply list_elem_of_fmap_2.
Qed.

Lemma dict_add_fmap (g : Z → Q) (k : Z) (v : Q) (ks : list Z) :
  NoDup ks →
  Py.dict_add k v ((λ k', (k', g k')) <$> ks)
  = if decide (k ∈ ks)
    then (λ k', (k', if decide (k = k') then (g k' + v)%Q else g k'))
           <$> ks
    else ((λ k', (k', g k')) <$> ks) ++ [(k, (0 + v)%Q)].
Proof.
  induction 1 as [|k0 ks Hk0 Hnd IH]; [reflexivity|].
  rewrite !fmap_cons. cbn [Py.dict_add].
  - destruct (decide (k = k0)) as [->|Hne].
    + rewrite decide_True by apply list_elem_of_here. f_equal.
      apply list_fmap_ext. intros i k' Hk'.
      rewrite decide_False; [done|].
      intros <-. apply Hk0. by eapply list_elem_of_lookup_2.
    + rewrite IH. destruct (decide (k ∈ ks)) as [Hin|Hout].
      * by rewrite decide_True by by apply list_elem_of_further.
      * rewrite decide_False; [done|].
        intros [?|?]%elem_of_cons; done.
Qed.

Lemma accumulate_snoc (kvs : list (Z * Q)) (k : Z) (v : Q) :
  Py.accumulate (kvs ++ [(k, v)]) = Py.dict_add k v (Py.accumulate kvs).
Proof. unfold Py.accumulate. by rewrite fold_left_app. Qed.

(** The dictionary built by [d[k] += v] lists the keys in order of first
    appearance, each with the sum of its values. *)
Lemma accumulate_spec (kvs : list (Z * Q)) :
  Py.accumulate kvs
  = (λ k, (k, Grouping.key_total k kvs)) <$> Grouping.first_seen (kvs.*1).
Proof.
  induction kvs as [|[k v] kvs IH] using rev_ind; [done|].
  rewrite accumulate_snoc, IH, fmap_snoc, first_seen_snoc. cbn [fst].
  rewrite (dict_add_fmap (λ k', Grouping.key_total k' kvs))
    by apply NoDup_first_seen.
  destruct (decide (k ∈ Grouping.first_seen kvs.*1)) as [Hin|Hout].
  - apply list_fmap_ext. intros i k' _. by rewrite key_total_snoc.
  - rewrite fmap_app. simpl. f_equal.
    + apply list_fmap_ext. intros i k' Hk'. rewrite key_total_snoc.
      rewrite decide_False; [done|].
      intros <-. apply Hout. by eapply list_elem_of_lookup_2.
    + rewrite key_total_snoc, decide_True by done.
      rewrite key_total_absent; [done|].
      by rewrite <- elem_of_first_seen.
Qed.

Lemma accumulate_length (kvs : list (Z * Q)) :
  length (Py.accumulate kvs) = size (list_to_set (kvs.*1) : gset Z).
Proof.
  rewrite accumulate_spec, length_fmap.
  rewrite <- (size_list_to_set (C := gset Z) (Grouping.first_seen kvs.*1))
    by apply NoDup_first_seen.
  f_equal. apply set_eq. intros x.
  by rewrite !elem_of_list_to_set, elem_of_first_seen.
Qed.

Lemma key_total_fmap {A} (key : A → Z) (val : A → Q) (k : Z) (xs : list A) :
  Grouping.key_total k ((λ x, (key x, val x)) <$> xs)
  = Py.sum (val <$> filter (λ x, key x = k) xs).
Proof.
  unfold Grouping.key_total. f_equal.
  induction xs as [|x xs IH]; [done|].
  rewrite fmap_cons, !filter_cons. cbn [fst].
  case_decide; rewrite ?fmap_cons, IH; done.
Qed.

Lemma argmax_spec (d : list (Z * Q)) (best : Z * Q) :
  Py.argmax best d ∈ best :: d
  ∧ ∀ kv, kv ∈ best :: d → (kv.2 <= (Py.argmax best d).2)%Q.
Proof.
  revert best. induction d as [|kv d IH]; intros best; simpl.
  - split; [apply list_elem_of_here|].
    intros kv ->%list_elem_of_singleton. qlra.
  - destruct (IH (if decide (best.2 < kv.2)%Q then kv else best))
      as [Hin Hmax].
    split.
    + apply elem_of_cons in Hin as [Heq | Hin].
      * rewrite Heq. case_decide.
        -- apply list_elem_of_further, list_elem_of_here.
        -- apply list_elem_of_here.
      * by do 2 apply list_elem_of_further.
    + intros kv' Hkv'.
      pose proof (Hmax _ (list_elem_of_here _ _)) as Hbest.
      apply elem_of_cons in Hkv' as [-> | Hkv'].
      * case_decide; simpl in *; qlra.
      * apply elem_of_cons in Hkv' as [-> | Hkv'].
        -- case_decide; simpl in *; qlra.
        -- apply Hmax. by apply list_elem_of_further.
Qed.

(** ** The real-time pattern detector *)

Lemma confidence_fold (ps : list RealTimeTracker.Pattern) (c : Q) :
  (fold_left
     (λ confidence pattern,
        match RealTimeTracker.get_severity pattern with
        | Some RealTimeTracker.high => confidence + 0.2
        | Some RealTimeTracker.medium => confidence + 0.1
        | None => confidence
        end)%Q ps c
   == c + Py.sum (Patterns.severity_weight <$> ps))%Q.
Proof.
  revert c. induction ps as [|p ps IH]; intros c.
  - unfold Py.sum. simpl. qlra.
  - rewrite fmap_cons, py_sum_cons. cbn [fold_left]. rewrite IH.
    unfold Patterns.severity_weight.
    destruct (RealTimeTracker.get_severity p) as [[|]|]; qlra.
Qed.

Lemma severity_weights_nonneg (ps : list RealTimeTracker.Pattern) :
  (0 <= Py.sum (Patterns.severity_weight <$> ps))%Q.
Proof.
  apply py_sum_nonneg. apply Forall_fmap, Forall_forall. intros p _.
  unfold Patterns.severity_weight. simpl.
  destruct (RealTimeTracker.get_severity p) as [[|]|]; qlra.
Qed.

Lemma calculate_pattern_confidence_spec (ps : list RealTimeTracker.Pattern) :
  (RealTimeTracker._calculate_pattern_confidence ps
   == Patterns.confidence_formula ps)%Q.
Proof.
  unfold Patterns.confidence_formula.
  pose proof (severity_weights_nonneg ps) as Hw.
  destruct ps as [|p ps].
  - unfold RealTimeTracker._calculate_pattern_confidence.
    symmetry. rewrite Q.min_l; [reflexivity|]. vm_compute. discriminate.
  - unfold RealTimeTracker._calculate_pattern_confidence.
    rewrite py_min_Qmin, confidence_fold, py_min_Qmin.
    set (w := Py.sum (Patterns.severity_weight <$> p :: ps)) in *.
    set (n := inject_Z (Py.len (p :: ps))).
    destruct (Qlt_le_dec 1 (n * 0.3)) as [Hbig | Hsmall].
    + rewrite (Q.min_r (n * 0.3) 1) by qlra.
      rewrite !Q.min_r by qlra. reflexivity.
    + rewrite (Q.min_l (n * 0.3) 1) by qlra.
      destruct (Qlt_le_dec 1 (n * 0.3 + w)) as [H1 | H1].
      * rewrite !Q.min_r by qlra. reflexivity.
      * rewrite !Q.min_l by qlra. qlra.
Qed.

Lemma append_if_app (ps : list RealTimeTracker.Pattern)
    (o : option RealTimeTracker.Pattern) :
  RealTimeTracker.append_if ps o = ps ++ RealTimeTracker.append_if [] o.
Proof. destruct o; simpl; [done|by rewrite app_nil_r]. Qed.

Lemma detect_binge_pattern_spec (buffer : list RealTimeTracker.BufferEntry) :
  (10 ≤ length buffer)%nat →
  RealTimeTracker.append_if [] (RealTimeTracker._detect_binge_pattern buffer)
  = Patterns.binge_check buffer.
Proof.
  intros Hlen.
  unfold RealTimeTracker._detect_binge_pattern, Patterns.binge_check,
    Patterns.recent_minutes.
  rewrite decide_False by (rewrite last_n_length; lia).
  set (total := Py.sum _).
  repeat case_decide; try reflexivity; exfalso;
    unfold Qdiv in *; change (/ 60)%Q with (1 # 60)%Q in *; qlra.
Qed.

Lemma detect_app_switching_spec (buffer : list RealTimeTracker.BufferEntry) :
  (10 ≤ length buffer)%nat →
  RealTimeTracker.append_if [] (RealTimeTracker._detect_app_switching buffer)
  = Patterns.switching_check buffer.
Proof.
  intros Hlen.
  unfold RealTimeTracker._detect_app_switching, Patterns.switching_check,
    Patterns.recent_apps.
  rewrite decide_False by (rewrite last_n_length; lia).
  by case_decide.
Qed.

Lemma hour_minutes_key_total (h : Z) (buffer : list RealTimeTracker.BufferEntry) :
  Patterns.hour_minutes h buffer
  = (Grouping.key_total h
       ((λ e, (datetime.hour (RealTimeTracker.timestamp e),
               RealTimeTracker.session_duration e)) <$> buffer) / 60)%Q.
Proof. unfold Patterns.hour_minutes. by rewrite key_total_fmap. Qed.

Lemma detect_time_patterns_spec (buffer : list RealTimeTracker.BufferEntry) :
  Patterns.peak_check_of buffer
    (RealTimeTracker.append_if []
       (RealTimeTracker._detect_time_patterns buffer)).
Proof.
  unfold RealTimeTracker._detect_time_patterns, Patterns.peak_check_of.
  rewrite accumulate_spec.
  set (kvs := (λ e, (datetime.hour (RealTimeTracker.timestamp e),
                     RealTimeTracker.session_duration e)) <$> buffer).
  assert (Habsent : ∀ h, h ∉ Grouping.first_seen kvs.*1 →
                         (Patterns.hour_minutes h buffer == 0)%Q).
  { intros h Hh. rewrite hour_minutes_key_total. fold kvs.
    rewrite key_total_absent by (by rewrite <- elem_of_first_seen).
    reflexivity. }
  destruct (Grouping.first_seen kvs.*1) as [|k0 ks] eqn:Eks.
  - left. split; [reflexivity|]. intros h.
    rewrite (Habsent h) by apply not_elem_of_nil. qlra.
  - rewrite fmap_cons.
    set (f := λ k, (k, Grouping.key_total k kvs)).
    destruct (argmax_spec (f <$> ks) (f k0)) as [Hin Hmax].
    rewrite <- fmap_cons in Hin.
    apply list_elem_of_fmap in Hin as (h & Hpeak & Hh).
    assert (Hle : ∀ h', h' ∈ k0 :: ks →
              (Patterns.hour_minutes h' buffer <= Patterns.hour_minutes h buffer)%Q).
    { intros h' Hh'. rewrite !hour_minutes_key_total. fold kvs.
      assert (Hf : f h' ∈ f k0 :: (f <$> ks)).
      { rewrite <- fmap_cons. by apply list_elem_of_fmap_2. }
      apply Hmax in Hf. rewrite Hpeak in Hf. simpl in Hf.
      apply Qmult_le_compat_r; [exact Hf|]. vm_compute. discriminate. }
    cbv beta iota zeta.
    change (k0, Grouping.key_total k0 kvs) with (f k0).
    rewrite Hpeak. cbn [fst snd f].
    pose proof (hour_minutes_key_total h buffer) as Hhm. fold kvs in Hhm.
    rewrite <- Hhm.
    case_decide as Hover; simpl.
    + right. exists h. split; [reflexivity|]. split; [exact Hover|].
      intros h'. destruct (decide (h' ∈ k0 :: ks)) as [Hh'|Hh'].
      * by apply Hle.
      * rewrite (Habsent h' Hh'). qlra.
    + left. split; [reflexivity|]. intros h'.
      destruct (decide (h' ∈ k0 :: ks)) as [Hh'|Hh'].
      * pose proof (Hle h' Hh'). qlra.
      * rewrite (Habsent h' Hh'). qlra.
Qed.

(** C8: below ten buffer entries the detector returns no pattern and
    confidence 0; from ten entries on its patterns are, in this order, a
    binge pattern when the last twenty entries hold more than 60 minutes
    (high above 120 minutes, else medium), a peak-hour pattern for a
    busiest hour of day when that hour holds more than 60 minutes, and a
    switching pattern when the last ten entries show at least five apps;
    the confidence is the minimum of 1 and 0.3 per pattern plus 0.2 per
    high and 0.1 per medium severity. *)
Theorem detect_patterns_spec (buffer : list RealTimeTracker.BufferEntry) :
  ((length buffer < 10)%nat →
   RealTimeTracker.detect_patterns buffer
   = {| RealTimeTracker.patterns := []; RealTimeTracker.confidence := 0 |})
  ∧ ((10 ≤ length buffer)%nat →
     ∃ peak,
       RealTimeTracker.patterns (RealTimeTracker.detect_patterns buffer)
       = Patterns.binge_check buffer ++ peak ++ Patterns.switching_check buffer
       ∧ Patterns.peak_check_of buffer peak)
  ∧ (RealTimeTracker.confidence (RealTimeTracker.detect_patterns buffer)
     == Patterns.confidence_formula
          (RealTimeTracker.patterns (RealTimeTracker.detect_patterns buffer)))%Q
  ∧ (RealTimeTracker.confidence
       (RealTimeTracker.detect_patterns Patterns.busy_buffer) == 1)%Q
  ∧ RealTimeTracker.detect_patterns Patterns.idle_buffer
    = {| RealTimeTracker.patterns := []; RealTimeTracker.confidence := 0 |}.
Proof.
  split; [|split; [|split; [|split]]].
  - intros Hlt. unfold RealTimeTracker.detect_patterns.
    by rewrite decide_True.
  - intros Hge. unfold RealTimeTracker.detect_patterns.
    rewrite decide_False by lia. cbn [RealTimeTracker.patterns].
    exists (RealTimeTracker.append_if []
              (RealTimeTracker._detect_time_patterns buffer)).
    split; [|apply detect_time_patterns_spec].
    rewrite (append_if_app _ (RealTimeTracker._detect_app_switching buffer)).
    rewrite (append_if_app _ (RealTimeTracker._detect_time_patterns buffer)).
    rewrite detect_binge_pattern_spec, detect_app_switching_spec by done.
    by rewrite <- app_assoc.
  - unfold RealTimeTracker.detect_patterns. case_decide.
    + vm_compute. reflexivity.
    + cbn [RealTimeTracker.patterns RealTimeTracker.confidence].
      apply calculate_pattern_confidence_spec.
  - vm_compute. reflexivity.
  - vm_compute. reflexivity.
Qed.

Lemma detect_patterns_spec_witness :
  ((length Patterns.short_buffer < 10)%nat
   ∧ RealTimeTracker.detect_patterns Patterns.short_buffer
     = {| RealTimeTracker.patterns := []; RealTimeTracker.confidence := 0 |})
  ∧ ((10 ≤ length Patterns.busy_buffer)%nat
     ∧ ∃ peak,
         RealTimeTracker.patterns
           (RealTimeTracker.detect_patterns Patterns.busy_buffer)
         = Patterns.binge_check Patterns.busy_buffer ++ peak
           ++ Patterns.switching_check Patterns.busy_buffer
         ∧ Patterns.peak_check_of Patterns.busy_buffer peak).
Proof.
  split.
  - assert (H : (length Patterns.short_buffer < 10)%nat) by (simpl; lia).
    split; [exact H|].
    exact (proj1 (detect_patterns_spec Patterns.short_buffer) H).
  - assert (H : (10 ≤ length Patterns.busy_buffer)%nat) by (simpl; lia).
    split; [exact H|].
    exact (proj1 (proj2 (detect_patterns_spec Patterns.busy_buffer)) H).
Defined.

(** ** The consistency score *)

Lemma daily_totals_values (behavior_data : list BehaviorAnalyzer.BehaviorEntry) :
  (Py.accumulate
     ((λ entry, (datetime.date (BehaviorAnalyzer.timestamp entry),
                 BehaviorAnalyzer.duration entry)) <$> behavior_data)).*2
  = Consistency.daily_totals behavior_data.
Proof.
  rewrite accumulate_spec, <- !list_fmap_compose.
  unfold Consistency.daily_totals. apply list_fmap_ext. intros i d _. simpl.
  apply (key_total_fmap Consistency.day_of BehaviorAnalyzer.duration).
Qed.

Lemma daily_totals_length (behavior_data : list BehaviorAnalyzer.BehaviorEntry) :
  length (Py.accumulate
            ((λ entry, (datetime.date (BehaviorAnalyzer.timestamp entry),
                        BehaviorAnalyzer.duration entry)) <$> behavior_data))
  = Consistency.distinct_days behavior_data.
Proof.
  rewrite accumulate_length. unfold Consistency.distinct_days.
  by rewrite <- list_fmap_compose.
Qed.

Lemma pattern_consistency_computed
    (behavior_data : list BehaviorAnalyzer.BehaviorEntry) :
  BehaviorAnalyzer._calculate_pattern_consistency behavior_data
  = Consistency.computed_consistency behavior_data.
Proof.
  unfold BehaviorAnalyzer._calculate_pattern_consistency,
    Consistency.computed_consistency.
  rewrite daily_totals_length, daily_totals_values. reflexivity.
Qed.

Lemma zero_week_facts :
  Consistency.distinct_days Consistency.zero_week = 7%nat
  ∧ (Py.mean (Consistency.daily_totals Consistency.zero_week) == 0)%Q.
Proof. split; vm_compute; reflexivity. Qed.

(** C4, as claimed: a week of zero usage would score 1.  The code scores
    it 0. *)
Lemma pattern_consistency_zero_week :
  (7 ≤ Consistency.distinct_days Consistency.zero_week)%nat
  ∧ BehaviorAnalyzer._calculate_pattern_consistency Consistency.zero_week = 0%R
  ∧ Consistency.claimed_consistency Consistency.zero_week = 1%R
  ∧ BehaviorAnalyzer._calculate_pattern_consistency Consistency.zero_week
    ≠ Consistency.claimed_consistency Consistency.zero_week.
Proof.
  destruct zero_week_facts as [Hdays Hmean].
  assert (Hcode : BehaviorAnalyzer._calculate_pattern_consistency
                    Consistency.zero_week = 0%R).
  { rewrite pattern_consistency_computed.
    unfold Consistency.computed_consistency.
    rewrite decide_False by (rewrite Hdays; lia).
    by rewrite decide_True. }
  assert (Hclaim : Consistency.claimed_consistency Consistency.zero_week = 1%R).
  { unfold Consistency.claimed_consistency.
    rewrite decide_False by (rewrite Hdays; lia).
    rewrite decide_True by done.
    rewrite Rminus_0_r. apply Rmax_right. rlra. }
  split; [rewrite Hdays; lia|]. split; [exact Hcode|]. split; [exact Hclaim|].
  rewrite Hcode, Hclaim. rlra.
Qed.

(** C4, amended: over entries spanning at least seven distinct calendar
    days the score is 0 when the mean of the daily totals is 0 and
    max(0, 1 - stddev/mean) otherwise; over fewer days it is 0.5. *)
Theorem calculate_pattern_consistency_spec
    (behavior_data : list BehaviorAnalyzer.BehaviorEntry) :
  ((7 ≤ Consistency.distinct_days behavior_data)%nat →
   let values := Consistency.daily_totals behavior_data in
   BehaviorAnalyzer._calculate_pattern_consistency behavior_data
   = if decide (Py.mean values == 0)%Q then 0%R
     else Rmax 0 (1 - Py.std values / Q2R (Py.mean values)))
  ∧ ((Consistency.distinct_days behavior_data < 7)%nat →
     BehaviorAnalyzer._calculate_pattern_consistency behavior_data = 0.5%R)
  ∧ length (Consistency.daily_totals behavior_data)
    = Consistency.distinct_days behavior_data.
Proof.
  rewrite pattern_consistency_computed.
  unfold Consistency.computed_consistency.
  split; [|split].
  - intros Hge. by rewrite decide_False by lia.
  - intros Hlt. by rewrite decide_True.
  - rewrite <- daily_totals_values, length_fmap. apply daily_totals_length.
Qed.

Lemma calculate_pattern_consistency_spec_witness :
  ((7 ≤ Consistency.distinct_days Consistency.zero_week)%nat
   ∧ BehaviorAnalyzer._calculate_pattern_consistency Consistency.zero_week
     = 0%R)
  ∧ ((Consistency.distinct_days Consistency.two_days < 7)%nat
     ∧ BehaviorAnalyzer._calculate_pattern_consistency Consistency.two_days
       = 0.5%R).
Proof.
  split.
  - assert (H : (7 ≤ Consistency.distinct_days Consistency.zero_week)%nat)
      by (vm_compute; lia).
    split; [exact H|].
    rewrite (proj1 (calculate_pattern_consistency_spec Consistency.zero_week) H).
    apply decide_True. vm_compute. reflexivity.
  - assert (H : (Consistency.distinct_days Consistency.two_days < 7)%nat)
      by (vm_compute; lia).
    split; [exact H|].
    exact (proj1 (proj2 (calculate_pattern_consistency_spec
                           Consistency.two_days)) H).
Defined.

(** * Further properties of the code *)

(** ** Sorting and sums *)

Lemma insert_by_Permutation {A} (key : A → Z) (x : A) (xs : list A) :
  Py.insert_by key x xs ≡ₚ x :: xs.
Proof.
  induction xs as [|y ys IH]; simpl; [done|].
  case_decide; [done|]. rewrite IH. apply Permutation_swap.
Qed.

Lemma sorted_Permutation {A} (key : A → Z) (xs : list A) :
  Py.sorted key xs ≡ₚ xs.
Proof.
  unfold Py.sorted. induction xs as [|x xs IH]; simpl; [done|].
  by rewrite insert_by_Permutation, IH.
Qed.

Lemma insert_by_sorted {A} (key : A → Z) (x : A) (xs : list A) :
  StronglySorted (λ a b, key a ≤ key b)%Z xs →
  StronglySorted (λ a b, key a ≤ key b)%Z (Py.insert_by key x xs).
Proof.
  induction 1 as [|y ys Hys IH Hy]; simpl.
  - repeat constructor.
  - case_decide as Hxy.
    + constructor; [by constructor|].
      constructor; [done|]. eapply Forall_impl; [exact Hy|].
      intros z Hz. simpl in Hz. lia.
    + constructor; [exact IH|].
      rewrite insert_by_Permutation. constructor; [lia|exact Hy].
Qed.

(** [sorted] returns its argument rearranged in non-decreasing order of
    the key. *)
Lemma sorted_spec {A} (key : A → Z) (xs : list A) :
  Py.sorted key xs ≡ₚ xs
  ∧ StronglySorted (λ a b, key a ≤ key b)%Z (Py.sorted key xs).
Proof.
  split; [apply sorted_Permutation|].
  unfold Py.sorted. induction xs as [|x xs IH]; simpl; [constructor|].
  by apply insert_by_sorted.
Qed.

(** ** Bounds on the longest continuous run *)

Lemma max_continuous_loop_upper (rest : list UsageTracker.UsageEvent) :
  ∀ (prev : UsageTracker.UsageEvent) (max_c cur bound : Q),
    Forall (λ s, 0 <= UsageTracker.duration s)%Q rest →
    (0 <= cur)%Q → (max_c <= bound)%Q →
    (cur + Py.sum (UsageTracker.duration <$> rest) <= bound)%Q →
    (UsageTracker.max_continuous_loop prev rest max_c cur <= bound)%Q.
Proof.
  induction rest as [|s rest IH]; intros prev max_c cur bound Hnonneg Hcur Hmax Hsum.
  - simpl. unfold Py.sum in Hsum. simpl in Hsum.
    unfold Py.max. case_decide; qlra.
  - apply Forall_cons in Hnonneg as [Hs Hrest].
    rewrite fmap_cons, py_sum_cons in Hsum.
    pose proof (py_sum_nonneg (UsageTracker.duration <$> rest)) as Hpos.
    assert (0 <= Py.sum (UsageTracker.duration <$> rest))%Q as Hrestsum.
    { apply Hpos. apply Forall_fmap. exact Hrest. }
    cbn [UsageTracker.max_continuous_loop]. case_decide.
    + apply IH; [done|qlra|done|qlra].
    + apply IH; [done|done| |qlra].
      unfold Py.max. case_decide; qlra.
Qed.

Lemma max_continuous_loop_lower (rest : list UsageTracker.UsageEvent) :
  ∀ (prev : UsageTracker.UsageEvent) (max_c cur : Q),
    Forall (λ s, 0 <= UsageTracker.duration s)%Q rest →
    (0 <= cur)%Q →
    ∀ s, s ∈ rest →
      (UsageTracker.duration s
       <= UsageTracker.max_continuous_loop prev rest max_c cur)%Q.
Proof.
  induction rest as [|s0 rest IH]; intros prev max_c cur Hnonneg Hcur s Hs.
  - by apply elem_of_nil in Hs.
  - apply Forall_cons in Hnonneg as [H0 Hrest].
    cbn [UsageTracker.max_continuous_loop].
    apply elem_of_cons in Hs as [-> | Hs].
    + case_decide.
      * destruct (max_continuous_loop_spec rest s0 max_c
                    (cur + UsageTracker.duration s0)%Q Hrest)
          as (_ & _ & Hle & _). qlra.
      * destruct (max_continuous_loop_spec rest s0 (Py.max max_c cur)
                    (UsageTracker.duration s0) Hrest)
          as (_ & _ & Hle & _). exact Hle.
    + case_decide; apply IH; try done. qlra.
Qed.

(** X1: over sessions with non-negative durations the longest continuous
    run is at least every single session's duration and at most the sum
    of all durations. *)
Theorem calculate_max_continuous_bounds
    (sessions : list UsageTracker.UsageEvent) :
  Forall (λ s, 0 <= UsageTracker.duration s)%Q sessions →
  (∀ s, s ∈ sessions →
     (UsageTracker.duration s
      <= UsageTracker._calculate_max_continuous sessions)%Q)
  ∧ (UsageTracker._calculate_max_continuous sessions
     <= Py.sum (UsageTracker.duration <$> sessions))%Q
  ∧ (0 <= UsageTracker._calculate_max_continuous sessions)%Q.
Proof.
  intros Hnonneg. destruct sessions as [|s0 rest].
  - split; [intros s Hs; by apply elem_of_nil in Hs|].
    unfold Py.sum. simpl. split; qlra.
  - apply Forall_cons in Hnonneg as [H0 Hrest].
    unfold UsageTracker._calculate_max_continuous.
    destruct (max_continuous_loop_spec rest s0 0%Q
                (UsageTracker.duration s0) Hrest) as (_ & Hzero & Hfirst & _).
    split; [|split; [|exact Hzero]].
    + intros s [-> | Hs]%elem_of_cons; [exact Hfirst|].
      by apply max_continuous_loop_lower.
    + rewrite fmap_cons, py_sum_cons.
      pose proof (py_sum_nonneg (UsageTracker.duration <$> rest)
                    (proj2 (Forall_fmap _ _ _) Hrest)) as Hsum.
      apply max_continuous_loop_upper; try done; qlra.
Qed.

Lemma calculate_max_continuous_bounds_witness :
  Forall (λ s, 0 <= UsageTracker.duration s)%Q Continuity.three_then_gap
  ∧ (UsageTracker._calculate_max_continuous Continuity.three_then_gap
     <= Py.sum (UsageTracker.duration <$> Continuity.three_then_gap))%Q.
Proof.
  assert (H : Forall (λ s, 0 <= UsageTracker.duration s)%Q
                Continuity.three_then_gap).
  { repeat constructor; vm_compute; discriminate. }
  split; [exact H|].
  exact (proj1 (proj2
           (calculate_max_continuous_bounds Continuity.three_then_gap H))).
Defined.

(** ** More on [aggregate_daily_data] *)

Lemma py_len_cons {A} (x : A) (xs : list A) :
  Py.len (x :: xs) = (Py.len xs + 1)%Z.
Proof. unfold Py.len. simpl. lia. Qed.

Lemma binge_count_bound (l : list UsageTracker.UsageEvent) :
  Forall (λ s, 0 <= UsageTracker.duration s)%Q l →
  (45 * inject_Z (Py.len (filter (λ s, 45 < UsageTracker.duration s)%Q l))
   <= Py.sum (UsageTracker.duration <$> l))%Q.
Proof.
  induction 1 as [|s l Hs _ IH].
  - vm_compute. discriminate.
  - rewrite fmap_cons, py_sum_cons, filter_cons. case_decide as Hlong.
    + rewrite py_len_cons, inject_Z_plus. change (inject_Z 1) with 1%Q. qlra.
    + qlra.
Qed.

(** X2: [aggregate_daily_data] returns [None] exactly when no log falls
    on the target date; otherwise the record carries the target date and
    counts that day's logs, and logs of other days change nothing. *)
Theorem aggregate_daily_data_presence
    (raw_logs : list UsageTracker.UsageEvent) (target_date : Z) :
  (UsageTracker.aggregate_daily_data raw_logs target_date = None
   ↔ ¬ Aggregates.has_events raw_logs target_date)
  ∧ (∀ agg, UsageTracker.aggregate_daily_data raw_logs target_date = Some agg →
       UsageTracker.date agg = target_date
       ∧ UsageTracker.session_count agg
         = Py.len (filter (λ log, datetime.date (UsageTracker.timestamp log)
                                  = target_date) raw_logs)
       ∧ (1 ≤ UsageTracker.session_count agg)%Z)
  ∧ (∀ others, ¬ Aggregates.has_events others target_date →
       UsageTracker.aggregate_daily_data (raw_logs ++ others) target_date
       = UsageTracker.aggregate_daily_data raw_logs target_date
       ∧ UsageTracker.aggregate_daily_data (others ++ raw_logs) target_date
         = UsageTracker.aggregate_daily_data raw_logs target_date).
Proof.
  split; [|split].
  - split; [|apply aggregate_daily_data_None].
    intros Hnone (log & Hin & Hdate).
    unfold UsageTracker.aggregate_daily_data in Hnone.
    destruct (filter _ raw_logs) as [|s l] eqn:E; [|discriminate].
    eapply (filter_nil_not_elem_of _ _ log E); done.
  - intros agg Hagg.
    pose proof Hagg as (Hne & ->)%aggregate_daily_data_Some.
    split; [reflexivity|]. split; [reflexivity|].
    cbn [UsageTracker.daily_metrics UsageTracker.session_count].
    destruct (filter _ raw_logs); [done|]. rewrite py_len_cons.
    unfold Py.len. lia.
  - intros others Hno.
    assert (Hnil : filter (λ log, datetime.date (UsageTracker.timestamp log)
                                  = target_date) others = []).
    { apply elem_of_nil_inv. intros log [Hd Hin]%list_elem_of_filter.
      apply Hno. by exists log. }
    unfold UsageTracker.aggregate_daily_data.
    by rewrite !filter_app, Hnil, app_nil_r, app_nil_l.
Qed.

Lemma aggregate_daily_data_presence_witness :
  ∃ agg,
    UsageTracker.aggregate_daily_data AggregatesExamples.two_days 0 = Some agg
    ∧ UsageTracker.date agg = 0%Z
    ∧ UsageTracker.session_count agg = 3%Z.
Proof.
  eexists. split; [vm_compute; reflexivity|].
  split.
  - eapply (proj1 (proj1 (proj2 (aggregate_daily_data_presence
                                   AggregatesExamples.two_days 0%Z)) _ _)).
  - vm_compute. reflexivity.
  Unshelve. vm_compute. reflexivity.
Defined.

(** X3: over logs with non-negative durations the record of
    [aggregate_daily_data] counts as binge sessions the sessions of the
    day that last more than 45 minutes, which are at most as many as
    the sessions; its total duration is at least 45 minutes per binge
    session; and every session of the day fits into the longest
    continuous run. *)
Theorem aggregate_daily_data_bounds
    (raw_logs : list UsageTracker.UsageEvent) (target_date : Z)
    (agg : UsageTracker.DailyAggregate) :
  Forall (λ s, 0 <= UsageTracker.duration s)%Q raw_logs →
  UsageTracker.aggregate_daily_data raw_logs target_date = Some agg →
  UsageTracker.binge_sessions agg
  = Py.len (filter (λ log, (45 < UsageTracker.duration log)%Q
                           ∧ datetime.date (UsageTracker.timestamp log)
                             = target_date)
              raw_logs)
  ∧ (0 ≤ UsageTracker.binge_sessions agg ≤ UsageTracker.session_count agg)%Z
  ∧ (45 * inject_Z (UsageTracker.binge_sessions agg)
     <= UsageTracker.total_duration agg)%Q
  ∧ (∀ log, log ∈ raw_logs →
       datetime.date (UsageTracker.timestamp log) = target_date →
       (UsageTracker.duration log <= UsageTracker.max_continuous_usage agg)%Q).
Proof.
  intros Hnonneg Hagg.
  apply aggregate_daily_data_Some in Hagg as (_ & ->).
  set (ds := filter _ raw_logs).
  assert (Hday : Forall (λ s, 0 <= UsageTracker.duration s)%Q ds).
  { apply Forall_forall. intros s [_ Hs]%list_elem_of_filter.
    rewrite Forall_forall in Hnonneg. by apply Hnonneg. }
  set (sorted_sessions :=
         Py.sorted (λ x, datetime.micros (UsageTracker.timestamp x)) ds).
  assert (Hperm : sorted_sessions ≡ₚ ds) by apply sorted_Permutation.
  assert (Hsorted : Forall (λ s, 0 <= UsageTracker.duration s)%Q sorted_sessions)
    by by rewrite Hperm.
  destruct (calculate_max_continuous_bounds sorted_sessions Hsorted)
    as (Hlow & _ & _).
  unfold UsageTracker.daily_metrics.
  cbn [UsageTracker.binge_sessions UsageTracker.session_count
       UsageTracker.total_duration UsageTracker.max_continuous_usage].
  fold ds. fold sorted_sessions.
  split; [|split; [|split]].
  - unfold ds. by rewrite list_filter_filter.
  - unfold Py.len. split; [lia|].
    apply inj_le. apply length_filter.
  - by apply binge_count_bound.
  - intros log Hin Hdate. apply Hlow. rewrite Hperm.
    apply list_elem_of_filter. by split.
Qed.

Lemma aggregate_daily_data_bounds_witness :
  Forall (λ s, 0 <= UsageTracker.duration s)%Q AggregatesExamples.two_days
  ∧ ∃ agg,
      UsageTracker.aggregate_daily_data AggregatesExamples.two_days 0 = Some agg
      ∧ (45 * inject_Z (UsageTracker.binge_sessions agg)
         <= UsageTracker.total_duration agg)%Q
      ∧ UsageTracker.binge_sessions agg = 1%Z.
Proof.
  assert (Hnonneg : Forall (λ s, 0 <= UsageTracker.duration s)%Q
                      AggregatesExamples.two_days)
    by (repeat constructor; vm_compute; discriminate).
  split; [exact Hnonneg|].
  eexists. split; [vm_compute; reflexivity|]. split.
  - eapply (proj1 (proj2 (proj2 (aggregate_daily_data_bounds
                                   AggregatesExamples.two_days 0%Z _
                                   Hnonneg _)))).
  - vm_compute. reflexivity.
  Unshelve. vm_compute. reflexivity.
Defined.

(** ** Dictionaries updated in a loop *)

Section DictFoldFacts.
Context {A V : Type} (key : A → Z) (init : Z → V) (step : A → V → V).

Lemma per_key_snoc (k : Z) (xs : list A) (x : A) :
  DictFold.per_key key init step k (xs ++ [x])
  = if decide (key x = k) then step x (DictFold.per_key key init step k xs)
    else DictFold.per_key key init step k xs.
Proof.
  unfold DictFold.per_key. rewrite filter_app, filter_cons, filter_nil.
  case_decide; [|by rewrite app_nil_r].
  by rewrite fold_left_app.
Qed.

Lemma per_key_absent (k : Z) (xs : list A) :
  k ∉ key <$> xs → DictFold.per_key key init step k xs = init k.
Proof.
  intros Hk. unfold DictFold.per_key.
  replace (filter (λ x, key x = k) xs) with (@nil A); [done|].
  symmetry. apply elem_of_nil_inv. intros x [Hx Hin]%list_elem_of_filter.
  apply Hk. rewrite <- Hx. by apply list_elem_of_fmap_2.
Qed.

Lemma dict_step_fmap (g : Z → V) (x : A) (ks : list Z) :
  NoDup ks →
  DictFold.dict_step key init step x ((λ k, (k, g k)) <$> ks)
  = if decide (key x ∈ ks)
    then (λ k, (k, if decide (key x = k) then step x (g k) else g k)) <$> ks
    else ((λ k, (k, g k)) <$> ks) ++ [(key x, step x (init (key x)))].
Proof.
  induction 1 as [|k0 ks Hk0 Hnd IH]; [reflexivity|].
  rewrite !fmap_cons. cbn [DictFold.dict_step].
  destruct (decide (key x = k0)) as [Heq|Hne].
  - rewrite decide_True by (rewrite Heq; apply list_elem_of_here). f_equal.
    apply list_fmap_ext. intros i k' Hk'.
    rewrite decide_False; [done|].
    intros E. apply Hk0. rewrite <- Heq, E. by eapply list_elem_of_lookup_2.
  - rewrite IH. destruct (decide (key x ∈ ks)) as [Hin|Hout].
    + by rewrite decide_True by by apply list_elem_of_further.
    + rewrite decide_False; [done|].
      intros [?|?]%elem_of_cons; done.
Qed.

(** A dictionary filled item by item lists the keys in order of first
    appearance, each with the fold of its own items. *)
Lemma dict_fold_spec (xs : list A) :
  fold_left (λ d x, DictFold.dict_step key init step x d) xs []
  = (λ k, (k, DictFold.per_key key init step k xs))
      <$> Grouping.first_seen (key <$> xs).
Proof.
  induction xs as [|x xs IH] using rev_ind; [done|].
  rewrite fold_left_app. cbn [fold_left]. rewrite IH, fmap_snoc, first_seen_snoc.
  rewrite (dict_step_fmap (λ k, DictFold.per_key key init step k xs))
    by apply NoDup_first_seen.
  destruct (decide (key x ∈ Grouping.first_seen (key <$> xs))) as [Hin|Hout].
  - apply list_fmap_ext. intros i k' _. by rewrite per_key_snoc.
  - rewrite fmap_app. simpl. f_equal.
    + apply list_fmap_ext. intros i k' Hk'. rewrite per_key_snoc.
      rewrite decide_False; [done|].
      intros E. apply Hout. rewrite E. by eapply list_elem_of_lookup_2.
    + rewrite per_key_snoc, decide_True by done.
      rewrite per_key_absent; [done|].
      by rewrite <- elem_of_first_seen.
Qed.

End DictFoldFacts.

(** ** The records of [process_logs_to_daily] *)

Lemma process_log_dict_step (log : UsageTracker.UsageEvent)
    (d : list (Z * UsageTracker.DailyAggregate)) :
  UsageTracker.process_log d log
  = DictFold.dict_step DailyLogs.day_of
      (λ k, UsageTracker.zero_record k (Some ∅)) UsageTracker.add_log log d.
Proof.
  unfold UsageTracker.process_log. cbv zeta. fold (DailyLogs.day_of log).
  induction d as [|[k v] d IH].
  - rewrite decide_False by apply not_elem_of_nil. simpl.
    by rewrite decide_True.
  - rewrite fmap_cons. cbn [fst DictFold.dict_step].
    destruct (decide (DailyLogs.day_of log = k)) as [->|Hne].
    + rewrite decide_True by apply list_elem_of_here. simpl.
      by rewrite decide_True.
    + destruct (decide (DailyLogs.day_of log ∈ d.*1)) as [Hin|Hout].
      * rewrite decide_True by by apply list_elem_of_further.
        simpl. by rewrite decide_False, IH.
      * rewrite decide_False by (intros [?|?]%elem_of_cons; done).
        simpl. by rewrite decide_False, IH.
Qed.

Lemma process_logs_to_daily_records (logs : list UsageTracker.UsageEvent) :
  UsageTracker.process_logs_to_daily logs
  = (λ d, DailyLogs.day_record d logs)
      <$> Grouping.first_seen (DailyLogs.day_of <$> logs).
Proof.
  unfold UsageTracker.process_logs_to_daily.
  replace (fold_left UsageTracker.process_log logs [])
    with (fold_left
            (λ d x, DictFold.dict_step DailyLogs.day_of
                      (λ k, UsageTracker.zero_record k (Some ∅))
                      UsageTracker.add_log x d) logs []).
  - rewrite dict_fold_spec, <- list_fmap_compose. reflexivity.
  - generalize (@nil (Z * UsageTracker.DailyAggregate)).
    induction logs as [|log logs IH]; intros acc; [done|].
    simpl. by rewrite IH, process_log_dict_step.
Qed.

Lemma add_log_fields (log : UsageTracker.UsageEvent)
    (r : UsageTracker.DailyAggregate) :
  UsageTracker.date (UsageTracker.add_log log r) = UsageTracker.date r
  ∧ UsageTracker.total_duration (UsageTracker.add_log log r)
    = (UsageTracker.total_duration r + UsageTracker.duration log)%Q
  ∧ UsageTracker.session_count (UsageTracker.add_log log r)
    = (UsageTracker.session_count r + 1)%Z
  ∧ UsageTracker.binge_sessions (UsageTracker.add_log log r)
    = UsageTracker.binge_sessions r
  ∧ UsageTracker.max_continuous_usage (UsageTracker.add_log log r)
    = UsageTracker.max_continuous_usage r.
Proof.
  unfold UsageTracker.add_log. repeat case_decide; done.
Qed.

Lemma fold_add_log_fields (ls : list UsageTracker.UsageEvent)
    (r : UsageTracker.DailyAggregate) :
  let r' := fold_left (λ r log, UsageTracker.add_log log r) ls r in
  UsageTracker.date r' = UsageTracker.date r
  ∧ UsageTracker.total_duration r'
    = fold_left Qplus (UsageTracker.duration <$> ls)
        (UsageTracker.total_duration r)
  ∧ UsageTracker.session_count r'
    = (UsageTracker.session_count r + Py.len ls)%Z
  ∧ UsageTracker.binge_sessions r' = UsageTracker.binge_sessions r
  ∧ UsageTracker.max_continuous_usage r' = UsageTracker.max_continuous_usage r.
Proof.
  revert r. induction ls as [|log ls IH]; intros r; simpl.
  - unfold Py.len. simpl. rewrite Z.add_0_r. done.
  - destruct (IH (UsageTracker.add_log log r)) as (Hd & Ht & Hc & Hb & Hm).
    destruct (add_log_fields log r) as (Hd' & Ht' & Hc' & Hb' & Hm').
    rewrite Hd, Ht, Hc, Hb, Hm, Hd', Ht', Hc', Hb', Hm'.
    rewrite py_len_cons. repeat split; try done. lia.
Qed.

(** X4: [process_logs_to_daily] returns one record per distinct calendar
    day of the logs, the days in order of first appearance; the record of
    a day has the same total duration and session count as the record
    [aggregate_daily_data] computes for that day. *)
Theorem process_logs_to_daily_days (logs : list UsageTracker.UsageEvent) :
  UsageTracker.date <$> UsageTracker.process_logs_to_daily logs
  = Grouping.first_seen (DailyLogs.day_of <$> logs)
  ∧ NoDup (UsageTracker.date <$> UsageTracker.process_logs_to_daily logs)
  ∧ length (UsageTracker.process_logs_to_daily logs)
    = size (list_to_set (DailyLogs.day_of <$> logs) : gset Z)
  ∧ (∀ r, r ∈ UsageTracker.process_logs_to_daily logs →
       ∃ agg,
         UsageTracker.aggregate_daily_data logs (UsageTracker.date r) = Some agg
         ∧ UsageTracker.total_duration r = UsageTracker.total_duration agg
         ∧ UsageTracker.session_count r = UsageTracker.session_count agg)
  ∧ (∀ d, Aggregates.has_events logs d ↔
          d ∈ UsageTracker.date <$> UsageTracker.process_logs_to_daily logs).
Proof.
  assert (Hdates : UsageTracker.date <$> UsageTracker.process_logs_to_daily logs
                   = Grouping.first_seen (DailyLogs.day_of <$> logs)).
  { rewrite process_logs_to_daily_records, <- list_fmap_compose.
    rewrite <- (list_fmap_id (Grouping.first_seen _)) at 2.
    apply list_fmap_ext. intros i d _. simpl.
    unfold DailyLogs.day_record.
    by rewrite (proj1 (fold_add_log_fields _ _)). }
  assert (Hev : ∀ d, Aggregates.has_events logs d
                     ↔ d ∈ Grouping.first_seen (DailyLogs.day_of <$> logs)).
  { intros d. rewrite elem_of_first_seen, list_elem_of_fmap.
    unfold Aggregates.has_events, DailyLogs.day_of. split.
    - intros (log & Hin & Hd). by exists log.
    - intros (log & Hd & Hin). by exists log. }
  split; [exact Hdates|]. split; [|split; [|split]].
  - rewrite Hdates. apply NoDup_first_seen.
  - rewrite <- (length_fmap UsageTracker.date), Hdates.
    rewrite <- (size_list_to_set (C := gset Z)) by apply NoDup_first_seen.
    f_equal. apply set_eq. intros x.
    by rewrite !elem_of_list_to_set, elem_of_first_seen.
  - intros r Hr. rewrite process_logs_to_daily_records in Hr.
    apply list_elem_of_fmap in Hr as (d & -> & Hd).
    apply Hev in Hd.
    destruct (fold_add_log_fields (DailyLogs.logs_of d logs)
                (UsageTracker.zero_record d (Some ∅)))
      as (Hdate & Htotal & Hcount & _).
    fold (DailyLogs.day_record d logs) in Hdate, Htotal, Hcount.
    rewrite Hdate. cbn [UsageTracker.zero_record UsageTracker.date].
    destruct (UsageTracker.aggregate_daily_data logs d) as [agg|] eqn:Hagg.
    + exists agg. split; [done|].
      apply aggregate_daily_data_Some in Hagg as (_ & ->).
      rewrite Htotal, Hcount. split; [reflexivity|].
      cbn [UsageTracker.zero_record UsageTracker.session_count
           UsageTracker.daily_metrics].
      unfold DailyLogs.logs_of, DailyLogs.day_of. lia.
    + exfalso.
      by apply (proj1 (aggregate_daily_data_presence logs d)) in Hagg.
  - intros d. by rewrite Hdates.
Qed.

Lemma process_logs_to_daily_days_witness :
  UsageTracker.date
    <$> UsageTracker.process_logs_to_daily AggregatesExamples.two_days
  = [0; 1]%Z
  ∧ ∃ r agg,
      r ∈ UsageTracker.process_logs_to_daily AggregatesExamples.two_days
      ∧ UsageTracker.aggregate_daily_data AggregatesExamples.two_days
          (UsageTracker.date r) = Some agg
      ∧ UsageTracker.total_duration r = UsageTracker.total_duration agg.
Proof.
  split; [vm_compute; reflexivity|].
  assert (Hin : DailyLogs.day_record 0 AggregatesExamples.two_days
                ∈ UsageTracker.process_logs_to_daily AggregatesExamples.two_days).
  { vm_compute. apply list_elem_of_here. }
  destruct (proj1 (proj2 (proj2 (proj2
              (process_logs_to_daily_days AggregatesExamples.two_days)))) _ Hin)
    as (agg & Hagg & Htot & _).
  exists (DailyLogs.day_record 0 AggregatesExamples.two_days), agg.
  split; [exact Hin|]. split; [exact Hagg|exact Htot].
Defined.

Lemma add_log_category_sum (log : UsageTracker.UsageEvent)
    (r : UsageTracker.DailyAggregate) :
  (Aggregates.category_sum r == UsageTracker.total_duration r)%Q →
  (Aggregates.category_sum (UsageTracker.add_log log r)
   == UsageTracker.total_duration (UsageTracker.add_log log r))%Q.
Proof.
  unfold Aggregates.category_sum, UsageTracker.add_log. intros Hr.
  repeat case_decide; simpl; qlra.
Qed.

(** X5: in every record of [process_logs_to_daily] the social,
    entertainment, productivity and other times add up to the total
    duration, whatever the signs of the durations. *)
Theorem process_logs_to_daily_categories
    (logs : list UsageTracker.UsageEvent) (r : UsageTracker.DailyAggregate) :
  r ∈ UsageTracker.process_logs_to_daily logs →
  (Aggregates.category_sum r == UsageTracker.total_duration r)%Q.
Proof.
  intros Hr.
  assert (H : Forall
                (λ r, Aggregates.category_sum r == UsageTracker.total_duration r)%Q
                (UsageTracker.process_logs_to_daily logs)).
  { apply process_logs_Forall; [intros d; reflexivity|].
    apply add_log_category_sum. }
  rewrite Forall_forall in H. by apply H.
Qed.

Lemma process_logs_to_daily_categories_witness :
  ∃ r, r ∈ UsageTracker.process_logs_to_daily AggregatesExamples.two_days
       ∧ (Aggregates.category_sum r == UsageTracker.total_duration r)%Q
       ∧ (UsageTracker.other_time r == 15)%Q.
Proof.
  exists (DailyLogs.day_record 0 AggregatesExamples.two_days).
  assert (Hin : DailyLogs.day_record 0 AggregatesExamples.two_days
                ∈ UsageTracker.process_logs_to_daily AggregatesExamples.two_days).
  { vm_compute. apply list_elem_of_here. }
  split; [exact Hin|]. split.
  - exact (process_logs_to_daily_categories _ _ Hin).
  - vm_compute. reflexivity.
Defined.

(** ** What [process_logs_to_daily] leaves out *)

Lemma generate_insights_checks (window : list (gmap string Q)) :
  AddictionPredictor.generate_insights window
  = Insights.trend_check window ++ Insights.night_check window
    ++ Insights.binge_check window ++ Insights.social_check window.
Proof.
  unfold AddictionPredictor.generate_insights, Insights.trend_check,
    Insights.night_check, Insights.binge_check, Insights.social_check,
    Insights.trend, Insights.column, Insights.insight.
  rewrite length_fmap.
  repeat case_decide; reflexivity.
Qed.

Lemma as_dict_binge_sessions (r : UsageTracker.DailyAggregate) :
  AddictionPredictor.get (UsageTracker.as_dict r) "binge_sessions"
  = inject_Z (UsageTracker.binge_sessions r).
Proof. reflexivity. Qed.

Lemma as_dict_total_night (r : UsageTracker.DailyAggregate) :
  AddictionPredictor.get (UsageTracker.as_dict r) "total_duration"
  = UsageTracker.total_duration r
  ∧ AddictionPredictor.get (UsageTracker.as_dict r) "night_usage"
    = UsageTracker.night_usage r.
Proof. split; reflexivity. Qed.

Lemma py_sum_zeros (xs : list Q) :
  Forall (λ x, x == 0)%Q xs → (Py.sum xs == 0)%Q.
Proof.
  induction 1 as [|x xs Hx _ IH]; [reflexivity|].
  rewrite py_sum_cons, Hx, IH. reflexivity.
Qed.

(** X6: [process_logs_to_daily] never counts binge sessions and never
    computes the longest continuous run: both stay 0 in every record.
    Hence on such records the rule-based score is the usage tier plus the
    night increment only, and [generate_insights] never raises the binge
    alert. *)
Theorem process_logs_to_daily_no_binge (logs : list UsageTracker.UsageEvent) :
  (∀ r, r ∈ UsageTracker.process_logs_to_daily logs →
     UsageTracker.binge_sessions r = 0%Z
     ∧ UsageTracker.max_continuous_usage r = 0%Q
     ∧ AddictionPredictor.risk_level
         (AddictionPredictor._rule_based_prediction (UsageTracker.as_dict r))
       = Z.min
           (RiskRules.usage_tier (UsageTracker.total_duration r)
            + (if decide (60 < UsageTracker.night_usage r)%Q then 2 else 0))
           3)
  ∧ (∀ records,
       records ⊆ UsageTracker.process_logs_to_daily logs →
       ∀ i, i ∈ AddictionPredictor.generate_insights
                  (UsageTracker.as_dict <$> records) →
            AddictionPredictor.type i ≠ AddictionPredictor.alert).
Proof.
  assert (Hzero : Forall (λ r, UsageTracker.binge_sessions r = 0%Z
                               ∧ UsageTracker.max_continuous_usage r = 0%Q)
                    (UsageTracker.process_logs_to_daily logs)).
  { apply process_logs_Forall; [done|].
    intros log r [Hb Hm].
    destruct (add_log_fields log r) as (_ & _ & _ & Hb' & Hm').
    by rewrite Hb', Hm'. }
  rewrite Forall_forall in Hzero.
  split.
  - intros r Hr. destruct (Hzero r Hr) as [Hb Hm].
    split; [exact Hb|]. split; [exact Hm|].
    unfold AddictionPredictor._rule_based_prediction.
    cbn [AddictionPredictor.risk_level].
    rewrite as_dict_binge_sessions, Hb.
    destruct (as_dict_total_night r) as [-> ->].
    unfold RiskRules.usage_tier.
    rewrite (decide_False (P := (3 < inject_Z 0)%Q)) by (vm_compute; discriminate).
    repeat case_decide; reflexivity.
  - intros records Hsub i Hi.
    rewrite generate_insights_checks in Hi.
    assert (Hbinge : Insights.binge_check (UsageTracker.as_dict <$> records) = []).
    { unfold Insights.binge_check, Insights.column.
      rewrite decide_False; [done|].
      rewrite py_sum_zeros; [vm_compute; discriminate|].
      rewrite <- list_fmap_compose. apply Forall_fmap, Forall_forall.
      intros r Hr. simpl. rewrite as_dict_binge_sessions.
      destruct (Hzero r (Hsub r Hr)) as [-> _]. reflexivity. }
    rewrite Hbinge, app_nil_l in Hi.
    unfold Insights.trend_check, Insights.night_check, Insights.social_check,
      Insights.insight in Hi.
    repeat case_decide; simpl in Hi;
      repeat (apply elem_of_cons in Hi as [-> | Hi]; [discriminate|]);
      by apply elem_of_nil in Hi.
Qed.

Lemma process_logs_to_daily_no_binge_witness :
  UsageTracker.binge_sessions
    <$> UsageTracker.process_logs_to_daily AggregatesExamples.two_days
  = [0; 0]%Z
  ∧ ∀ i, i ∈ AddictionPredictor.generate_insights
               (UsageTracker.as_dict
                  <$> UsageTracker.process_logs_to_daily
                        AggregatesExamples.two_days) →
         AddictionPredictor.type i ≠ AddictionPredictor.alert.
Proof.
  split; [vm_compute; reflexivity|].
  apply (proj2 (process_logs_to_daily_no_binge AggregatesExamples.two_days)).
  intros r Hr. exact Hr.
Defined.

(** ** The sample data *)

(** X7: [generate_sample_data(days)] returns [days] records; in the
    record of day [i] (counted from 0) the four time buckets add up to
    the total less [25 * i] and the four categories to the total less
    [8 * i], so both partitions hold on the first day only. *)
Theorem generate_sample_data_partitions (days : Z) :
  length (UsageTracker.generate_sample_data days) = Z.to_nat days
  ∧ ∀ r, r ∈ UsageTracker.generate_sample_data days →
      ∃ i : Z,
        (0 ≤ i < days)%Z ∧ r = UsageTracker.sample_day i
        ∧ (Aggregates.bucket_sum r
           == UsageTracker.total_duration r - 25 * inject_Z i)%Q
        ∧ (Aggregates.category_sum r
           == UsageTracker.total_duration r - 8 * inject_Z i)%Q
        ∧ ((Aggregates.bucket_sum r == UsageTracker.total_duration r)%Q
           ↔ i = 0%Z)
        ∧ ((Aggregates.category_sum r == UsageTracker.total_duration r)%Q
           ↔ i = 0%Z).
Proof.
  unfold UsageTracker.generate_sample_data. split.
  - by rewrite length_fmap, length_seq.
  - intros r (n & -> & Hn)%list_elem_of_fmap.
    apply elem_of_seq in Hn. exists (Z.of_nat n).
    split; [lia|]. split; [reflexivity|].
    unfold Aggregates.bucket_sum, Aggregates.category_sum,
      UsageTracker.sample_day.
    cbn [UsageTracker.total_duration UsageTracker.morning_usage
         UsageTracker.afternoon_usage UsageTracker.evening_usage
         UsageTracker.night_usage UsageTracker.social_media_time
         UsageTracker.entertainment_time UsageTracker.productivity_time
         UsageTracker.other_time].
    set (q := inject_Z (Z.of_nat n)).
    assert (Hq : (q == 0)%Q ↔ Z.of_nat n = 0%Z).
    { unfold q. change 0%Q with (inject_Z 0). apply inject_Z_injective. }
    split; [qlra|]. split; [qlra|]. split.
    + rewrite <- Hq. split; intros; qlra.
    + rewrite <- Hq. split; intros; qlra.
Qed.

Lemma generate_sample_data_partitions_witness :
  UsageTracker.sample_day 3 ∈ UsageTracker.generate_sample_data 7
  ∧ ∃ i : Z,
      UsageTracker.sample_day 3 = UsageTracker.sample_day i
      ∧ (Aggregates.bucket_sum (UsageTracker.sample_day 3)
         == UsageTracker.total_duration (UsageTracker.sample_day 3)
            - 25 * inject_Z i)%Q.
Proof.
  assert (Hin : UsageTracker.sample_day 3 ∈ UsageTracker.generate_sample_data 7).
  { apply (list_elem_of_fmap_2' _ _ 3%nat); [|reflexivity].
    apply elem_of_seq. simpl. lia. }
  split; [exact Hin|].
  destruct (proj2 (generate_sample_data_partitions 7) _ Hin)
    as (i & _ & Heq & Hsum & _).
  exists i. split; [exact Heq|exact Hsum].
Defined.

(** ** Monotonicity of the rule-based scorer *)

Lemma rule_based_prediction_score (usage_data : gmap string Q) :
  AddictionPredictor.risk_level
    (AddictionPredictor._rule_based_prediction usage_data)
  = Z.min (RiskRules.rule_score usage_data) 3
  ∧ AddictionPredictor.risk_probability
      (AddictionPredictor._rule_based_prediction usage_data)
    = Py.min (inject_Z (RiskRules.rule_score usage_data) / 7) 1.
Proof.
  unfold AddictionPredictor._rule_based_prediction, RiskRules.rule_score,
    RiskRules.usage_tier.
  repeat case_decide; split; reflexivity.
Qed.

Lemma rule_score_monotone (d d' : gmap string Q) :
  (AddictionPredictor.get d "total_duration"
   <= AddictionPredictor.get d' "total_duration")%Q →
  (AddictionPredictor.get d "night_usage"
   <= AddictionPredictor.get d' "night_usage")%Q →
  (AddictionPredictor.get d "binge_sessions"
   <= AddictionPredictor.get d' "binge_sessions")%Q →
  (RiskRules.rule_score d ≤ RiskRules.rule_score d')%Z.
Proof.
  intros Ht Hn Hb. unfold RiskRules.rule_score, RiskRules.usage_tier.
  assert (Htier :
    ((if decide (360 < AddictionPredictor.get d "total_duration")%Q then 3
      else if decide (240 < AddictionPredictor.get d "total_duration")%Q then 2
      else if decide (120 < AddictionPredictor.get d "total_duration")%Q then 1
      else 0)
     ≤ (if decide (360 < AddictionPredictor.get d' "total_duration")%Q then 3
        else if decide (240 < AddictionPredictor.get d' "total_duration")%Q then 2
        else if decide (120 < AddictionPredictor.get d' "total_duration")%Q then 1
        else 0))%Z).
  { repeat case_decide; try lia; exfalso; qlra. }
  assert (Hnight :
    ((if decide (60 < AddictionPredictor.get d "night_usage")%Q then 2 else 0)
     ≤ (if decide (60 < AddictionPredictor.get d' "night_usage")%Q then 2 else 0))%Z).
  { repeat case_decide; try lia; exfalso; qlra. }
  assert (Hbinge :
    ((if decide (3 < AddictionPredictor.get d "binge_sessions")%Q then 2 else 0)
     ≤ (if decide (3 < AddictionPredictor.get d' "binge_sessions")%Q then 2 else 0))%Z).
  { repeat case_decide; try lia; exfalso; qlra. }
  lia.
Qed.

(** X8: the rule-based risk level lies between 0 and 3 and the
    probability between 0 and 1, and neither decreases when the total
    duration, the night usage and the binge count of a day record do not
    decrease. *)
Theorem rule_based_prediction_monotone (d d' : gmap string Q) :
  (AddictionPredictor.get d "total_duration"
   <= AddictionPredictor.get d' "total_duration")%Q →
  (AddictionPredictor.get d "night_usage"
   <= AddictionPredictor.get d' "night_usage")%Q →
  (AddictionPredictor.get d "binge_sessions"
   <= AddictionPredictor.get d' "binge_sessions")%Q →
  let r := AddictionPredictor._rule_based_prediction d in
  let r' := AddictionPredictor._rule_based_prediction d' in
  (0 ≤ AddictionPredictor.risk_level r ≤ AddictionPredictor.risk_level r')%Z
  ∧ (AddictionPredictor.risk_level r' ≤ 3)%Z
  ∧ (0 <= AddictionPredictor.risk_probability r)%Q
  ∧ (AddictionPredictor.risk_probability r
     <= AddictionPredictor.risk_probability r')%Q
  ∧ (AddictionPredictor.risk_probability r' <= 1)%Q.
Proof.
  intros Ht Hn Hb r r'. subst r r'.
  pose proof (rule_score_monotone d d' Ht Hn Hb) as Hmono.
  pose proof (rule_score_range d) as Hd.
  pose proof (rule_score_range d') as Hd'.
  destruct (rule_based_prediction_score d) as [-> ->].
  destruct (rule_based_prediction_score d') as [-> ->].
  split; [lia|]. split; [lia|].
  rewrite !py_min_Qmin.
  assert (Hq : (inject_Z (RiskRules.rule_score d) / 7
                <= inject_Z (RiskRules.rule_score d') / 7)%Q).
  { apply Qmult_le_compat_r; [|vm_compute; discriminate].
    rewrite <- Zle_Qle. exact Hmono. }
  assert (H0 : (0 <= inject_Z (RiskRules.rule_score d) / 7)%Q).
  { apply Qle_shift_div_l; [reflexivity|].
    rewrite Qmult_0_l. change 0%Q with (inject_Z 0). rewrite <- Zle_Qle. lia. }
  split; [|split].
  - apply Q.min_glb; [exact H0|vm_compute; discriminate].
  - apply Q.min_le_compat_r. exact Hq.
  - apply Q.le_min_r.
Qed.

Lemma rule_based_prediction_monotone_witness :
  (AddictionPredictor.risk_level
     (AddictionPredictor._rule_based_prediction (RiskRules.quiet_day 50))
   ≤ AddictionPredictor.risk_level
       (AddictionPredictor._rule_based_prediction (RiskRules.quiet_day 400)))%Z.
Proof.
  apply (rule_based_prediction_monotone (RiskRules.quiet_day 50)
           (RiskRules.quiet_day 400)); vm_compute; discriminate.
Defined.

(** ** Recommendations *)

Lemma contains_cons (needle : string) (c : Ascii.ascii) (hay : string) :
  Py.contains needle (String c hay)
  = String.prefix needle (String c hay) || Py.contains needle hay.
Proof. reflexivity. Qed.

Lemma contains_app_r (needle prefix_ rest : string) :
  Py.contains needle rest = true →
  Py.contains needle (prefix_ +:+ rest) = true.
Proof.
  intros Hrest. induction prefix_ as [|c prefix_ IH]; [exact Hrest|].
  change (String c prefix_ +:+ rest) with (String c (prefix_ +:+ rest)).
  rewrite contains_cons, IH. apply orb_true_r.
Qed.

Lemma lower_app (a b : string) :
  UsageTracker.lower (a +:+ b) = UsageTracker.lower a +:+ UsageTracker.lower b.
Proof.
  induction a as [|c a IH]; [done|].
  change (String c a +:+ b) with (String c (a +:+ b)).
  cbn [UsageTracker.lower]. rewrite IH. reflexivity.
Qed.

Section RecommendationFacts.
Variable format_0f format_str : Q → string.

Lemma night_message_mentions_night (avg_night : Q) :
  Py.contains "night"
    (UsageTracker.lower
       (AddictionPredictor.message_text format_0f format_str
          (AddictionPredictor.High_night_usage avg_night))) = true.
Proof. reflexivity. Qed.

Lemma binge_message_mentions_binge (total_binge : Q) :
  Py.contains "binge"
    (UsageTracker.lower
       (AddictionPredictor.message_text format_0f format_str
          (AddictionPredictor.Binge_sessions_detected total_binge))) = true.
Proof.
  cbn [AddictionPredictor.message_text]. rewrite lower_app.
  apply contains_app_r. reflexivity.
Qed.

(** X10: [_generate_recommendations] never returns an empty list.  The
    usage-limit tips are in it exactly when the risk level is 2 or more,
    and then come first; the bedtime advice exactly when the text of
    some warning insight, in lower case, contains "night"; the break
    advice exactly when the text of some insight contains "binge"; and
    the "maintain" message is all it returns exactly when none of the
    three holds, and appears in no other case.  The night-usage warning
    and the binge alert of [generate_insights] are such insights. *)
Theorem generate_recommendations_shape
    (risk_data : AddictionPredictor.RiskAssessment)
    (insights : list AddictionPredictor.Insight) :
  let recs :=
    AddictionPredictor._generate_recommendations format_0f format_str
      risk_data insights in
  let text i :=
    UsageTracker.lower
      (AddictionPredictor.message_text format_0f format_str
         (AddictionPredictor.message i)) in
  let limits := (2 ≤ AddictionPredictor.risk_level risk_data)%Z in
  let night :=
    ∃ i, i ∈ insights
         ∧ AddictionPredictor.type i = AddictionPredictor.warning
         ∧ Py.contains "night" (text i) = true in
  let binge := ∃ i, i ∈ insights ∧ Py.contains "binge" (text i) = true in
  recs ≠ []
  ∧ (recs = ["Maintain current healthy usage patterns"]
     ↔ ¬ limits ∧ ¬ night ∧ ¬ binge)
  ∧ ("Maintain current healthy usage patterns" ∈ recs
     ↔ recs = ["Maintain current healthy usage patterns"])
  ∧ ("Set daily usage limits (max 3-4 hours)" ∈ recs ↔ limits)
  ∧ (limits →
     take 3 recs = [ "Set daily usage limits (max 3-4 hours)";
                     "Enable app timers for social media";
                     "Schedule device-free hours" ])
  ∧ ("Avoid screens 1 hour before bedtime" ∈ recs ↔ night)
  ∧ ("Take 10-min breaks every hour" ∈ recs ↔ binge)
  ∧ ((∃ i avg, i ∈ insights
               ∧ AddictionPredictor.type i = AddictionPredictor.warning
               ∧ AddictionPredictor.message i
                 = AddictionPredictor.High_night_usage avg) → night)
  ∧ ((∃ i total, i ∈ insights
                 ∧ AddictionPredictor.message i
                   = AddictionPredictor.Binge_sessions_detected total) →
     binge).
Proof.
  intros recs text limits night binge. subst recs.
  unfold AddictionPredictor._generate_recommendations.
  set (night_b := existsb (λ i, bool_decide _ && _) insights).
  set (binge_b := existsb _ insights).
  assert (Hn : night_b = true ↔ night).
  { unfold night_b, night. rewrite existsb_exists. split.
    - intros (i & Hin & Hi). apply andb_prop in Hi as [Hty Hc].
      exists i. split; [by apply list_elem_of_In|].
      split; [by apply bool_decide_eq_true in Hty|exact Hc].
    - intros (i & Hin & Hty & Hc). exists i.
      split; [by apply list_elem_of_In|].
      apply andb_true_intro. split; [by apply bool_decide_eq_true|exact Hc]. }
  assert (Hb : binge_b = true ↔ binge).
  { unfold binge_b, binge. rewrite existsb_exists. split.
    - intros (i & Hin & Hc). exists i. split; [by apply list_elem_of_In|done].
    - intros (i & Hin & Hc). exists i. split; [by apply list_elem_of_In|done]. }
  assert (Hnight : (∃ i avg, i ∈ insights
               ∧ AddictionPredictor.type i = AddictionPredictor.warning
               ∧ AddictionPredictor.message i
                 = AddictionPredictor.High_night_usage avg) → night).
  { intros (i & avg & Hin & Hty & Hmsg). exists i.
    split; [exact Hin|]. split; [exact Hty|].
    unfold text. rewrite Hmsg. apply night_message_mentions_night. }
  assert (Hbinge : (∃ i total, i ∈ insights
                 ∧ AddictionPredictor.message i
                   = AddictionPredictor.Binge_sessions_detected total) →
                   binge).
  { intros (i & total & Hin & Hmsg). exists i. split; [exact Hin|].
    unfold text. rewrite Hmsg. apply binge_message_mentions_binge. }
  assert (Hn' : night_b = false → ¬ night)
    by (intros E Hx; apply Hn in Hx; congruence).
  assert (Hb' : binge_b = false → ¬ binge)
    by (intros E Hx; apply Hb in Hx; congruence).
  clearbody night_b binge_b.
  destruct (decide (2 ≤ AddictionPredictor.risk_level risk_data)%Z)
    as [Hl|Hl];
    destruct night_b;
    [pose proof (proj1 Hn eq_refl) as Hnt|pose proof (Hn' eq_refl) as Hnt
    |pose proof (proj1 Hn eq_refl) as Hnt|pose proof (Hn' eq_refl) as Hnt];
    destruct binge_b;
    [pose proof (proj1 Hb eq_refl) as Hbt|pose proof (Hb' eq_refl) as Hbt
    |pose proof (proj1 Hb eq_refl) as Hbt|pose proof (Hb' eq_refl) as Hbt
    |pose proof (proj1 Hb eq_refl) as Hbt|pose proof (Hb' eq_refl) as Hbt
    |pose proof (proj1 Hb eq_refl) as Hbt|pose proof (Hb' eq_refl) as Hbt];
    clear Hn Hb Hn' Hb';
    cbn [app];
    (split; [done|]);
    (split; [split; [intros Heq; first [discriminate Heq | done]
                    |intros (? & ? & ?); first [done | reflexivity]]|]);
    (split; [split; [intros Hin; first [reflexivity
                                       |exfalso; revert Hin;
                                        apply (bool_decide_unpack _);
                                        vm_compute; exact I]
                    |intros Heq; first [discriminate Heq
                                       |apply list_elem_of_here]]|]);
    (split; [split; [intros Hin; first [assumption
                                       |exfalso; revert Hin;
                                        apply (bool_decide_unpack _);
                                        vm_compute; exact I]
                    |intros ?; first [contradiction
                                     |apply (bool_decide_unpack _);
                                      vm_compute; exact I]]|]);
    (split; [intros ?; first [contradiction | reflexivity]|]);
    (split; [split; [intros Hin; first [assumption
                                       |exfalso; revert Hin;
                                        apply (bool_decide_unpack _);
                                        vm_compute; exact I]
                    |intros ?; first [contradiction
                                     |apply (bool_decide_unpack _);
                                      vm_compute; exact I]]|]);
    (split; [split; [intros Hin; first [assumption
                                       |exfalso; revert Hin;
                                        apply (bool_decide_unpack _);
                                        vm_compute; exact I]
                    |intros ?; first [contradiction
                                     |apply (bool_decide_unpack _);
                                      vm_compute; exact I]]|]);
    (split; [exact Hnight|exact Hbinge]).
Qed.

End RecommendationFacts.

Lemma generate_recommendations_shape_witness :
  "Avoid screens 1 hour before bedtime"
  ∈ AddictionPredictor._generate_recommendations (λ _, "0") (λ _, "0")
      (AddictionPredictor._rule_based_prediction (RiskRules.quiet_day 50))
      (AddictionPredictor.generate_insights
         (Insights.scenario None true false false)).
Proof.
  apply (proj2 (proj1 (proj2 (proj2 (proj2 (proj2 (proj2
           (generate_recommendations_shape (λ _, "0") (λ _, "0") _ _)))))))).
  eexists. split; [|split].
  - vm_compute. apply list_elem_of_here.
  - reflexivity.
  - reflexivity.
Defined.

(** ** The behavioural feature matrix *)

Lemma group_add_dict_step {A} (key : A → Z) (x : A) (d : list (Z * list A)) :
  Py.group_add (key x) x d
  = DictFold.dict_step key (λ _, []) (λ x xs, xs ++ [x]) x d.
Proof.
  induction d as [|[k xs] d IH]; [reflexivity|].
  simpl. case_decide; [reflexivity|]. by rewrite IH.
Qed.

Lemma fold_left_snoc_list {A} (xs acc : list A) :
  fold_left (λ v x, v ++ [x]) xs acc = acc ++ xs.
Proof.
  revert acc. induction xs as [|x xs IH]; intros acc; simpl.
  - by rewrite app_nil_r.
  - by rewrite IH, <- app_assoc.
Qed.

(** Grouping keeps the keys in order of first appearance and, under each
    key, its items in their order. *)
Lemma group_by_spec {A} (key : A → Z) (xs : list A) :
  Py.group_by key xs
  = (λ k, (k, filter (λ x, key x = k) xs)) <$> Grouping.first_seen (key <$> xs).
Proof.
  unfold Py.group_by.
  replace (fold_left (λ d x, Py.group_add (key x) x d) xs [])
    with (fold_left
            (λ d x, DictFold.dict_step key (λ _, []) (λ x xs, xs ++ [x]) x d)
            xs []).
  - rewrite dict_fold_spec. apply list_fmap_ext. intros i k _.
    unfold DictFold.per_key. by rewrite fold_left_snoc_list.
  - generalize (@nil (Z * list A)).
    induction xs as [|x xs IH]; intros acc; [done|].
    simpl. by rewrite IH, group_add_dict_step.
Qed.

Lemma hour_counts_partition (sessions : list BehaviorAnalyzer.BehaviorEntry) :
  (Py.len (filter (λ s, 6 ≤ BehaviorAnalyzer.hour s
                        ∧ BehaviorAnalyzer.hour s < 12) sessions)
   + Py.len (filter (λ s, 12 ≤ BehaviorAnalyzer.hour s
                          ∧ BehaviorAnalyzer.hour s < 18) sessions)
   + Py.len (filter (λ s, 18 ≤ BehaviorAnalyzer.hour s
                          ∧ BehaviorAnalyzer.hour s < 22) sessions)
   + Py.len (filter (λ s, 22 ≤ BehaviorAnalyzer.hour s
                          ∨ BehaviorAnalyzer.hour s < 6) sessions)
   = Py.len sessions)%Z.
Proof.
  induction sessions as [|s sessions IH]; [reflexivity|].
  rewrite !filter_cons, py_len_cons, <- IH.
  repeat case_decide; rewrite ?py_len_cons; lia.
Qed.

Lemma feature_row_invariants (day : Z)
    (sessions : list BehaviorAnalyzer.BehaviorEntry) :
  sessions ≠ [] →
  let row := BehaviorAnalyzer.feature_row day sessions in
  (BehaviorAnalyzer.morning_usage row + BehaviorAnalyzer.afternoon_usage row
   + BehaviorAnalyzer.evening_usage row + BehaviorAnalyzer.night_usage row
   == BehaviorAnalyzer.session_count row)%Q
  ∧ (1 <= BehaviorAnalyzer.session_count row)%Q
  ∧ (0 <= BehaviorAnalyzer.binge_score row <= 1)%Q.
Proof.
  intros Hne row. subst row. unfold BehaviorAnalyzer.feature_row.
  cbn [BehaviorAnalyzer.morning_usage BehaviorAnalyzer.afternoon_usage
       BehaviorAnalyzer.evening_usage BehaviorAnalyzer.night_usage
       BehaviorAnalyzer.session_count BehaviorAnalyzer.binge_score].
  assert (Hcount : (1 ≤ Py.len sessions)%Z).
  { destruct sessions; [done|]. rewrite py_len_cons. unfold Py.len. lia. }
  assert (Hq : (1 <= inject_Z (Py.len sessions))%Q).
  { change 1%Q with (inject_Z 1). by rewrite <- Zle_Qle. }
  set (long := Py.len (filter (λ s, 30 < BehaviorAnalyzer.duration s)%Q
                         sessions)).
  assert (Hlong : (0 ≤ long ≤ Py.len sessions)%Z).
  { unfold long, Py.len. split; [lia|]. apply inj_le, length_filter. }
  assert (Hlq : (0 <= inject_Z long <= inject_Z (Py.len sessions))%Q).
  { change 0%Q with (inject_Z 0). rewrite <- !Zle_Qle. lia. }
  rewrite !decide_True by qlra.
  split; [|split; [exact Hq|split]].
  - rewrite <- !inject_Z_plus, hour_counts_partition. reflexivity.
  - apply Qle_shift_div_l; [qlra|]. qlra.
  - apply Qle_shift_div_r; [qlra|]. qlra.
Qed.

(** X11: [_extract_behavioral_features] returns one row per distinct
    calendar day, the days in order of first appearance; the total
    durations of the rows are the per-day totals; in every row the four
    time-of-day session counts add up to the session count, which is at
    least 1, and the binge score lies between 0 and 1. *)
Theorem extract_behavioral_features_invariants
    (behavior_data : list BehaviorAnalyzer.BehaviorEntry) :
  let rows := BehaviorAnalyzer._extract_behavioral_features behavior_data in
  length rows = Consistency.distinct_days behavior_data
  ∧ BehaviorAnalyzer.total_duration <$> rows
    = Consistency.daily_totals behavior_data
  ∧ BehaviorAnalyzer.weekday <$> rows
    = (λ d, inject_Z (datetime.weekday d))
        <$> Grouping.first_seen (Consistency.day_of <$> behavior_data)
  ∧ Forall
      (λ row,
         (BehaviorAnalyzer.morning_usage row + BehaviorAnalyzer.afternoon_usage row
          + BehaviorAnalyzer.evening_usage row + BehaviorAnalyzer.night_usage row
          == BehaviorAnalyzer.session_count row)%Q
         ∧ (1 <= BehaviorAnalyzer.session_count row)%Q
         ∧ (0 <= BehaviorAnalyzer.binge_score row <= 1)%Q)
      rows.
Proof.
  intros rows.
  assert (Hrows : rows
    = (λ d, BehaviorAnalyzer.feature_row d
              (filter (λ entry, Consistency.day_of entry = d) behavior_data))
        <$> Grouping.first_seen (Consistency.day_of <$> behavior_data)).
  { subst rows. unfold BehaviorAnalyzer._extract_behavioral_features.
    destruct behavior_data as [|e es]; [reflexivity|].
    fold Consistency.day_of.
    rewrite (group_by_spec Consistency.day_of), <- list_fmap_compose.
    reflexivity. }
  rewrite Hrows. split; [|split; [|split]].
  - rewrite length_fmap. unfold Consistency.distinct_days.
    rewrite <- (size_list_to_set (C := gset Z)) by apply NoDup_first_seen.
    f_equal. apply set_eq. intros x.
    by rewrite !elem_of_list_to_set, elem_of_first_seen.
  - by rewrite <- list_fmap_compose.
  - by rewrite <- list_fmap_compose.
  - apply Forall_fmap, Forall_forall. intros d Hd.
    apply elem_of_first_seen, list_elem_of_fmap in Hd as (e & -> & He).
    apply feature_row_invariants.
    intros Hnil. eapply (filter_nil_not_elem_of _ _ e Hnil); done.
Qed.

(** ** Cluster stability *)

Lemma py_sum_ones {A} (xs : list A) :
  (Py.sum ((λ _, 1%Q) <$> xs) == inject_Z (Py.len xs))%Q.
Proof.
  induction xs as [|x xs IH]; [reflexivity|].
  rewrite fmap_cons, py_sum_cons, IH, py_len_cons, inject_Z_plus.
  change (inject_Z 1) with 1%Q. qlra.
Qed.

Lemma counter_total (c : Z) (clusters : list Z) :
  (Grouping.key_total c ((λ x, (x, 1%Q)) <$> clusters)
   == inject_Z (Clusters.occurrences c clusters))%Q.
Proof.
  rewrite (key_total_fmap (λ x, x) (λ _, 1%Q)). apply py_sum_ones.
Qed.

(** X12: [_calculate_cluster_stability] never fails; below seven
    assignments it is 0.5, and from seven on it is the number of
    occurrences of a most frequent cluster among the last seven, divided
    by seven, hence between 1/7 and 1. *)
Theorem calculate_cluster_stability_spec (clusters : list Z) :
  ∃ stability,
    BehaviorAnalyzer._calculate_cluster_stability clusters = Some stability
    ∧ ((length clusters < 7)%nat → stability = 0.5%Q)
    ∧ ((7 ≤ length clusters)%nat →
       let recent := Py.last_n 7 clusters in
       (∃ c, c ∈ recent
             ∧ (stability == inject_Z (Clusters.occurrences c recent) / 7)%Q
             ∧ ∀ c', (Clusters.occurrences c' recent
                      ≤ Clusters.occurrences c recent)%Z)
       ∧ (1 / 7 <= stability <= 1)%Q).
Proof.
  unfold BehaviorAnalyzer._calculate_cluster_stability.
  destruct (decide (length clusters < 7)%nat) as [Hlt|Hge].
  { eexists. split; [reflexivity|]. split; [done|]. intros; lia. }
  set (recent := Py.last_n 7 clusters).
  assert (Hlen : length recent = 7%nat).
  { unfold recent. rewrite last_n_length. lia. }
  set (kvs := (λ c, (c, 1%Q)) <$> recent).
  assert (Hkeys : kvs.*1 = recent).
  { unfold kvs. rewrite <- list_fmap_compose. apply list_fmap_id. }
  rewrite accumulate_spec, Hkeys.
  assert (Hocc : ∀ c, (0 ≤ Clusters.occurrences c recent ≤ 7)%Z).
  { intros c. unfold Clusters.occurrences, Py.len.
    pose proof (length_filter (λ x, x = c) recent). lia. }
  destruct (Grouping.first_seen recent) as [|k0 ks] eqn:Eks.
  { exfalso. destruct recent as [|c recent']; [done|].
    assert (Hc : c ∈ Grouping.first_seen (c :: recent')).
    { apply elem_of_first_seen, list_elem_of_here. }
    rewrite Eks in Hc. by apply elem_of_nil in Hc. }
  rewrite fmap_cons.
  set (f := λ k, (k, Grouping.key_total k kvs)).
  destruct (argmax_spec (f <$> ks) (f k0)) as [Hin Hmax].
  rewrite <- fmap_cons in Hin.
  apply list_elem_of_fmap in Hin as (c & Hpeak & Hc).
  eexists. split; [reflexivity|]. split; [intros; lia|]. intros _.
  cbv zeta. change (k0, Grouping.key_total k0 kvs) with (f k0).
  rewrite Hpeak. cbn [snd f]. unfold Py.len. rewrite Hlen.
  change (inject_Z (Z.of_nat 7)) with 7%Q.
  assert (Hcin : c ∈ recent) by (rewrite <- elem_of_first_seen, Eks; exact Hc).
  assert (Hbest : ∀ c', (Clusters.occurrences c' recent
                         ≤ Clusters.occurrences c recent)%Z).
  { intros c'. destruct (decide (c' ∈ recent)) as [Hc'|Hc'].
    - assert (Hf : f c' ∈ f k0 :: (f <$> ks)).
      { rewrite <- fmap_cons, <- Eks. apply list_elem_of_fmap_2.
        by apply elem_of_first_seen. }
      apply Hmax in Hf. rewrite Hpeak in Hf. cbn [snd f] in Hf.
      unfold kvs in Hf. rewrite !counter_total in Hf.
      by rewrite Zle_Qle.
    - replace (Clusters.occurrences c' recent) with 0%Z; [apply Hocc|].
      unfold Clusters.occurrences.
      replace (filter (λ x, x = c') recent) with (@nil Z); [done|].
      symmetry. apply elem_of_nil_inv.
      intros x [-> Hx]%list_elem_of_filter. done. }
  assert (Hpos : (1 ≤ Clusters.occurrences c recent)%Z).
  { unfold Clusters.occurrences.
    assert (Hcf : c ∈ filter (λ x, x = c) recent)
      by (apply list_elem_of_filter; done).
    destruct (filter (λ x, x = c) recent); [by apply elem_of_nil in Hcf|].
    rewrite py_len_cons. unfold Py.len. lia. }
  assert (Hval : (Grouping.key_total c kvs / 7
                  == inject_Z (Clusters.occurrences c recent) / 7)%Q).
  { unfold kvs. by rewrite counter_total. }
  split.
  - exists c. split; [exact Hcin|]. split; [exact Hval|exact Hbest].
  - rewrite Hval.
    assert (Hq : (1 <= inject_Z (Clusters.occurrences c recent) <= 7)%Q).
    { change 1%Q with (inject_Z 1). change 7%Q with (inject_Z 7).
      rewrite <- !Zle_Qle. pose proof (Hocc c). lia. }
    split.
    + apply Qle_shift_div_l; [reflexivity|].
      unfold Qdiv. change (/ 7)%Q with (1 # 7)%Q. qlra.
    + apply Qle_shift_div_r; [reflexivity|]. qlra.
Qed.

Lemma calculate_cluster_stability_spec_witness :
  ∃ stability,
    BehaviorAnalyzer._calculate_cluster_stability Clusters.alternating
    = Some stability
    ∧ (1 / 7 <= stability <= 1)%Q ∧ (stability == 3 / 7)%Q.
Proof.
  destruct (calculate_cluster_stability_spec Clusters.alternating)
    as (stability & Heq & _ & Hge).
  exists stability. split; [exact Heq|]. split.
  - apply Hge. simpl. lia.
  - assert (Hs : BehaviorAnalyzer._calculate_cluster_stability
                   Clusters.alternating = Some (3 / (7 # 1))%Q)
      by (vm_compute; reflexivity).
    rewrite Hs in Heq. injection Heq as <-. reflexivity.
Defined.

(** ** Anomalies on steady and on fresh usage *)

Lemma detect_behavioral_anomalies_checks
    (features : list BehaviorAnalyzer.FeatureRow) :
  (5 ≤ length features)%nat →
  BehaviorAnalyzer._detect_behavioral_anomalies features
  = Anomalies.usage_check features ++ Anomalies.night_check features
    ++ Anomalies.binge_check features.
Proof.
  intros Hge. unfold BehaviorAnalyzer._detect_behavioral_anomalies.
  rewrite decide_False by lia.
  rewrite (decide_True (P := (3 < _)%nat)).
  2:{ rewrite length_fmap, last_n_length. lia. }
  rewrite !last_n_fmap, !but_last_n_fmap.
  unfold Anomalies.usage_check, Anomalies.night_check, Anomalies.binge_check,
    Anomalies.recent_mean, Anomalies.earlier_mean, Anomalies.window,
    Anomalies.spike, Anomalies.night_anomaly, Anomalies.binge_anomaly.
  set (w := Py.last_n 14 features).
  set (rt := Py.mean (BehaviorAnalyzer.total_duration <$> Py.last_n 3 w)).
  set (et := Py.mean (BehaviorAnalyzer.total_duration <$> Py.but_last_n 3 w)).
  set (rn := Py.mean (BehaviorAnalyzer.night_usage <$> Py.last_n 3 w)).
  set (en := Py.mean (BehaviorAnalyzer.night_usage <$> Py.but_last_n 3 w)).
  set (rb := Py.mean (BehaviorAnalyzer.binge_score <$> Py.last_n 3 w)).
  repeat case_decide; try reflexivity; exfalso; qlra.
Qed.

Lemma py_sum_const (t : Q) (xs : list Q) :
  Forall (λ x, x == t)%Q xs → (Py.sum xs == inject_Z (Py.len xs) * t)%Q.
Proof.
  induction 1 as [|x xs Hx _ IH].
  - change (Py.sum []) with 0%Q. change (inject_Z (Py.len [])) with 0%Q.
    by rewrite Qmult_0_l.
  - rewrite py_sum_cons, py_len_cons, inject_Z_plus, IH, Hx.
    change (inject_Z 1) with 1%Q. qlra.
Qed.

Lemma py_mean_const (t : Q) (xs : list Q) :
  xs ≠ [] → Forall (λ x, x == t)%Q xs → (Py.mean xs == t)%Q.
Proof.
  intros Hne Hall. unfold Py.mean. rewrite (py_sum_const t) by done.
  assert (Hpos : (0 < inject_Z (Py.len xs))%Q).
  { change 0%Q with (inject_Z 0). rewrite <- Zlt_Qlt.
    destruct xs; [done|]. rewrite py_len_cons. unfold Py.len. lia. }
  field. intros Hz. rewrite Hz in Hpos. by apply Qlt_irrefl in Hpos.
Qed.

Lemma window_parts_nonempty (features : list BehaviorAnalyzer.FeatureRow) :
  (5 ≤ length features)%nat →
  Py.last_n 3 (Anomalies.window features) ≠ []
  ∧ Py.but_last_n 3 (Anomalies.window features) ≠ [].
Proof.
  intros Hge.
  assert (Hw : (5 ≤ length (Anomalies.window features))%nat).
  { unfold Anomalies.window. rewrite last_n_length. lia. }
  split; intros Hnil; apply (f_equal length) in Hnil;
    cbn [length] in Hnil.
  - rewrite last_n_length in Hnil. lia.
  - unfold Py.but_last_n in Hnil. rewrite length_take in Hnil. lia.
Qed.

Lemma window_part_subset (features : list BehaviorAnalyzer.FeatureRow)
    (row : BehaviorAnalyzer.FeatureRow) :
  row ∈ Py.last_n 3 (Anomalies.window features)
  ∨ row ∈ Py.but_last_n 3 (Anomalies.window features) →
  row ∈ Anomalies.window features.
Proof.
  intros H. rewrite <- (last_n_but_last_n 3 (Anomalies.window features)).
  apply elem_of_app. tauto.
Qed.

(** X13: from five rows on, a window whose rows all have the same
    non-negative total duration raises no usage spike, and one whose rows
    all have the same non-negative night session count raises no night
    anomaly; a positive recent mean after earlier days of zero usage is
    always a spike of high severity. *)
Theorem detect_behavioral_anomalies_steady
    (features : list BehaviorAnalyzer.FeatureRow) :
  (5 ≤ length features)%nat →
  (∀ t : Q, (0 <= t)%Q →
     Forall (λ row, BehaviorAnalyzer.total_duration row == t)%Q
       (Anomalies.window features) →
     ∀ a, a ∈ BehaviorAnalyzer._detect_behavioral_anomalies features →
          BehaviorAnalyzer.type a ≠ BehaviorAnalyzer.usage_spike)
  ∧ (∀ n : Q, (0 <= n)%Q →
       Forall (λ row, BehaviorAnalyzer.night_usage row == n)%Q
         (Anomalies.window features) →
       ∀ a, a ∈ BehaviorAnalyzer._detect_behavioral_anomalies features →
            BehaviorAnalyzer.type a ≠ BehaviorAnalyzer.night_usage_increase)
  ∧ ((Anomalies.earlier_mean BehaviorAnalyzer.total_duration features == 0)%Q →
     (0 < Anomalies.recent_mean BehaviorAnalyzer.total_duration features)%Q →
     ∃ a, a ∈ BehaviorAnalyzer._detect_behavioral_anomalies features
          ∧ BehaviorAnalyzer.type a = BehaviorAnalyzer.usage_spike
          ∧ BehaviorAnalyzer.severity a = BehaviorAnalyzer.high).
Proof.
  intros Hge. rewrite detect_behavioral_anomalies_checks by done.
  destruct (window_parts_nonempty features Hge) as [Hrecent Hearlier].
  assert (Hmeans : ∀ (col : BehaviorAnalyzer.FeatureRow → Q) (t : Q),
            Forall (λ row, col row == t)%Q (Anomalies.window features) →
            (Anomalies.recent_mean col features == t)%Q
            ∧ (Anomalies.earlier_mean col features == t)%Q).
  { intros col t Hall. rewrite Forall_forall in Hall.
    unfold Anomalies.recent_mean, Anomalies.earlier_mean.
    split; apply py_mean_const.
    - intros Hnil. apply fmap_nil_inv in Hnil. done.
    - apply Forall_fmap, Forall_forall. intros row Hrow. simpl.
      apply Hall, window_part_subset. by left.
    - intros Hnil. apply fmap_nil_inv in Hnil. done.
    - apply Forall_fmap, Forall_forall. intros row Hrow. simpl.
      apply Hall, window_part_subset. by right. }
  split; [|split].
  - intros t Ht Hall a Ha.
    destruct (Hmeans _ t Hall) as [Hr He].
    unfold Anomalies.usage_check in Ha.
    rewrite decide_False in Ha by (rewrite Hr, He; qlra).
    unfold Anomalies.night_check, Anomalies.binge_check,
      Anomalies.night_anomaly, Anomalies.binge_anomaly in Ha.
    repeat case_decide; simpl in Ha;
      repeat (apply elem_of_cons in Ha as [-> | Ha]; [discriminate|]);
      by apply elem_of_nil in Ha.
  - intros n Hn Hall a Ha.
    destruct (Hmeans _ n Hall) as [Hr He].
    unfold Anomalies.night_check in Ha.
    rewrite decide_False in Ha by (rewrite Hr, He; qlra).
    unfold Anomalies.usage_check, Anomalies.binge_check, Anomalies.spike,
      Anomalies.binge_anomaly in Ha.
    repeat case_decide; simpl in Ha;
      repeat (apply elem_of_cons in Ha as [-> | Ha]; [discriminate|]);
      by apply elem_of_nil in Ha.
  - intros Hzero Hpos. unfold Anomalies.usage_check.
    rewrite !decide_True by (rewrite Hzero; qlra).
    eexists. split; [apply elem_of_app; left; apply list_elem_of_here|].
    split; reflexivity.
Qed.

Lemma detect_behavioral_anomalies_steady_witness :
  (5 ≤ length Anomalies.calm_week)%nat
  ∧ ∀ a, a ∈ BehaviorAnalyzer._detect_behavioral_anomalies Anomalies.calm_week →
         BehaviorAnalyzer.type a ≠ BehaviorAnalyzer.usage_spike.
Proof.
  assert (H : (5 ≤ length Anomalies.calm_week)%nat) by (simpl; lia).
  split; [exact H|].
  apply (proj1 (detect_behavioral_anomalies_steady Anomalies.calm_week H) 100%Q).
  - vm_compute. discriminate.
  - repeat constructor.
Defined.

(** ** Behavioural insights and recommendations *)

Lemma fold_left_append_each {A B} (f : A → B) (xs : list A) (acc : list B) :
  fold_left (λ acc x, acc ++ [f x]) xs acc = acc ++ (f <$> xs).
Proof.
  revert acc. induction xs as [|x xs IH]; intros acc; simpl.
  - by rewrite app_nil_r.
  - by rewrite IH, <- app_assoc.
Qed.

Lemma fold_left_append_some {A B} (f : A → list B) (xs : list A)
    (acc : list B) :
  fold_left (λ acc x, acc ++ f x) xs acc = acc ++ concat (f <$> xs).
Proof.
  revert acc. induction xs as [|x xs IH]; intros acc; simpl.
  - by rewrite app_nil_r.
  - by rewrite IH, <- app_assoc.
Qed.

Lemma generate_behavioral_insights_parts (cluster_name : option string)
    (anomalies : list BehaviorAnalyzer.Anomaly) (peak_usage_hour : option Z)
    (consistency_score : option R) :
  ∃ cluster_part time_part consistency_part,
    BehaviorAnalyzer._generate_behavioral_insights cluster_name anomalies
      peak_usage_hour consistency_score
    = cluster_part ++ (BehaviorInsights.anomaly_insight <$> anomalies)
      ++ time_part ++ consistency_part
    ∧ (cluster_part = []
       ∨ (∃ i, cluster_part = [i]
               ∧ BehaviorAnalyzer.priority i = "high"
               ∧ BehaviorAnalyzer.insight_type i ≠ "anomaly"
               ∧ BehaviorAnalyzer.insight_type i ≠ "time_pattern"
               ∧ BehaviorAnalyzer.insight_type i ≠ "consistency"
               ∧ (cluster_name = Some "Heavy User"
                  ∨ cluster_name = Some "Binge User")))
    ∧ (cluster_part = [] →
       cluster_name ≠ Some "Heavy User" ∧ cluster_name ≠ Some "Binge User")
    ∧ ((22 ≤ default 0 peak_usage_hour ∨ default 0 peak_usage_hour ≤ 6)%Z
       ∧ (∃ i, time_part = [i]
               ∧ BehaviorAnalyzer.insight_type i = "time_pattern"
               ∧ BehaviorAnalyzer.priority i = "medium")
       ∨ ¬ (22 ≤ default 0 peak_usage_hour ∨ default 0 peak_usage_hour ≤ 6)%Z
         ∧ time_part = [])
    ∧ ((default 0 consistency_score < 0.3)%R
       ∧ (∃ i, consistency_part = [i]
               ∧ BehaviorAnalyzer.insight_type i = "consistency"
               ∧ BehaviorAnalyzer.priority i = "low")
       ∨ ¬ (default 0 consistency_score < 0.3)%R ∧ consistency_part = []).
Proof.
  unfold BehaviorAnalyzer._generate_behavioral_insights.
  rewrite (fold_left_append_each BehaviorInsights.anomaly_insight).
  set (heavy := {| BehaviorAnalyzer.insight_type := "usage_level" |}).
  set (binge := {| BehaviorAnalyzer.insight_type := "usage_pattern" |}).
  set (late := {| BehaviorAnalyzer.insight_type := "time_pattern" |}).
  set (variable := {| BehaviorAnalyzer.insight_type := "consistency" |}).
  exists (if decide (default "Unknown" cluster_name = "Heavy User")
          then [heavy]
          else if decide (default "Unknown" cluster_name = "Binge User")
          then [binge] else []),
         (if decide (22 ≤ default 0 peak_usage_hour
                     ∨ default 0 peak_usage_hour ≤ 6)%Z
          then [late] else []),
         (if Rlt_dec (default 0%R consistency_score) 0.3%R
          then [variable] else []).
  split; [|split; [|split; [|split]]].
  - repeat case_decide; destruct (Rlt_dec _ _);
      rewrite ?app_nil_l, ?app_nil_r, <- ?app_assoc; reflexivity.
  - repeat case_decide; [right|right|by left].
    + exists heavy. repeat (split; [done|]). left.
      destruct cluster_name; simpl in *; [congruence|discriminate].
    + exists binge. repeat (split; [done|]). right.
      destruct cluster_name; simpl in *; [congruence|discriminate].
  - repeat case_decide; try discriminate. intros _.
    destruct cluster_name; simpl in *; split; congruence.
  - case_decide; [left|right]; (split; [done|]); [|done].
    exists late. done.
  - destruct (Rlt_dec _ _); [left|right]; (split; [done|]); [|done].
    exists variable. done.
Qed.

Lemma severity_name_high (s : BehaviorAnalyzer.anomaly_severity) :
  BehaviorAnalyzer.severity_name s = "high" ↔ s = BehaviorAnalyzer.high.
Proof. destruct s; simpl; split; intros; done. Qed.

Lemma elem_of_concat {A} (x : A) (ls : list (list A)) :
  x ∈ concat ls ↔ ∃ l, x ∈ l ∧ l ∈ ls.
Proof.
  induction ls as [|l ls IH]; simpl.
  - split; [by intros ?%elem_of_nil|]. by intros (l & _ & ?%elem_of_nil).
  - rewrite elem_of_app, IH. split.
    + intros [H|(l' & H1 & H2)].
      * exists l. split; [done|apply list_elem_of_here].
      * exists l'. split; [done|by apply list_elem_of_further].
    + intros (l' & H1 & [-> | H2]%elem_of_cons); [by left|].
      right. by exists l'.
Qed.

Lemma pattern_advice_fold (insights : list BehaviorAnalyzer.BehavioralInsight)
    (acc : list string) :
  fold_left
    (λ recommendations insight,
       if decide (BehaviorAnalyzer.insight_type insight = "time_pattern") then
         recommendations
         ++ ["Enable night mode and usage restrictions after 9 PM"]
       else if decide (BehaviorAnalyzer.insight_type insight = "usage_pattern")
       then
         recommendations
         ++ ["Use the Pomodoro technique: 25 min usage, 5 min break"]
       else if decide (BehaviorAnalyzer.insight_type insight = "consistency")
       then
         recommendations
         ++ ["Create a structured daily routine for device usage"]
       else recommendations)
    insights acc
  = acc ++ concat
      ((λ insight,
          if decide (BehaviorAnalyzer.insight_type insight = "time_pattern")
          then ["Enable night mode and usage restrictions after 9 PM"]
          else if decide (BehaviorAnalyzer.insight_type insight
                          = "usage_pattern")
          then ["Use the Pomodoro technique: 25 min usage, 5 min break"]
          else if decide (BehaviorAnalyzer.insight_type insight
                          = "consistency")
          then ["Create a structured daily routine for device usage"]
          else []) <$> insights).
Proof.
  revert acc. induction insights as [|i insights IH]; intros acc.
  - simpl. by rewrite app_nil_r.
  - rewrite fmap_cons. cbn [fold_left concat]. rewrite IH.
    repeat case_decide; rewrite <- ?app_assoc; reflexivity.
Qed.

Lemma generate_behavioral_recommendations_elements
    (insights : list BehaviorAnalyzer.BehavioralInsight) (s : string) :
  s ∈ BehaviorAnalyzer._generate_behavioral_recommendations insights
  ↔ (s ∈ [ "Set strict daily usage limits";
           "Use app blocking during peak hours";
           "Schedule regular digital detox periods" ]
     ∧ ∃ i, i ∈ insights ∧ BehaviorAnalyzer.priority i = "high")
    ∨ (∃ i, i ∈ insights
            ∧ ((BehaviorAnalyzer.insight_type i = "time_pattern"
                ∧ s = BehaviorInsights.night_mode)
               ∨ (BehaviorAnalyzer.insight_type i = "usage_pattern"
                  ∧ s = "Use the Pomodoro technique: 25 min usage, 5 min break")
               ∨ (BehaviorAnalyzer.insight_type i = "consistency"
                  ∧ s = BehaviorInsights.daily_routine)))
    ∨ s ∈ BehaviorInsights.general_advice.
Proof.
  unfold BehaviorAnalyzer._generate_behavioral_recommendations.
  rewrite elem_of_list_to_set.
  rewrite pattern_advice_fold.
  rewrite !elem_of_app.
  assert (Hhigh : ∀ acc : list string,
    s ∈ match filter (λ i, BehaviorAnalyzer.priority i = "high") insights with
        | [] => acc
        | _ :: _ => acc ++ [ "Set strict daily usage limits";
                             "Use app blocking during peak hours";
                             "Schedule regular digital detox periods" ]
        end
    ↔ s ∈ acc
      ∨ (s ∈ [ "Set strict daily usage limits";
               "Use app blocking during peak hours";
               "Schedule regular digital detox periods" ]
         ∧ ∃ i, i ∈ insights ∧ BehaviorAnalyzer.priority i = "high")).
  { intros acc.
    destruct (filter _ insights) as [|i0 l] eqn:E.
    - split; [tauto|]. intros [H|[_ (i & Hin & Hp)]]; [done|].
      exfalso. eapply (filter_nil_not_elem_of _ _ i E); done.
    - rewrite elem_of_app. split; intros [H|H]; auto.
      + right. split; [done|]. exists i0.
        assert (Hi0 : i0 ∈ filter (λ i, BehaviorAnalyzer.priority i = "high")
                        insights) by (rewrite E; apply list_elem_of_here).
        apply list_elem_of_filter in Hi0 as [? ?]. done.
      + right. tauto. }
  rewrite (Hhigh []).
  assert (Hmid : s ∈ concat
            ((λ insight,
                if decide (BehaviorAnalyzer.insight_type insight = "time_pattern")
                then ["Enable night mode and usage restrictions after 9 PM"]
                else if decide (BehaviorAnalyzer.insight_type insight
                                = "usage_pattern")
                then ["Use the Pomodoro technique: 25 min usage, 5 min break"]
                else if decide (BehaviorAnalyzer.insight_type insight
                                = "consistency")
                then ["Create a structured daily routine for device usage"]
                else []) <$> insights)
          ↔ ∃ i, i ∈ insights
            ∧ ((BehaviorAnalyzer.insight_type i = "time_pattern"
                ∧ s = BehaviorInsights.night_mode)
               ∨ (BehaviorAnalyzer.insight_type i = "usage_pattern"
                  ∧ s = "Use the Pomodoro technique: 25 min usage, 5 min break")
               ∨ (BehaviorAnalyzer.insight_type i = "consistency"
                  ∧ s = BehaviorInsights.daily_routine))).
  { rewrite elem_of_concat. split.
    - intros (l & Hs & (i & -> & Hi)%list_elem_of_fmap).
      exists i. split; [done|].
      repeat case_decide;
        try (apply list_elem_of_singleton in Hs as ->; tauto).
      by apply elem_of_nil in Hs.
    - intros (i & Hi & Hcase). eexists. split; [|by apply list_elem_of_fmap_2].
      destruct Hcase as [[Ht ->]|[[Ht ->]|[Ht ->]]]; rewrite Ht; simpl;
        apply list_elem_of_here. }
  rewrite Hmid. unfold BehaviorInsights.general_advice.
  split; [intros [[[H|H]|H]|H]|intros [H|[H|H]]]; try tauto.
  by apply elem_of_nil in H.
Qed.

Lemma filter_fmap_all {A B} (P : B → Prop) `{∀ y, Decision (P y)}
    (f : A → B) (xs : list A) :
  (∀ x, P (f x)) → filter P (f <$> xs) = f <$> xs.
Proof.
  intros Hall. induction xs as [|x xs IH]; [done|].
  rewrite fmap_cons, filter_cons_True by done. by rewrite IH.
Qed.

Ltac not_among H :=
  repeat (apply elem_of_cons in H as [H | H]; [discriminate|]);
  by apply elem_of_nil in H.

(** X14: the insights of [_generate_behavioral_insights] hold one
    "anomaly" insight per anomaly, in order; the recommendations built
    from them always contain the three general tips; they contain the
    strict-limit tip exactly when the cluster is "Heavy User" or
    "Binge User" or some anomaly has high severity, the night-mode tip
    exactly when the peak hour (0 when missing) is at least 22 or at
    most 6, and the daily-routine tip exactly when the consistency score
    (0 when missing) is below 0.3. *)
Theorem behavioral_recommendations_spec (cluster_name : option string)
    (anomalies : list BehaviorAnalyzer.Anomaly) (peak_usage_hour : option Z)
    (consistency_score : option R) :
  let insights :=
    BehaviorAnalyzer._generate_behavioral_insights cluster_name anomalies
      peak_usage_hour consistency_score in
  let recs := BehaviorAnalyzer._generate_behavioral_recommendations insights in
  filter (λ i, BehaviorAnalyzer.insight_type i = "anomaly") insights
  = BehaviorInsights.anomaly_insight <$> anomalies
  ∧ (∀ s, s ∈ BehaviorInsights.general_advice → s ∈ recs)
  ∧ (BehaviorInsights.strict_limits ∈ recs
     ↔ cluster_name = Some "Heavy User" ∨ cluster_name = Some "Binge User"
       ∨ ∃ a, a ∈ anomalies
              ∧ BehaviorAnalyzer.severity a = BehaviorAnalyzer.high)
  ∧ (BehaviorInsights.night_mode ∈ recs
     ↔ (22 ≤ default 0 peak_usage_hour ∨ default 0 peak_usage_hour ≤ 6)%Z)
  ∧ (BehaviorInsights.daily_routine ∈ recs
     ↔ (default 0 consistency_score < 0.3)%R).
Proof.
  intros insights recs. subst recs insights.
  destruct (generate_behavioral_insights_parts cluster_name anomalies
              peak_usage_hour consistency_score)
    as (cp & tp & sp & -> & Hcp & Hcp0 & Htp & Hsp).
  assert (Hmem : ∀ i, i ∈ cp ++ (BehaviorInsights.anomaly_insight <$> anomalies)
                           ++ tp ++ sp
                 ↔ i ∈ cp
                   ∨ (∃ a, a ∈ anomalies ∧ i = BehaviorInsights.anomaly_insight a)
                   ∨ i ∈ tp ∨ i ∈ sp).
  { intros i. rewrite !elem_of_app, list_elem_of_fmap.
    split; [intros [?|[(a & ? & ?)|[?|?]]]|intros [?|[(a & ? & ?)|[?|?]]]];
      eauto 10. }
  split; [|split; [|split; [|split]]].
  - rewrite !filter_app.
    rewrite (filter_fmap_all _ BehaviorInsights.anomaly_insight) by done.
    replace (filter _ cp) with (@nil BehaviorAnalyzer.BehavioralInsight).
    2:{ destruct Hcp as [-> | (i & -> & _ & Hty & _)]; [done|].
        by rewrite filter_cons_False, filter_nil. }
    replace (filter _ tp) with (@nil BehaviorAnalyzer.BehavioralInsight).
    2:{ destruct Htp as [[_ (i & -> & Hty & _)] | [_ ->]]; [|done].
        rewrite filter_cons_False, filter_nil; [done|]. by rewrite Hty. }
    replace (filter _ sp) with (@nil BehaviorAnalyzer.BehavioralInsight).
    2:{ destruct Hsp as [[_ (i & -> & Hty & _)] | [_ ->]]; [|done].
        rewrite filter_cons_False, filter_nil; [done|]. by rewrite Hty. }
    by rewrite app_nil_r.
  - intros s Hs. apply generate_behavioral_recommendations_elements. auto.
  - rewrite generate_behavioral_recommendations_elements. split.
    + intros [[_ (i & Hi & Hprio)] | [(i & _ & Hcase) | Hgen]].
      * apply Hmem in Hi as [Hi | [(a & Ha & ->) | [Hi | Hi]]].
        -- destruct Hcp as [-> | (i0 & -> & _ & _ & _ & _ & Hname)];
             [by apply elem_of_nil in Hi|]. tauto.
        -- right. right. exists a. split; [done|].
           by apply severity_name_high.
        -- destruct Htp as [[_ (i0 & -> & _ & Hp)] | [_ ->]];
             [|by apply elem_of_nil in Hi].
           apply list_elem_of_singleton in Hi as ->. congruence.
        -- destruct Hsp as [[_ (i0 & -> & _ & Hp)] | [_ ->]];
             [|by apply elem_of_nil in Hi].
           apply list_elem_of_singleton in Hi as ->. congruence.
      * destruct Hcase as [[_ ?] | [[_ ?] | [_ ?]]]; discriminate.
      * not_among Hgen.
    + intros Hcase. left. split; [apply list_elem_of_here|].
      destruct Hcase as [Hname | [Hname | (a & Ha & Hsev)]].
      * destruct Hcp as [-> | (i & -> & Hp & _)].
        -- destruct (Hcp0 eq_refl) as [Hn _]. done.
        -- exists i. split; [|done]. apply Hmem. left. apply list_elem_of_here.
      * destruct Hcp as [-> | (i & -> & Hp & _)].
        -- destruct (Hcp0 eq_refl) as [_ Hn]. done.
        -- exists i. split; [|done]. apply Hmem. left. apply list_elem_of_here.
      * exists (BehaviorInsights.anomaly_insight a). split.
        -- apply Hmem. right. left. by exists a.
        -- by apply severity_name_high.
  - rewrite generate_behavioral_recommendations_elements. split.
    + intros [[Hs _] | [(i & Hi & Hcase) | Hgen]].
      * not_among Hs.
      * destruct Hcase as [[Hty _] | [[_ ?] | [_ ?]]]; try discriminate.
        apply Hmem in Hi as [Hi | [(a & Ha & ->) | [Hi | Hi]]].
        -- destruct Hcp as [-> | (i0 & -> & _ & _ & Hnt & _)];
             [by apply elem_of_nil in Hi|].
           apply list_elem_of_singleton in Hi as ->. done.
        -- discriminate.
        -- destruct Htp as [[Hp _] | [_ ->]];
             [done|by apply elem_of_nil in Hi].
        -- destruct Hsp as [[_ (i0 & -> & Hty0 & _)] | [_ ->]];
             [|by apply elem_of_nil in Hi].
           apply list_elem_of_singleton in Hi as ->. congruence.
      * not_among Hgen.
    + intros Hp. right. left.
      destruct Htp as [[_ (i & -> & Hty & _)] | [Hn _]]; [|done].
      exists i. split; [|by left].
      apply Hmem. right. right. left. apply list_elem_of_here.
  - rewrite generate_behavioral_recommendations_elements. split.
    + intros [[Hs _] | [(i & Hi & Hcase) | Hgen]].
      * not_among Hs.
      * destruct Hcase as [[_ ?] | [[_ ?] | [Hty _]]]; try discriminate.
        apply Hmem in Hi as [Hi | [(a & Ha & ->) | [Hi | Hi]]].
        -- destruct Hcp as [-> | (i0 & -> & _ & _ & _ & Hnc & _)];
             [by apply elem_of_nil in Hi|].
           apply list_elem_of_singleton in Hi as ->. done.
        -- discriminate.
        -- destruct Htp as [[_ (i0 & -> & Hty0 & _)] | [_ ->]];
             [|by apply elem_of_nil in Hi].
           apply list_elem_of_singleton in Hi as ->. congruence.
        -- destruct Hsp as [[Hc _] | [_ ->]];
             [done|by apply elem_of_nil in Hi].
      * not_among Hgen.
    + intros Hc. right. left.
      destruct Hsp as [[_ (i & -> & Hty & _)] | [Hn _]]; [|done].
      exists i. split; [|by right; right].
      apply Hmem. right. right. right. apply list_elem_of_here.
Qed.

(** ** Pattern confidence and alerts *)

Lemma detect_patterns_parts (buffer : list RealTimeTracker.BufferEntry) :
  (10 ≤ length buffer)%nat →
  ∃ peak,
    RealTimeTracker.patterns (RealTimeTracker.detect_patterns buffer)
    = Patterns.binge_check buffer ++ peak ++ Patterns.switching_check buffer
    ∧ Patterns.peak_check_of buffer peak.
Proof.
  intros Hge. unfold RealTimeTracker.detect_patterns.
  rewrite decide_False by lia. cbn [RealTimeTracker.patterns].
  exists (RealTimeTracker.append_if []
            (RealTimeTracker._detect_time_patterns buffer)).
  split; [|apply detect_time_patterns_spec].
  rewrite (append_if_app _ (RealTimeTracker._detect_app_switching buffer)).
  rewrite (append_if_app _ (RealTimeTracker._detect_time_patterns buffer)).
  rewrite detect_binge_pattern_spec, detect_app_switching_spec by done.
  by rewrite <- app_assoc.
Qed.

Lemma detect_patterns_confidence (buffer : list RealTimeTracker.BufferEntry) :
  (RealTimeTracker.confidence (RealTimeTracker.detect_patterns buffer)
   == Patterns.confidence_formula
        (RealTimeTracker.patterns (RealTimeTracker.detect_patterns buffer)))%Q.
Proof.
  unfold RealTimeTracker.detect_patterns. case_decide.
  - vm_compute. reflexivity.
  - cbn [RealTimeTracker.patterns RealTimeTracker.confidence].
    apply calculate_pattern_confidence_spec.
Qed.

(** X15: [detect_patterns] reports at most three patterns, at most one
    of them a binge pattern; its confidence lies between 0 and 1, is 0
    exactly when no pattern was found and is at least 0.3 otherwise. *)
Theorem detect_patterns_confidence_bounds
    (buffer : list RealTimeTracker.BufferEntry) :
  let result := RealTimeTracker.detect_patterns buffer in
  (length (RealTimeTracker.patterns result) ≤ 3)%nat
  ∧ (length (filter (λ p, RealTimeTracker.is_binge_usage p)
               (RealTimeTracker.patterns result)) ≤ 1)%nat
  ∧ (0 <= RealTimeTracker.confidence result <= 1)%Q
  ∧ ((RealTimeTracker.confidence result == 0)%Q
     ↔ RealTimeTracker.patterns result = [])
  ∧ (RealTimeTracker.patterns result ≠ [] →
     (0.3 <= RealTimeTracker.confidence result)%Q).
Proof.
  intros result. subst result.
  pose proof (detect_patterns_confidence buffer) as Hconf.
  pose proof (severity_weights_nonneg
                (RealTimeTracker.patterns (RealTimeTracker.detect_patterns buffer)))
    as Hw.
  assert (Hshape :
    (length (RealTimeTracker.patterns (RealTimeTracker.detect_patterns buffer))
     ≤ 3)%nat
    ∧ (length (filter (λ p, RealTimeTracker.is_binge_usage p)
                 (RealTimeTracker.patterns
                    (RealTimeTracker.detect_patterns buffer))) ≤ 1)%nat).
  { destruct (decide (length buffer < 10)%nat) as [Hlt|Hge].
    - unfold RealTimeTracker.detect_patterns. rewrite decide_True by done.
      simpl. lia.
    - destruct (detect_patterns_parts buffer) as (peak & -> & Hpeak); [lia|].
      unfold Patterns.binge_check, Patterns.switching_check.
      destruct Hpeak as [[-> _] | (h & -> & _)];
        repeat case_decide; simpl; lia. }
  destruct Hshape as [Hlen Hbinge].
  split; [exact Hlen|]. split; [exact Hbinge|].
  unfold Patterns.confidence_formula in Hconf.
  set (ps := RealTimeTracker.patterns (RealTimeTracker.detect_patterns buffer))
    in *.
  set (w := Py.sum (Patterns.severity_weight <$> ps)) in *.
  assert (Hn : (0 <= inject_Z (Py.len ps))%Q).
  { change 0%Q with (inject_Z 0). rewrite <- Zle_Qle. unfold Py.len. lia. }
  assert (Hpos : ps ≠ [] → (1 <= inject_Z (Py.len ps))%Q).
  { intros Hne. change 1%Q with (inject_Z 1). rewrite <- Zle_Qle.
    destruct ps; [done|]. rewrite py_len_cons. unfold Py.len. lia. }
  split; [|split].
  - rewrite Hconf. split.
    + apply Q.min_glb; qlra.
    + apply Q.le_min_r.
  - rewrite Hconf. split.
    + intros Hzero. destruct ps as [|p ps']; [done|]. exfalso.
      specialize (Hpos ltac:(done)).
      assert (Hmin : (0.3 <= Qmin (0.3 * inject_Z (Py.len (p :: ps')) + w) 1)%Q)
        by (apply Q.min_glb; qlra).
      rewrite Hzero in Hmin. by vm_compute in Hmin.
    + intros Hnil. unfold w. rewrite Hnil. vm_compute. reflexivity.
  - intros Hne. specialize (Hpos Hne). rewrite Hconf.
    apply Q.min_glb; qlra.
Qed.

Lemma detect_patterns_confidence_bounds_witness :
  RealTimeTracker.patterns (RealTimeTracker.detect_patterns Patterns.busy_buffer)
  ≠ []
  ∧ (0.3 <= RealTimeTracker.confidence
              (RealTimeTracker.detect_patterns Patterns.busy_buffer))%Q.
Proof.
  assert (H : RealTimeTracker.patterns
                (RealTimeTracker.detect_patterns Patterns.busy_buffer) ≠ [])
    by (vm_compute; discriminate).
  split; [exact H|].
  exact (proj2 (proj2 (proj2 (proj2
           (detect_patterns_confidence_bounds Patterns.busy_buffer)))) H).
Defined.

(** ** Alerts *)

Lemma binge_alert_fold (ps : list RealTimeTracker.Pattern)
    (acc : list RealTimeTracker.Alert) :
  fold_left
    (λ alerts pattern,
       if RealTimeTracker.is_binge_usage pattern then
         alerts ++
         [ {| RealTimeTracker.alert_type := "binge_detected";
              RealTimeTracker.alert_message :=
                RealTimeTracker.Binge_usage_detected
                  (RealTimeTracker.pattern_duration pattern);
              RealTimeTracker.action := "limit_usage";
              RealTimeTracker.alert_priority := "high" |} ]
       else alerts)
    ps acc
  = acc ++ ((λ pattern,
               {| RealTimeTracker.alert_type := "binge_detected";
                  RealTimeTracker.alert_message :=
                    RealTimeTracker.Binge_usage_detected
                      (RealTimeTracker.pattern_duration pattern);
                  RealTimeTracker.action := "limit_usage";
                  RealTimeTracker.alert_priority := "high" |})
            <$> filter (λ p, RealTimeTracker.is_binge_usage p) ps).
Proof.
  revert acc. induction ps as [|p ps IH]; intros acc.
  - simpl. by rewrite app_nil_r.
  - cbn [fold_left]. rewrite IH. rewrite filter_cons.
    destruct (RealTimeTracker.is_binge_usage p) eqn:E.
    + rewrite decide_True by done.
      rewrite fmap_cons, <- app_assoc. reflexivity.
    + rewrite decide_False by (intros []). reflexivity.
Qed.

Lemma binge_patterns_of_detected (buffer : list RealTimeTracker.BufferEntry) :
  filter (λ p, RealTimeTracker.is_binge_usage p)
    (RealTimeTracker.patterns (RealTimeTracker.detect_patterns buffer))
  = if decide (10 ≤ length buffer)%nat then Patterns.binge_check buffer else [].
Proof.
  case_decide as Hlen.
  - destruct (detect_patterns_parts buffer) as (peak & -> & Hpeak); [done|].
    rewrite !filter_app.
    assert (Hp : filter (λ p, RealTimeTracker.is_binge_usage p) peak = []).
    { destruct Hpeak as [[-> _] | (h & -> & _)]; reflexivity. }
    rewrite Hp. unfold Patterns.binge_check, Patterns.switching_check.
    repeat case_decide; reflexivity.
  - unfold RealTimeTracker.detect_patterns. rewrite decide_True by lia.
    reflexivity.
Qed.

Ltac decide_closed := apply (bool_decide_unpack _); vm_compute; exact I.

Ltac iff_closed :=
  split; intros ?;
  first
    [ assumption
    | exfalso;
      first [ lia | tauto
            | match goal with H : _ ∈ _ |- _ => revert H; decide_closed end ]
    | tauto
    | decide_closed ].

(** X16: the alerts [check_alerts] raises on the outcome of
    [detect_patterns].  There are at most three, of distinct types and
    in a fixed order: a long-session alert exactly when the session has
    lasted more than 1800 seconds, a binge alert exactly when the buffer
    holds ten entries and its last twenty add up to more than an hour
    (the alert then carries that time in minutes), and a late-night
    alert exactly from 22 o'clock on, so that no hour before 22, the
    early morning included, raises a time alert.  Only the binge alert
    has high priority. *)
Theorem check_alerts_of_detected (session : RealTimeTracker.Session)
    (buffer : list RealTimeTracker.BufferEntry) (current_hour : Z) :
  let alerts :=
    RealTimeTracker.check_alerts session
      (RealTimeTracker.detect_patterns buffer) current_hour in
  let types := RealTimeTracker.alert_type <$> alerts in
  let binge :=
    (10 ≤ length buffer)%nat ∧ (60 < Patterns.recent_minutes buffer)%Q in
  (length alerts ≤ 3)%nat
  ∧ NoDup types
  ∧ types
    = filter (λ t, t ∈ types) ["long_session"; "binge_detected"; "late_night_usage"]
  ∧ ("long_session" ∈ types ↔ (1800 < RealTimeTracker.total_time session)%Q)
  ∧ ("binge_detected" ∈ types ↔ binge)
  ∧ ("late_night_usage" ∈ types ↔ (22 ≤ current_hour)%Z)
  ∧ (∀ a, a ∈ alerts →
       (RealTimeTracker.alert_priority a = "high"
        ↔ RealTimeTracker.alert_type a = "binge_detected")
       ∧ (RealTimeTracker.alert_type a = "binge_detected" →
          RealTimeTracker.alert_message a
          = RealTimeTracker.Binge_usage_detected
              (Patterns.recent_minutes buffer))).
Proof.
  intros alerts types binge. subst types alerts binge.
  unfold RealTimeTracker.check_alerts.
  rewrite binge_alert_fold, binge_patterns_of_detected.
  unfold RealTimeTracker.session_duration_threshold,
    RealTimeTracker.late_night_usage_threshold, Patterns.binge_check.
  destruct (decide (1800 < RealTimeTracker.total_time session)%Q) as [Hl|Hl];
    destruct (decide (10 ≤ length buffer)%nat) as [Hn|Hn];
    destruct (decide (60 < Patterns.recent_minutes buffer)%Q) as [Hb|Hb];
    destruct (decide (22 ≤ current_hour)%Z) as [Hh|Hh];
    cbn [app fmap list_fmap length RealTimeTracker.alert_type
         RealTimeTracker.pattern_duration];
    (split; [lia|]);
    (split; [decide_closed|]);
    (split; [vm_compute; reflexivity|]);
    (split; [iff_closed|]);
    (split; [iff_closed|]);
    (split; [iff_closed|]);
    intros a Ha;
    repeat (apply elem_of_cons in Ha; destruct Ha as [->|Ha]);
    try (by apply elem_of_nil in Ha);
    cbn [RealTimeTracker.alert_priority RealTimeTracker.alert_type
         RealTimeTracker.alert_message];
    (split; [split; intros; done|intros; done]).
Qed.

(** ** Live sessions and the usage buffer *)

Lemma call_facts (self : RealTimeTracker.Tracker) (e : Sessions.Event) :
  let old := RealTimeTracker.active_sessions self !! Sessions.event_key e in
  let start :=
    default (Sessions.at_time e) (RealTimeTracker.start_time <$> old) in
  let session :=
    {| RealTimeTracker.start_time := start;
       RealTimeTracker.total_time :=
         datetime.total_seconds_between (Sessions.at_time e) start;
       RealTimeTracker.session_interactions :=
         default 0%Z (RealTimeTracker.session_interactions <$> old) + 1 |} in
  RealTimeTracker.session_info (Sessions.call self e).2 = session
  ∧ RealTimeTracker.active_sessions (Sessions.call self e).1
    = <[Sessions.event_key e := session]> (RealTimeTracker.active_sessions self)
  ∧ RealTimeTracker.usage_buffer (Sessions.call self e).1
    = RealTimeTracker.deque_append 1000 (RealTimeTracker.usage_buffer self)
        {| RealTimeTracker.user_id := Sessions.event_user e;
           RealTimeTracker.app_name := Sessions.event_app e;
           RealTimeTracker.timestamp := Sessions.at_time e;
           RealTimeTracker.session_duration :=
             RealTimeTracker.total_time session;
           RealTimeTracker.interactions :=
             RealTimeTracker.session_interactions session |}.
Proof.
  intros old start session. subst session start old.
  unfold Sessions.call, RealTimeTracker.process_usage.
  fold (Sessions.event_user e). fold (Sessions.event_app e).
  fold (Sessions.event_key e).
  cbn [fst snd RealTimeTracker.session_info RealTimeTracker.active_sessions
       RealTimeTracker.usage_buffer].
  destruct (RealTimeTracker.active_sessions self !! Sessions.event_key e)
    as [s|] eqn:E.
  - rewrite E. cbn [default fmap option_fmap option_map
                    RealTimeTracker.start_time
                    RealTimeTracker.session_interactions
                    RealTimeTracker.total_time].
    done.
  - rewrite lookup_insert_eq.
    cbn [default fmap option_fmap option_map RealTimeTracker.start_time
         RealTimeTracker.session_interactions RealTimeTracker.total_time].
    rewrite insert_insert_eq. done.
Qed.

Lemma feed_snoc (self : RealTimeTracker.Tracker) (events : list Sessions.Event)
    (e : Sessions.Event) :
  Sessions.feed self (events ++ [e])
  = (Sessions.call (Sessions.feed self events) e).1.
Proof. unfold Sessions.feed. by rewrite fold_left_app. Qed.

(** X17: the session kept for a key after any sequence of calls on a
    fresh tracker.  A key no event had has no session; otherwise the
    session started at the first event of the key and was never closed
    or restarted: its interaction count is the number of events of the
    key and its total time is the time from the first to the latest of
    them. *)
Theorem process_usage_sessions (events : list Sessions.Event) (k : string) :
  let self := Sessions.feed RealTimeTracker.new_tracker events in
  match filter (λ e, Sessions.event_key e = k) events with
  | [] => RealTimeTracker.active_sessions self !! k = None
  | first :: others =>
      RealTimeTracker.active_sessions self !! k
      = Some {| RealTimeTracker.start_time := Sessions.at_time first;
                RealTimeTracker.total_time :=
                  datetime.total_seconds_between
                    (Sessions.at_time (List.last others first))
                    (Sessions.at_time first);
                RealTimeTracker.session_interactions :=
                  Z.of_nat (length (first :: others)) |}
  end.
Proof.
  intros self. subst self.
  induction events as [|e events IH] using rev_ind; [done|].
  rewrite feed_snoc, filter_app.
  destruct (call_facts (Sessions.feed RealTimeTracker.new_tracker events) e)
    as (_ & -> & _).
  rewrite filter_cons, filter_nil.
  destruct (decide (Sessions.event_key e = k)) as [<-|Hne].
  - rewrite lookup_insert_eq.
    destruct (filter _ events) as [|first others].
    + rewrite IH. reflexivity.
    + rewrite IH. cbn [app]. f_equal.
      cbn [default fmap option_fmap option_map RealTimeTracker.start_time
           RealTimeTracker.session_interactions].
      f_equal.
      * by rewrite last_last.
      * cbn [length]. rewrite length_app. cbn [length].
        unfold Datatypes.id. lia.
  - rewrite lookup_insert_ne by done. rewrite app_nil_r. exact IH.
Qed.

Lemma last_n_snoc_last_n {A} (n : nat) (xs : list A) (x : A) :
  Py.last_n n (Py.last_n n xs ++ [x]) = Py.last_n n (xs ++ [x]).
Proof.
  unfold Py.last_n. rewrite !length_app, length_drop. cbn [length].
  destruct (decide (length xs ≤ n)%nat) as [Hle|Hgt].
  - replace (length xs - n)%nat with 0%nat by lia. rewrite drop_0.
    by replace (length xs - 0)%nat with (length xs) by lia.
  - rewrite !drop_app, length_drop, drop_drop.
    f_equal; f_equal; lia.
Qed.

(** X18: the usage buffer after any sequence of calls on a fresh
    tracker holds one entry for each of the last thousand calls, in call
    order; older entries are dropped. *)
Theorem process_usage_buffer (events : list Sessions.Event) :
  let self := Sessions.feed RealTimeTracker.new_tracker events in
  let buffer := RealTimeTracker.usage_buffer self in
  length buffer = Nat.min 1000 (length events)
  ∧ (λ b, (RealTimeTracker.user_id b, RealTimeTracker.app_name b,
           RealTimeTracker.timestamp b)) <$> buffer
    = Py.last_n 1000
        ((λ e, (Sessions.event_user e, Sessions.event_app e,
                Sessions.at_time e)) <$> events).
Proof.
  intros self buffer. subst buffer self.
  assert (H :
    (λ b, (RealTimeTracker.user_id b, RealTimeTracker.app_name b,
           RealTimeTracker.timestamp b))
      <$> RealTimeTracker.usage_buffer
            (Sessions.feed RealTimeTracker.new_tracker events)
    = Py.last_n 1000
        ((λ e, (Sessions.event_user e, Sessions.event_app e,
                Sessions.at_time e)) <$> events)).
  { induction events as [|e events IH] using rev_ind; [done|].
    rewrite feed_snoc.
    destruct (call_facts (Sessions.feed RealTimeTracker.new_tracker events) e)
      as (_ & _ & ->).
    unfold RealTimeTracker.deque_append.
    rewrite <- last_n_fmap, !fmap_app, IH, !fmap_cons, !fmap_nil.
    rewrite last_n_snoc_last_n.
    reflexivity. }
  split; [|exact H].
  apply (f_equal length) in H.
  rewrite length_fmap, last_n_length, length_fmap in H. exact H.
Qed.

Lemma string_app_assoc (a b c : string) : (a +:+ b) +:+ c = a +:+ (b +:+ c).
Proof.
  induction a as [|x a IH]; [done|].
  change (String x ((a +:+ b) +:+ c) = String x (a +:+ (b +:+ c))).
  by rewrite <- IH.
Qed.

Lemma string_app_length (a b : string) :
  String.length (a +:+ b) = (String.length a + String.length b)%nat.
Proof.
  induction a as [|x a IH]; [done|].
  change (S (String.length (a +:+ b)) = S (String.length a + String.length b)).
  by rewrite IH.
Qed.

Lemma event_user_app (user app : string) (ts : datetime.t) :
  Sessions.event_user (Sessions.event user app ts) = user
  ∧ Sessions.event_app (Sessions.event user app ts) = app.
Proof.
  unfold Sessions.event_user, Sessions.event_app, Sessions.event.
  cbn [Sessions.data].
  rewrite lookup_insert_eq, lookup_insert_ne, lookup_singleton_eq by done.
  done.
Qed.

(** X19: session keys are the user and the app joined by an
    underscore, so two different users can share a session: an event of
    user [u_a] in app [b] and an event of user [u] in app [a_b] update
    the same session, whatever the tracker held before. *)
Theorem process_usage_key_collision (self : RealTimeTracker.Tracker)
    (u a b : string) (ts1 ts2 : datetime.t) :
  let e1 := Sessions.event (u +:+ "_" +:+ a) b ts1 in
  let e2 := Sessions.event u (a +:+ "_" +:+ b) ts2 in
  let r1 := Sessions.call self e1 in
  let r2 := Sessions.call r1.1 e2 in
  Sessions.event_user e1 ≠ Sessions.event_user e2
  ∧ Sessions.event_key e1 = Sessions.event_key e2
  ∧ RealTimeTracker.start_time (RealTimeTracker.session_info r2.2)
    = RealTimeTracker.start_time (RealTimeTracker.session_info r1.2)
  ∧ RealTimeTracker.session_interactions (RealTimeTracker.session_info r2.2)
    = (RealTimeTracker.session_interactions
         (RealTimeTracker.session_info r1.2) + 1)%Z.
Proof.
  intros e1 e2 r1 r2.
  assert (Hkey : Sessions.event_key e1 = Sessions.event_key e2).
  { unfold Sessions.event_key, e1, e2.
    destruct (event_user_app (u +:+ "_" +:+ a) b ts1) as [-> ->].
    destruct (event_user_app u (a +:+ "_" +:+ b) ts2) as [-> ->].
    unfold RealTimeTracker.session_key.
    by rewrite !string_app_assoc. }
  split; [|split; [exact Hkey|]].
  - unfold e1, e2.
    destruct (event_user_app (u +:+ "_" +:+ a) b ts1) as [-> _].
    destruct (event_user_app u (a +:+ "_" +:+ b) ts2) as [-> _].
    intros Heq. apply (f_equal String.length) in Heq.
    rewrite !string_app_length in Heq. cbn [String.length] in Heq. lia.
  - subst r2 r1.
    destruct (call_facts self e1) as (-> & Hs1 & _).
    destruct (call_facts (Sessions.call self e1).1 e2) as (-> & _ & _).
    rewrite Hs1, <- Hkey, lookup_insert_eq.
    cbn [default fmap option_fmap option_map RealTimeTracker.start_time
         RealTimeTracker.session_interactions].
    done.
Qed.

(** ** Streaks and real-time metrics *)

Lemma streak_fold_bounds (l : list RealTimeTracker.BufferEntry) (s : Q)
    (last_time : option datetime.t) :
  Forall (λ e, 0 <= RealTimeTracker.session_duration e)%Q l →
  (0 <= s)%Q →
  let r := fold_left RealTimeTracker.streak_step l (s, last_time) in
  (0 <= r.1 <= s + Py.sum (RealTimeTracker.session_duration <$> l))%Q
  ∧ ∀ l' x, l = l' ++ [x] → (RealTimeTracker.session_duration x <= r.1)%Q.
Proof.
  intros Hnn Hs. cbv zeta.
  induction l as [|x l IH] using rev_ind.
  - cbn [fold_left fst fmap list_fmap]. change (Py.sum []) with 0%Q.
    split; [qlra|]. intros l' x Heq. by destruct l'.
  - apply Forall_app in Hnn as [Hl Hx].
    apply (proj1 (Forall_singleton _ _)) in Hx. cbv beta in Hx.
    destruct (IH Hl) as [IHb _]. clear IH.
    rewrite fold_left_app. cbn [fold_left].
    rewrite fmap_app, py_sum_app, fmap_cons, fmap_nil, py_sum_cons.
    change (Py.sum []) with 0%Q.
    destruct (fold_left RealTimeTracker.streak_step l (s, last_time))
      as [s' last'].
    cbn [fst] in IHb.
    assert (Hstep :
      (RealTimeTracker.session_duration x
       <= (RealTimeTracker.streak_step (s', last') x).1
       <= s' + RealTimeTracker.session_duration x)%Q).
    { unfold RealTimeTracker.streak_step. cbn [fst snd].
      destruct last' as [t|]; [case_decide|]; qlra. }
    split; [qlra|].
    intros l' y Heq. apply app_inj_tail in Heq as [_ <-]. qlra.
Qed.

Lemma gap_within (a b : datetime.t) :
  (datetime.micros a - datetime.micros b ≤ 300000000)%Z →
  (datetime.total_seconds_between a b <= 300)%Q.
Proof.
  intros H. unfold datetime.total_seconds_between.
  set (m := (datetime.micros a - datetime.micros b)%Z) in *. clearbody m.
  unfold Qle, Qdiv, Qmult, Qinv, inject_Z. simpl. lia.
Qed.

Lemma streak_fold_close (l : list RealTimeTracker.BufferEntry) (s : Q)
    (t : datetime.t) :
  (∀ e, e ∈ l →
     (datetime.micros (RealTimeTracker.timestamp e) - datetime.micros t
      ≤ 300000000)%Z) →
  (∀ e e', e ∈ l → e' ∈ l →
     (datetime.micros (RealTimeTracker.timestamp e')
      - datetime.micros (RealTimeTracker.timestamp e) ≤ 300000000)%Z) →
  ((fold_left RealTimeTracker.streak_step l (s, Some t)).1
   == s + Py.sum (RealTimeTracker.session_duration <$> l))%Q.
Proof.
  revert s t. induction l as [|x l IH]; intros s t Ht Hpair.
  - cbn [fold_left fst fmap list_fmap]. change (Py.sum []) with 0%Q. qlra.
  - cbn [fold_left]. rewrite fmap_cons, py_sum_cons.
    unfold RealTimeTracker.streak_step at 2. cbn [fst snd].
    rewrite decide_True
      by (apply gap_within, Ht, list_elem_of_here).
    rewrite IH.
    + qlra.
    + intros e He. apply Hpair; [apply list_elem_of_here|].
      by apply list_elem_of_further.
    + intros e e' He He'. apply Hpair; by apply list_elem_of_further.
Qed.

(** X20: for non-negative session durations the current streak is at
    least 0 and at least the duration of a latest entry, and at most the
    total of the durations added in time order, all in minutes; when all
    entries lie within five minutes of each other it is that total. *)
Theorem calculate_current_streak_bounds
    (usage_data : list RealTimeTracker.BufferEntry)
    (Hnonneg :
       Forall (λ e, 0 <= RealTimeTracker.session_duration e)%Q usage_data) :
  let streak := RealTimeTracker._calculate_current_streak usage_data in
  let in_time_order :=
    Py.sorted (λ x, datetime.micros (RealTimeTracker.timestamp x))
      usage_data in
  let total := Py.sum (RealTimeTracker.session_duration <$> in_time_order) in
  (0 <= streak <= total / 60)%Q
  ∧ (usage_data ≠ [] →
     ∃ e, e ∈ usage_data
          ∧ (∀ e', e' ∈ usage_data →
               (datetime.micros (RealTimeTracker.timestamp e')
                ≤ datetime.micros (RealTimeTracker.timestamp e))%Z)
          ∧ (RealTimeTracker.session_duration e / 60 <= streak)%Q)
  ∧ ((∀ e e', e ∈ usage_data → e' ∈ usage_data →
        (datetime.micros (RealTimeTracker.timestamp e')
         - datetime.micros (RealTimeTracker.timestamp e) ≤ 300000000)%Z) →
     (streak == total / 60)%Q).
Proof.
  intros streak in_time_order total. subst streak total in_time_order.
  destruct usage_data as [|e0 rest].
  { cbn [RealTimeTracker._calculate_current_streak Py.sorted foldr
         fmap list_fmap].
    change (Py.sum []) with 0%Q.
    split; [split; [qlra|by vm_compute]|]. split; [done|].
    intros _. by vm_compute. }
  set (usage := e0 :: rest) in *.
  change (RealTimeTracker._calculate_current_streak usage)
    with ((fold_left RealTimeTracker.streak_step
             (Py.sorted (λ x, datetime.micros (RealTimeTracker.timestamp x))
                usage) (0%Q, None)).1 / 60)%Q.
  destruct (sorted_spec (λ x, datetime.micros (RealTimeTracker.timestamp x))
              usage) as [Hperm Hsorted].
  set (sorted_usage := Py.sorted _ usage) in *.
  assert (Hnn' :
    Forall (λ e, 0 <= RealTimeTracker.session_duration e)%Q sorted_usage)
    by (by rewrite Hperm).
  destruct (streak_fold_bounds sorted_usage 0 None Hnn' ltac:(qlra))
    as [Hb Hlast].
  set (r := fold_left RealTimeTracker.streak_step sorted_usage (0%Q, None))
    in *.
  set (total := Py.sum (RealTimeTracker.session_duration <$> sorted_usage))
    in *.
  split; [|split].
  - unfold Qdiv. change (/ 60)%Q with (1 # 60)%Q. qlra.
  - intros _.
    destruct (exists_last (l := sorted_usage)) as (l' & x & Heq).
    { intros Hnil. rewrite Hnil in Hperm.
      by apply Permutation_nil_l in Hperm. }
    exists x. split; [|split].
    + rewrite <- Hperm, Heq. apply elem_of_app. right.
      apply list_elem_of_here.
    + intros e' He'. rewrite <- Hperm, Heq in He'.
      apply elem_of_app in He' as [He'|He'].
      * rewrite Heq in Hsorted.
        apply (StronglySorted_app_1_elem_of _ _ _ e' x Hsorted He').
        apply list_elem_of_here.
      * apply list_elem_of_singleton in He'. subst e'. lia.
    + specialize (Hlast l' x Heq).
      unfold Qdiv. change (/ 60)%Q with (1 # 60)%Q. qlra.
  - intros Hclose.
    assert (Hclose' : ∀ e e', e ∈ sorted_usage → e' ∈ sorted_usage →
      (datetime.micros (RealTimeTracker.timestamp e')
       - datetime.micros (RealTimeTracker.timestamp e) ≤ 300000000)%Z).
    { intros e e' He He'. apply Hclose; by rewrite <- Hperm. }
    assert (Hr : (r.1 == total)%Q).
    { subst r total. destruct sorted_usage as [|x l].
      { by apply Permutation_nil_l in Hperm. }
      cbn [fold_left]. unfold RealTimeTracker.streak_step at 2.
      cbn [fst snd].
      rewrite streak_fold_close.
      - rewrite fmap_cons, py_sum_cons. reflexivity.
      - intros e He. apply Hclose'; [apply list_elem_of_here|].
        by apply list_elem_of_further.
      - intros e e' He He'. apply Hclose'; by apply list_elem_of_further. }
    by rewrite Hr.
Qed.

Lemma calculate_current_streak_bounds_witness :
  Forall (λ e, 0 <= RealTimeTracker.session_duration e)%Q Patterns.short_buffer
  ∧ (0 <= RealTimeTracker._calculate_current_streak Patterns.short_buffer
     <= Py.sum (RealTimeTracker.session_duration
                  <$> Py.sorted
                        (λ x, datetime.micros (RealTimeTracker.timestamp x))
                        Patterns.short_buffer)
        / 60)%Q.
Proof.
  assert (H : Forall (λ e, 0 <= RealTimeTracker.session_duration e)%Q
                Patterns.short_buffer).
  { repeat constructor; by vm_compute. }
  split; [exact H|].
  exact (proj1 (calculate_current_streak_bounds Patterns.short_buffer H)).
Defined.




Lemma filter_none {A} (P : A → Prop) `{∀ x, Decision (P x)} (l : list A) :
  (∀ x, x ∈ l → ¬ P x) → filter P l = [].
Proof.
  intros Hnone. destruct (filter P l) as [|y ys] eqn:E; [done|].
  assert (Hy : y ∈ filter P l) by (rewrite E; apply list_elem_of_here).
  apply list_elem_of_filter in Hy as [HP Hin]. by destruct (Hnone y Hin).
Qed.



(** ** Usage patterns *)

(** The key [peak_key] picks from the totals of [d[k] += v]: a key that
    occurs, with a total no other occurring key exceeds. *)
Lemma peak_key_spec {A} (key : A → Z) (val : A → Q) (xs : list A) :
  xs ≠ [] →
  let peak := BehaviorAnalyzer.peak_key
                (Py.accumulate ((λ x, (key x, val x)) <$> xs)) in
  peak ∈ key <$> xs
  ∧ ∀ k, k ∈ key <$> xs →
         (Py.sum (val <$> filter (λ x, key x = k) xs)
          <= Py.sum (val <$> filter (λ x, key x = peak) xs))%Q.
Proof.
  intros Hne. cbv zeta.
  rewrite accumulate_spec.
  set (kvs := (λ x, (key x, val x)) <$> xs).
  assert (Hkeys : kvs.*1 = key <$> xs).
  { unfold kvs. rewrite <- list_fmap_compose. done. }
  rewrite Hkeys.
  assert (Htot : ∀ k, Grouping.key_total k kvs
                      = Py.sum (val <$> filter (λ x, key x = k) xs))
    by (intros k; apply key_total_fmap).
  destruct (Grouping.first_seen (key <$> xs)) as [|k0 ks] eqn:Hfs.
  { exfalso. destruct xs as [|x xs]; [done|].
    assert (Hin : key x ∈ Grouping.first_seen (key <$> x :: xs)).
    { apply elem_of_first_seen. rewrite fmap_cons. apply list_elem_of_here. }
    rewrite Hfs in Hin. by apply elem_of_nil in Hin. }
  rewrite fmap_cons. cbn [BehaviorAnalyzer.peak_key].
  set (f := λ k, (k, Grouping.key_total k kvs)).
  change (k0, Grouping.key_total k0 kvs) with (f k0).
  destruct (argmax_spec (f <$> ks) (f k0)) as [Hin Hmax].
  rewrite <- fmap_cons in Hin, Hmax.
  apply list_elem_of_fmap in Hin as (kp & Heq & Hkp).
  rewrite Heq in *. subst f. cbn [fst snd] in *.
  split.
  - apply elem_of_first_seen. by rewrite Hfs.
  - intros k Hk. rewrite <- !Htot.
    apply (Hmax (k, Grouping.key_total k kvs)).
    apply (list_elem_of_fmap_2 (λ k, (k, Grouping.key_total k kvs))).
    rewrite <- Hfs. by apply elem_of_first_seen.
Qed.

Lemma lookup_dict_add_str (k k' : string) (v : Q) (d : list (string * Q)) :
  UsagePatterns.lookup_str k' (Py.dict_add_str k v d)
  = if decide (k' = k)
    then Some (default 0%Q (UsagePatterns.lookup_str k d) + v)%Q
    else UsagePatterns.lookup_str k' d.
Proof.
  induction d as [|[k0 w] d IH].
  - cbn [Py.dict_add_str UsagePatterns.lookup_str]. by case_decide.
  - cbn [Py.dict_add_str UsagePatterns.lookup_str].
    destruct (decide (k = k0)) as [->|Hne].
    + cbn [UsagePatterns.lookup_str]. by repeat case_decide.
    + cbn [UsagePatterns.lookup_str]. rewrite IH.
      repeat case_decide; congruence.
Qed.

Lemma dict_add_str_keys (k : string) (v : Q) (d : list (string * Q)) :
  (Py.dict_add_str k v d).*1
  = if decide (k ∈ d.*1) then d.*1 else d.*1 ++ [k].
Proof.
  induction d as [|[k0 w] d IH].
  - cbn [Py.dict_add_str fmap list_fmap fst]. rewrite decide_False; [done|].
    apply not_elem_of_nil.
  - cbn [Py.dict_add_str]. destruct (decide (k = k0)) as [->|Hne].
    + rewrite !fmap_cons. cbn [fst].
      by rewrite decide_True by apply list_elem_of_here.
    + rewrite !fmap_cons, IH. cbn [fst].
      destruct (decide (k ∈ d.*1)) as [Hin|Hout].
      * by rewrite decide_True by by apply list_elem_of_further.
      * rewrite decide_False; [done|].
        intros [?|?]%elem_of_cons; done.
Qed.

Lemma accumulate_str_snoc (kvs : list (string * Q)) (k : string) (v : Q) :
  Py.accumulate_str (kvs ++ [(k, v)])
  = Py.dict_add_str k v (Py.accumulate_str kvs).
Proof. unfold Py.accumulate_str. by rewrite fold_left_app. Qed.

Lemma accumulate_str_keys (kvs : list (string * Q)) :
  NoDup (Py.accumulate_str kvs).*1
  ∧ ∀ k, k ∈ (Py.accumulate_str kvs).*1 ↔ k ∈ kvs.*1.
Proof.
  induction kvs as [|[k v] kvs [IHnd IHin]] using rev_ind.
  - split; [constructor|done].
  - rewrite accumulate_str_snoc, dict_add_str_keys, fmap_app.
    cbn [fmap list_fmap fst].
    case_decide as Hk.
    + split; [done|]. intros k'. rewrite elem_of_app, list_elem_of_singleton.
      rewrite IHin. split; [tauto|]. intros [?| ->]; [done|]. by apply IHin.
    + split.
      * apply NoDup_app. split; [done|]. split; [|apply NoDup_singleton].
        intros x Hx ->%list_elem_of_singleton. done.
      * intros k'. rewrite !elem_of_app, IHin. done.
Qed.

Lemma accumulate_str_lookup {A} (key : A → string) (val : A → Q) (k : string)
    (xs : list A) :
  UsagePatterns.lookup_str k
    (Py.accumulate_str ((λ x, (key x, val x)) <$> xs))
  = if decide (k ∈ key <$> xs)
    then Some (Py.sum (val <$> filter (λ x, key x = k) xs))
    else None.
Proof.
  induction xs as [|x xs IH] using rev_ind.
  - cbn. rewrite decide_False; [done|]. apply not_elem_of_nil.
  - rewrite !fmap_app, !fmap_cons, !fmap_nil.
    rewrite accumulate_str_snoc, lookup_dict_add_str.
    rewrite filter_app, filter_cons, filter_nil.
    destruct (decide (k = key x)) as [->|Hne].
    + rewrite IH.
      destruct (decide (key x ∈ (key <$> xs) ++ [key x])) as [_|Hn];
        [|exfalso; apply Hn, elem_of_app; right; apply list_elem_of_here].
      destruct (decide (key x = key x)) as [_|]; [|done].
      f_equal. rewrite fmap_app, fmap_cons, fmap_nil.
      unfold Py.sum at 2. rewrite fold_left_app. cbn [fold_left].
      f_equal.
      destruct (decide (key x ∈ key <$> xs)) as [Hin|Hin]; [reflexivity|].
      cbn [default]. unfold Datatypes.id.
      rewrite filter_none; [reflexivity|].
      intros y Hy Hky. apply Hin. rewrite <- Hky.
      by apply list_elem_of_fmap_2.
    + rewrite IH.
      destruct (decide (key x = k)) as [Heq|_]; [by subst k|].
      rewrite app_nil_r.
      destruct (decide (k ∈ key <$> xs)) as [Hin|Hout].
      * by rewrite decide_True by (apply elem_of_app; by left).
      * rewrite decide_False; [done|].
        intros [?|?%list_elem_of_singleton]%elem_of_app; done.
Qed.

Lemma lookup_str_elem_of (d : list (string * Q)) (k : string) (w : Q) :
  NoDup d.*1 → (k, w) ∈ d → UsagePatterns.lookup_str k d = Some w.
Proof.
  induction d as [|[k0 w0] d IH]; intros Hnd Hin.
  - by apply elem_of_nil in Hin.
  - rewrite fmap_cons in Hnd. apply NoDup_cons in Hnd as [Hk0 Hnd].
    cbn [UsagePatterns.lookup_str].
    apply elem_of_cons in Hin as [Heq|Hin].
    + injection Heq as -> ->. by rewrite decide_True.
    + case_decide as Hk; [|by apply IH].
      subst k0. exfalso. apply Hk0.
      by apply (list_elem_of_fmap_2 fst) in Hin.
Qed.

Lemma insert_desc_Permutation {A} (key : A → Q) (x : A) (xs : list A) :
  Py.insert_desc key x xs ≡ₚ x :: xs.
Proof.
  induction xs as [|y ys IH]; simpl; [done|].
  case_decide; [|done]. rewrite IH. apply Permutation_swap.
Qed.

Lemma sorted_desc_Permutation {A} (key : A → Q) (xs : list A) :
  Py.sorted_desc key xs ≡ₚ xs.
Proof.
  unfold Py.sorted_desc. induction xs as [|x xs IH]; simpl; [done|].
  by rewrite insert_desc_Permutation, IH.
Qed.

Lemma insert_desc_sorted {A} (key : A → Q) (x : A) (xs : list A) :
  StronglySorted (λ a b, key b <= key a)%Q xs →
  StronglySorted (λ a b, key b <= key a)%Q (Py.insert_desc key x xs).
Proof.
  induction 1 as [|y ys Hys IH Hy]; simpl.
  - repeat constructor.
  - case_decide as Hxy.
    + constructor; [exact IH|].
      rewrite insert_desc_Permutation. constructor; [qlra|exact Hy].
    + constructor; [by constructor|].
      constructor; [qlra|]. eapply Forall_impl; [exact Hy|].
      intros z Hz. simpl in Hz. qlra.
Qed.

Lemma sorted_desc_sorted {A} (key : A → Q) (xs : list A) :
  StronglySorted (λ a b, key b <= key a)%Q (Py.sorted_desc key xs).
Proof.
  unfold Py.sorted_desc. induction xs as [|x xs IH]; simpl; [constructor|].
  by apply insert_desc_sorted.
Qed.

(** X22: what [_analyze_usage_patterns] reports.  Only empty data gives
    the empty result.  Otherwise the peak hour and the peak day occur in
    the data and no other hour or day has a larger total; and the app
    distribution lists at most five distinct apps, each with its total
    duration, in non-increasing order of that total, every app left out
    having a total no larger than any listed one. *)
Theorem analyze_usage_patterns_spec
    (behavior_data : list BehaviorAnalyzer.BehaviorEntry) :
  match BehaviorAnalyzer._analyze_usage_patterns behavior_data with
  | None => behavior_data = []
  | Some p =>
      let apps := BehaviorAnalyzer.app_distribution p in
      behavior_data ≠ []
      ∧ (BehaviorAnalyzer.peak_usage_hour p
           ∈ BehaviorAnalyzer.hour <$> behavior_data
         ∧ ∀ e, e ∈ behavior_data →
             (UsagePatterns.hour_total (BehaviorAnalyzer.hour e) behavior_data
              <= UsagePatterns.hour_total (BehaviorAnalyzer.peak_usage_hour p)
                   behavior_data)%Q)
      ∧ (BehaviorAnalyzer.peak_usage_day p
           ∈ BehaviorAnalyzer.day_of_week <$> behavior_data
         ∧ ∀ e, e ∈ behavior_data →
             (UsagePatterns.day_total (BehaviorAnalyzer.day_of_week e)
                behavior_data
              <= UsagePatterns.day_total (BehaviorAnalyzer.peak_usage_day p)
                   behavior_data)%Q)
      ∧ length apps = Nat.min 5 (UsagePatterns.app_count behavior_data)
      ∧ NoDup apps.*1
      ∧ StronglySorted (λ x y, y.2 <= x.2)%Q apps
      ∧ (∀ a v, (a, v) ∈ apps →
           a ∈ BehaviorAnalyzer.app_name <$> behavior_data
           ∧ v = UsagePatterns.app_total a behavior_data)
      ∧ (∀ a v e, (a, v) ∈ apps → e ∈ behavior_data →
           BehaviorAnalyzer.app_name e ∉ apps.*1 →
           (UsagePatterns.app_total (BehaviorAnalyzer.app_name e) behavior_data
            <= v)%Q)
  end.
Proof.
  destruct behavior_data as [|e0 rest]; [reflexivity|].
  set (data := e0 :: rest).
  assert (Hne : data ≠ []) by done.
  change (BehaviorAnalyzer._analyze_usage_patterns data)
    with (Some
      {| BehaviorAnalyzer.peak_usage_hour :=
           BehaviorAnalyzer.peak_key
             (Py.accumulate
                ((λ e, (BehaviorAnalyzer.hour e, BehaviorAnalyzer.duration e))
                   <$> data));
         BehaviorAnalyzer.peak_usage_day :=
           BehaviorAnalyzer.peak_key
             (Py.accumulate
                ((λ e, (BehaviorAnalyzer.day_of_week e,
                        BehaviorAnalyzer.duration e)) <$> data));
         BehaviorAnalyzer.hourly_distribution :=
           Py.accumulate
             ((λ e, (BehaviorAnalyzer.hour e, BehaviorAnalyzer.duration e))
                <$> data);
         BehaviorAnalyzer.daily_distribution :=
           Py.accumulate
             ((λ e, (BehaviorAnalyzer.day_of_week e,
                     BehaviorAnalyzer.duration e)) <$> data);
         BehaviorAnalyzer.app_distribution :=
           take 5
             (Py.sorted_desc snd
                (Py.accumulate_str
                   ((λ e, (BehaviorAnalyzer.app_name e,
                           BehaviorAnalyzer.duration e)) <$> data)));
         BehaviorAnalyzer.consistency_score :=
           BehaviorAnalyzer._calculate_pattern_consistency data;
         BehaviorAnalyzer.usage_variability :=
           BehaviorAnalyzer._calculate_usage_variability data |}).
  cbv zeta.
  cbn [BehaviorAnalyzer.peak_usage_hour BehaviorAnalyzer.peak_usage_day
       BehaviorAnalyzer.app_distribution].
  clearbody data.
  split; [exact Hne|].
  split.
  { destruct (peak_key_spec BehaviorAnalyzer.hour BehaviorAnalyzer.duration
                data Hne) as [Hin Hmax].
    split; [exact Hin|]. intros e He.
    apply Hmax. by apply list_elem_of_fmap_2. }
  split.
  { destruct (peak_key_spec BehaviorAnalyzer.day_of_week
                BehaviorAnalyzer.duration data Hne) as [Hin Hmax].
    split; [exact Hin|]. intros e He.
    apply Hmax. by apply list_elem_of_fmap_2. }
  set (kvs := (λ e, (BehaviorAnalyzer.app_name e, BehaviorAnalyzer.duration e))
                <$> data).
  assert (Hkvs : kvs.*1 = BehaviorAnalyzer.app_name <$> data).
  { unfold kvs. by rewrite <- list_fmap_compose. }
  destruct (accumulate_str_keys kvs) as [Hnd Hkeys].
  rewrite Hkvs in Hkeys.
  set (d := Py.accumulate_str kvs) in *.
  pose proof (sorted_desc_Permutation snd d) as Hperm.
  pose proof (sorted_desc_sorted snd d) as Hsorted.
  set (s := Py.sorted_desc snd d) in *.
  assert (Hs_nd : NoDup s.*1) by (by rewrite Hperm).
  assert (Hs_val : ∀ a v, (a, v) ∈ s →
            a ∈ BehaviorAnalyzer.app_name <$> data
            ∧ v = UsagePatterns.app_total a data).
  { intros a v Hav. rewrite Hperm in Hav.
    assert (Ha : a ∈ BehaviorAnalyzer.app_name <$> data).
    { apply Hkeys. by apply (list_elem_of_fmap_2 fst) in Hav. }
    split; [exact Ha|].
    apply (lookup_str_elem_of _ _ _ Hnd) in Hav.
    unfold d, kvs in Hav. rewrite accumulate_str_lookup in Hav.
    rewrite decide_True in Hav by done. by injection Hav as <-. }
  rewrite <- (take_drop 5 s) in Hsorted, Hs_nd, Hs_val.
  split.
  { rewrite length_take. f_equal.
    rewrite Hperm.
    rewrite <- (length_fmap fst), <- (size_list_to_set (C := gset string))
      by done.
    unfold UsagePatterns.app_count. f_equal. apply set_eq. intros a.
    by rewrite !elem_of_list_to_set, Hkeys. }
  split.
  { rewrite fmap_app in Hs_nd. by apply NoDup_app in Hs_nd as [? _]. }
  split; [by apply StronglySorted_app_1_l in Hsorted|].
  split.
  { intros a v Hav. apply Hs_val, elem_of_app. by left. }
  intros a v e Hav He Hout.
  assert (Hin : BehaviorAnalyzer.app_name e ∈ s.*1).
  { rewrite Hperm. apply Hkeys. by apply list_elem_of_fmap_2. }
  apply list_elem_of_fmap in Hin as ([b w] & Hb & Hbw). cbn [fst] in Hb.
  subst b.
  rewrite <- (take_drop 5 s) in Hbw.
  apply elem_of_app in Hbw as [Hbw|Hbw].
  { exfalso. apply Hout. by apply (list_elem_of_fmap_2 fst) in Hbw. }
  destruct (Hs_val _ w ltac:(apply elem_of_app; right; exact Hbw))
    as [_ <-].
  apply (StronglySorted_app_1_elem_of _ _ _ (a, v)
           (BehaviorAnalyzer.app_name e, w) Hsorted Hav Hbw).
Qed.

Lemma size_hours_le (hours : list Z) :
  Forall (λ h, 0 ≤ h < 24)%Z hours →
  (size (list_to_set hours : gset Z) ≤ 24)%nat.
Proof.
  intros Hall.
  assert (Hsub : (list_to_set hours : gset Z) ⊆ list_to_set (seqZ 0 24)).
  { intros h Hh. apply elem_of_list_to_set in Hh.
    apply elem_of_list_to_set, elem_of_seqZ.
    apply (proj1 (Forall_forall _ _) Hall) in Hh. lia. }
  apply subseteq_size in Hsub.
  rewrite (size_list_to_set (seqZ 0 24)) in Hsub by apply NoDup_seqZ.
  by rewrite length_seqZ in Hsub.
Qed.

Lemma py_std_const (t : Q) (xs : list Q) :
  xs ≠ [] → Forall (λ x, x == t)%Q xs → Py.std xs = 0%R.
Proof.
  intros Hne Hall. unfold Py.std.
  pose proof (py_mean_const t xs Hne Hall) as Hmean.
  assert (Hdev :
    (Py.mean ((λ x, (x - Py.mean xs) * (x - Py.mean xs))%Q <$> xs) == 0)%Q).
  { apply py_mean_const; [by destruct xs|].
    apply Forall_fmap, Forall_forall. intros x Hx. cbn.
    apply (proj1 (Forall_forall _ _) Hall) in Hx. rewrite Hx, Hmean.
    qlra. }
  rewrite (Qeq_eqR _ _ Hdev).
  replace (Q2R 0) with 0%R by (unfold Q2R; simpl; rlra).
  apply sqrt_0.
Qed.

(** X23: the variability metrics.  The duration variability is never
    negative, so the session regularity never exceeds 1; for hours of
    day between 0 and 23 the time spread lies between 0 and 1, and is
    at least 1/24 once there is data; sessions that all last the same
    positive time have variability 0 and regularity 1. *)
Theorem calculate_usage_variability_spec
    (behavior_data : list BehaviorAnalyzer.BehaviorEntry)
    (Hhours :
       Forall (λ e, 0 ≤ BehaviorAnalyzer.hour e < 24)%Z behavior_data) :
  let v := BehaviorAnalyzer._calculate_usage_variability behavior_data in
  (0 <= BehaviorAnalyzer.duration_variability v)%R
  ∧ (BehaviorAnalyzer.session_regularity v <= 1)%R
  ∧ (0 <= BehaviorAnalyzer.time_spread v <= 1)%Q
  ∧ (behavior_data ≠ [] → (1 # 24 <= BehaviorAnalyzer.time_spread v)%Q)
  ∧ (∀ t, (0 < t)%Q → behavior_data ≠ [] →
       Forall (λ e, BehaviorAnalyzer.duration e == t)%Q behavior_data →
       BehaviorAnalyzer.duration_variability v = 0%R
       ∧ BehaviorAnalyzer.session_regularity v = 1%R).
Proof.
  intros v. subst v. unfold BehaviorAnalyzer._calculate_usage_variability.
  cbn [BehaviorAnalyzer.duration_variability BehaviorAnalyzer.time_spread
       BehaviorAnalyzer.session_regularity].
  set (durations := BehaviorAnalyzer.duration <$> behavior_data).
  set (n := size (list_to_set (BehaviorAnalyzer.hour <$> behavior_data)
                  : gset Z)).
  assert (Hcv :
    (0 <= (if decide (0 < Py.mean durations)%Q
           then Py.std durations / Q2R (Py.mean durations) else 0))%R).
  { case_decide as Hpos; [|rlra].
    apply Qlt_Rlt in Hpos.
    replace (Q2R 0) with 0%R in Hpos by (unfold Q2R; simpl; rlra).
    unfold Rdiv. apply Rmult_le_pos.
    - unfold Py.std. apply sqrt_pos.
    - left. by apply Rinv_0_lt_compat. }
  assert (Hn : (n ≤ 24)%nat).
  { apply size_hours_le, Forall_fmap.
    eapply Forall_impl; [exact Hhours|]. done. }
  split; [exact Hcv|]. split; [rlra|].
  split; [|split].
  - assert (H0 : (0 <= inject_Z (Z.of_nat n))%Q)
      by (change 0%Q with (inject_Z 0); rewrite <- Zle_Qle; lia).
    assert (H24 : (inject_Z (Z.of_nat n) <= 24)%Q)
      by (change 24%Q with (inject_Z 24); rewrite <- Zle_Qle; lia).
    unfold Qdiv. change (/ 24)%Q with (1 # 24)%Q. split; qlra.
  - intros Hne.
    assert (H1 : (1 <= inject_Z (Z.of_nat n))%Q).
    { change 1%Q with (inject_Z 1). rewrite <- Zle_Qle.
      destruct behavior_data as [|e rest]; [done|].
      unfold n. rewrite fmap_cons, list_to_set_cons, size_union_alt,
        size_singleton. lia. }
    unfold Qdiv. change (/ 24)%Q with (1 # 24)%Q. qlra.
  - intros t Ht Hne Hall.
    assert (Hd : Forall (λ x, x == t)%Q durations).
    { unfold durations. apply Forall_fmap.
      eapply Forall_impl; [exact Hall|]. done. }
    assert (Hdne : durations ≠ []) by (unfold durations; by destruct behavior_data).
    rewrite decide_True by (rewrite (py_mean_const t) by done; exact Ht).
    rewrite (py_std_const t) by done.
    unfold Rdiv. rewrite Rmult_0_l. split; [reflexivity|rlra].
Qed.

Lemma calculate_usage_variability_spec_witness :
  Forall (λ e, 0 ≤ BehaviorAnalyzer.hour e < 24)%Z Consistency.zero_week
  ∧ (0 <= BehaviorAnalyzer.time_spread
            (BehaviorAnalyzer._calculate_usage_variability
               Consistency.zero_week) <= 1)%Q.
Proof.
  assert (H : Forall (λ e, 0 ≤ BehaviorAnalyzer.hour e < 24)%Z
                Consistency.zero_week).
  { apply Forall_forall. intros e He.
    apply (bool_decide_unpack _).
    revert e He. apply Forall_forall.
    repeat constructor. }
  split; [exact H|].
  exact (proj1 (proj2 (proj2
           (calculate_usage_variability_spec Consistency.zero_week H)))).
Defined.

(** ** The three-day summary of the response *)

Lemma qfloor_ge (k : Z) (q : Q) : (k ≤ Qfloor q)%Z ↔ (inject_Z k <= q)%Q.
Proof.
  split.
  - intros Hk. eapply Qle_trans; [|apply Qfloor_le]. by rewrite <- Zle_Qle.
  - intros Hk. destruct (decide (k ≤ Qfloor q)%Z) as [|Hlt]; [done|].
    exfalso. pose proof (Qlt_floor q) as Hq.
    assert (Hle : (inject_Z (Qfloor q + 1) <= inject_Z k)%Q)
      by (rewrite <- Zle_Qle; lia).
    qlra.
Qed.

(** X25: the risk level of a day in the three-day summary against the
    rule-based level of the same day.  The summary level counts whole
    blocks of 120 minutes, up to 3.  For a day with a non-negative
    total, night usage of at most 60 and at most 3 binge sessions it is
    the rule-based level, except at exactly 120, 240 and 360 minutes,
    where it is one higher. *)
Theorem summary_risk_level_spec (day : gmap string Q) (total : Q)
    (Htotal : day !! "total_duration" = Some total)
    (Hnonneg : (0 <= total)%Q)
    (Hnight : (AddictionPredictor.get day "night_usage" <= 60)%Q)
    (Hbinge : (AddictionPredictor.get day "binge_sessions" <= 3)%Q) :
  let rule_level :=
    AddictionPredictor.risk_level
      (AddictionPredictor._rule_based_prediction day) in
  ∃ level,
    Main.summary_risk_level day = Some level
    ∧ (0 ≤ level ≤ 3)%Z
    ∧ (rule_level ≤ level ≤ rule_level + 1)%Z
    ∧ (level = (rule_level + 1)%Z
       ↔ (total == 120 ∨ total == 240 ∨ total == 360)%Q).
Proof.
  intros rule_level. subst rule_level.
  destruct (rule_based_prediction_score day) as [-> _].
  unfold RiskRules.rule_score, RiskRules.usage_tier.
  assert (Hget : AddictionPredictor.get day "total_duration" = total).
  { unfold AddictionPredictor.get. by rewrite Htotal. }
  rewrite Hget.
  rewrite (decide_False (P := (60 < _)%Q)) by qlra.
  rewrite (decide_False (P := (3 < _)%Q)) by qlra.
  unfold Main.summary_risk_level. rewrite Htotal.
  eexists. split; [reflexivity|].
  set (f := Qfloor (total / 120)).
  assert (Hk : ∀ k : Z, (k ≤ f)%Z ↔ (inject_Z k * 120 <= total)%Q).
  { intros k. unfold f. rewrite qfloor_ge. unfold Qdiv.
    change (/ 120)%Q with (1 # 120)%Q. split; intros; qlra. }
  pose proof (Hk 0%Z) as Hk0. pose proof (Hk 1%Z) as Hk1.
  pose proof (Hk 2%Z) as Hk2. pose proof (Hk 3%Z) as Hk3.
  pose proof (Hk 4%Z) as Hk4.
  change (inject_Z 0) with 0%Q in Hk0. change (inject_Z 1) with 1%Q in Hk1.
  change (inject_Z 2) with 2%Q in Hk2. change (inject_Z 3) with 3%Q in Hk3.
  change (inject_Z 4) with 4%Q in Hk4.
  clearbody f.
  assert (H0 : (0 ≤ f)%Z) by (apply Hk0; qlra).
  destruct (decide (360 < total)%Q) as [H360|H360].
  { assert (3 ≤ f)%Z by (apply Hk3; qlra).
    split; [lia|]. split; [lia|].
    split; [lia|]. intros [Hx|[Hx|Hx]]; exfalso; qlra. }
  destruct (decide (240 < total)%Q) as [H240|H240].
  { assert (2 ≤ f)%Z by (apply Hk2; qlra).
    destruct (decide (total == 360)%Q) as [Heq|Hne].
    - assert (3 ≤ f)%Z by (apply Hk3; qlra).
      split; [lia|]. split; [lia|]. split; [intros _; tauto|intros _; lia].
    - assert (¬ (3 ≤ f)%Z) by (rewrite Hk3; intros ?; apply Hne; qlra).
      split; [lia|]. split; [lia|].
      split; [lia|]. intros [Hx|[Hx|Hx]]; exfalso; qlra. }
  destruct (decide (120 < total)%Q) as [H120|H120].
  { assert (1 ≤ f)%Z by (apply Hk1; qlra).
    destruct (decide (total == 240)%Q) as [Heq|Hne].
    - assert (2 ≤ f)%Z by (apply Hk2; qlra).
      assert (¬ (3 ≤ f)%Z) by (rewrite Hk3; intros ?; qlra).
      split; [lia|]. split; [lia|]. split; [intros _; tauto|intros _; lia].
    - assert (¬ (2 ≤ f)%Z) by (rewrite Hk2; intros ?; apply Hne; qlra).
      split; [lia|]. split; [lia|].
      split; [lia|]. intros [Hx|[Hx|Hx]]; exfalso; qlra. }
  destruct (decide (total == 120)%Q) as [Heq|Hne].
  - assert (1 ≤ f)%Z by (apply Hk1; qlra).
    assert (¬ (2 ≤ f)%Z) by (rewrite Hk2; intros ?; qlra).
    split; [lia|]. split; [lia|]. split; [intros _; tauto|intros _; lia].
  - assert (¬ (1 ≤ f)%Z) by (rewrite Hk1; intros ?; apply Hne; qlra).
    split; [lia|]. split; [lia|].
    split; [lia|]. intros [Hx|[Hx|Hx]]; exfalso; qlra.
Qed.

Lemma summary_risk_level_spec_witness :
  RiskRules.quiet_day 240 !! "total_duration" = Some 240%Q
  ∧ Main.summary_risk_level (RiskRules.quiet_day 240) = Some 2%Z
  ∧ AddictionPredictor.risk_level
      (AddictionPredictor._rule_based_prediction (RiskRules.quiet_day 240))
    = 1%Z.
Proof.
  assert (Ht : RiskRules.quiet_day 240 !! "total_duration" = Some 240%Q)
    by reflexivity.
  split; [exact Ht|].
  destruct (summary_risk_level_spec (RiskRules.quiet_day 240) 240 Ht
              ltac:(by vm_compute) ltac:(by vm_compute) ltac:(by vm_compute))
    as (level & Hlevel & _ & _ & Hiff).
  assert (Hrule :
    AddictionPredictor.risk_level
      (AddictionPredictor._rule_based_prediction (RiskRules.quiet_day 240))
    = 1%Z) by reflexivity.
  split; [|exact Hrule].
  rewrite Hlevel. f_equal. rewrite Hrule in Hiff.
  apply Hiff. right. left. reflexivity.
Defined.
